(** * L2_Benchmark cost reports: a shallow embedding of the analysis scripts

    The repository holds four pandas scripts:

    - [hardhat/panda.py]              ([Module Panda]),
    - [data_analysis/avg_cost.py]     ([Module AvgCost]),
    - [data_analysis/deployment.py]   ([Module Deployment]),
    - [data_analysis/contract.py]     ([Module ContractCharts]).

    Costs are IEEE-754 binary64 numbers, as in pandas ([float64]); they are
    modelled by the Standard Library's [spec_float] at precision 53 and
    maximal exponent 1024, so that every arithmetic step of the scripts
    (subtraction, division by zero, NaN propagation) is the one the scripts
    perform.  A data frame is the list of its rows, in index order; the
    columns the scripts group by hold text.  Printing and file output are
    recorded as a trace of events; an uncaught Python exception ends a run.
    Drawing a chart is the plotting library's work: it leaves no event and
    is taken to succeed, so that a trace shows a figure only when it is
    saved or shown.  Of [data_analysis/contract.py], which only draws
    charts, the embedding keeps the series it draws as lines and the course
    of the run. *)

From Stdlib Require Import ZArith List String Ascii Bool Lia SpecFloat.
From Stdlib Require Import Sorting.Sorted Sorting.Permutation.
From stdpp Require Import base tactics option list sorting gmap strings.

Local Open Scope string_scope.
Local Open Scope list_scope.
Local Open Scope Z_scope.

(** ** IEEE binary64 *)

Module F64.

Definition prec : Z := 53.
Definition emax : Z := 1024.

Definition float : Type := spec_float.

Definition nan : float := S754_nan.
Definition zero : float := S754_zero false.
Definition inf (neg : bool) : float := S754_infinity neg.

Definition add : float -> float -> float := SFadd prec emax.
Definition sub : float -> float -> float := SFsub prec emax.
Definition mul : float -> float -> float := SFmul prec emax.
Definition div : float -> float -> float := SFdiv prec emax.

(** Python's [x <= y] and [x < y] on floats: both are [False] as soon as one
    side is NaN. *)
Definition leb : float -> float -> bool := SFleb.
Definition ltb : float -> float -> bool := SFltb.

(** [pd.isna] / [np.isnan] on a float. *)
Definition isna (x : float) : bool :=
  match x with S754_nan => true | _ => false end.

(** The binary64 number nearest to [m * 10 ^ e10] (ties to even), with the
    sign [neg]: the value a decimal literal denotes.  [m] is the digit string
    read as a natural number. *)
Definition of_decimal (neg : bool) (m : Z) (e10 : Z) : float :=
  match m with
  | Z0 => S754_zero neg
  | Zpos p =>
      match e10 with
      | Zneg k =>
          let '(q, e, l) :=
            SFdiv_core_binary prec emax (Zpos p) 0 (Z.pow 10 (Zpos k)) 0 in
          binary_round_aux prec emax neg q e l
      | _ => binary_round prec emax neg (Pos.mul p (Z.to_pos (Z.pow 10 e10))) 0
      end
  | Zneg _ => S754_nan
  end.

(** An integer as a float ([float(n)], and the literals [100] and [0] that
    the scripts mix into float arithmetic). *)
Definition of_Z (n : Z) : float :=
  match n with
  | Zneg p => of_decimal true (Zpos p) 0
  | _ => of_decimal false n 0
  end.

Definition of_nat (n : nat) : float := of_Z (Z.of_nat n).

End F64.

Abbreviation float := F64.float.

(** ** Numeric text

    [float(s)] of Python and the string branch of [pd.to_numeric] read the
    same decimal syntax: surrounding blanks, an optional sign, then either
    [nan], [inf] or [infinity] in any letter case, or digits with an optional
    fraction and an optional exponent.  (Python's digit-group underscores,
    which pandas does not read, are left out: such text is no number here.) *)

Module NumericText.

Definition is_blank (c : ascii) : bool :=
  let n := nat_of_ascii c in
  (Nat.eqb n 32 || (Nat.leb 9 n && Nat.leb n 13))%bool.

Definition digit_value (c : ascii) : option Z :=
  let n := Z.of_nat (nat_of_ascii c) in
  if (48 <=? n) && (n <=? 57) then Some (n - 48) else None.

Definition lower (c : ascii) : ascii :=
  let n := nat_of_ascii c in
  if (Nat.leb 65 n && Nat.leb n 90)%bool then ascii_of_nat (n + 32) else c.

Fixpoint drop_blanks (l : list ascii) : list ascii :=
  match l with
  | c :: r => if is_blank c then drop_blanks r else l
  | [] => []
  end.

Definition strip (l : list ascii) : list ascii :=
  rev (drop_blanks (rev (drop_blanks l))).

(** Reads the longest run of digits at the head of [l], continuing the number
    [acc]; returns the number, how many digits were read, and the rest. *)
Fixpoint digits (l : list ascii) (acc : Z) (n : nat) : Z * nat * list ascii :=
  match l with
  | c :: r =>
      match digit_value c with
      | Some d => digits r (10 * acc + d) (S n)
      | None => (acc, n, l)
      end
  | [] => (acc, n, [])
  end.

Definition sign (l : list ascii) : bool * list ascii :=
  match l with
  | "-"%char :: r => (true, r)
  | "+"%char :: r => (false, r)
  | _ => (false, l)
  end.

(** The exponent part, after the mantissa: nothing, or [e] / [E], an optional
    sign and at least one digit, up to the end of the text. *)
Definition exponent (l : list ascii) : option Z :=
  match l with
  | [] => Some 0
  | c :: r =>
      if (Ascii.eqb c "e" || Ascii.eqb c "E")%bool then
        let '(neg, r1) := sign r in
        let '(e, n, r2) := digits r1 0 0 in
        match n, r2 with
        | S _, [] => Some (if neg then - e else e)
        | _, _ => None
        end
      else None
  end.

Definition decimal (neg : bool) (l : list ascii) : option float :=
  let '(ip, ni, r1) := digits l 0 0 in
  let '(m, nf, r2) :=
    match r1 with
    | "."%char :: r => digits r ip 0
    | _ => (ip, O, r1)
    end in
  match (ni + nf)%nat with
  | O => None
  | S _ =>
      match exponent r2 with
      | Some e => Some (F64.of_decimal neg m (e - Z.of_nat nf))
      | None => None
      end
  end.

Definition special (neg : bool) (l : list ascii) : option float :=
  let w := string_of_list_ascii (map lower l) in
  if String.eqb w "nan" then Some F64.nan
  else if (String.eqb w "inf" || String.eqb w "infinity")%bool
       then Some (F64.inf neg)
       else None.

(** [float(s)]: [None] stands for Python's [ValueError]. *)
Definition to_float (s : string) : option float :=
  let '(neg, body) := sign (strip (list_ascii_of_string s)) in
  match special neg body with
  | Some x => Some x
  | None => decimal neg body
  end.

End NumericText.

(** ** Runs: output trace and uncaught exceptions *)

Inductive exn : Type :=
  | ValueError
  | IndexError
  | UnboundLocalError.

(** A pure step that may raise. *)
Definition result (A : Type) : Type := exn + A.

#[global] Instance result_mret : MRet result := fun A a => inr a.
#[global] Instance result_mbind : MBind result := fun A B k m =>
  match m with
  | inl e => inl e
  | inr a => k a
  end.
#[global] Instance result_fmap : FMap result := fun A B f m =>
  match m with
  | inl e => inl e
  | inr a => inr (f a)
  end.

(** A value interpolated in an f-string or shown in a printed table.  The
    trace keeps the value itself; turning it into digits is the formatter's
    work. *)
Inductive field : Type :=
  | FStr (s : string)
  | FNum (x : float)
  | FInt (n : nat).

Inductive event : Type :=
  | Print (template : string) (args : list field)
  | PrintTable (header : list string) (rows : list (list field))
  | MakeDirs (path : string)
  | SaveFig (path : string)
  | ShowFig.

(** A run yields the events it emitted and either the exception that ended
    it or its result. *)
Definition run (A : Type) : Type := list event * result A.

Definition run_ret {A : Type} (a : A) : run A := ([], inr a).

Definition run_bind {A B : Type} (k : A -> run B) (m : run A) : run B :=
  match m with
  | (t, inl e) => (t, inl e)
  | (t, inr a) => let '(t', r) := k a in (t ++ t', r)
  end.

#[global] Instance run_mret : MRet run := @run_ret.
#[global] Instance run_mbind : MBind run := @run_bind.

Definition emit (e : event) : run unit := ([e], inr tt).
Definition raise {A : Type} (e : exn) : run A := ([], inl e).

(** Lifts a pure computation that may raise. *)
Definition lift {A : Type} (r : result A) : run A := ([], r).

Definition print (text : string) : run unit := emit (Print text []).
Definition printf (template : string) (args : list field) : run unit :=
  emit (Print template args).

(** [for x in l: body x] *)
Fixpoint for_each {A : Type} (l : list A) (body : A -> run unit) : run unit :=
  match l with
  | [] => mret tt
  | x :: r => body x ;; for_each r body
  end.

Definition trace {A : Type} (m : run A) : list event := m.1.
Definition outcome {A : Type} (m : run A) : result A := m.2.

(** The image files a trace wrote. *)
Definition artifacts (t : list event) : list string :=
  omap (fun e => match e with SaveFig p => Some p | _ => None end) t.

(** The numbers a trace printed, in f-strings and in tables. *)
Definition field_number (f : field) : option float :=
  match f with FNum x => Some x | _ => None end.

Definition printed_numbers (t : list event) : list float :=
  t ≫= (fun e =>
    match e with
    | Print _ args => omap field_number args
    | PrintTable _ rows => rows ≫= omap field_number
    | _ => []
    end).

(** The integers a trace printed (ranks, counts). *)
Definition field_integer (f : field) : option nat :=
  match f with FInt n => Some n | _ => None end.

Definition printed_integers (t : list event) : list nat :=
  t ≫= (fun e =>
    match e with
    | Print _ args => omap field_integer args
    | PrintTable _ rows => rows ≫= omap field_integer
    | _ => []
    end).

(** The text of the lines a trace printed (f-string templates as written). *)
Definition printed_text (t : list event) : list string :=
  omap (fun e => match e with Print s _ => Some s | _ => None end) t.

(** [s * n] on a Python string. *)
Fixpoint str_mul (s : string) (n : nat) : string :=
  match n with
  | O => ""
  | S n' => s +:+ str_mul s n'
  end.

(** ** The pandas operations the scripts call

    Each definition gives the documented behaviour of the call named in its
    comment, on the data shapes the scripts use: a column of floats, string
    group keys, a frame as the list of its rows. *)

Module Pandas.

(** A cell of a cost column as [read_csv] leaves it: a number (every cell
    of a column read as numeric; NaN for an empty field) or, in a column
    that holds some text that is no number, the text of the field. *)
Inductive cell : Type :=
  | Num (x : float)
  | Text (s : string).

(** [pd.to_numeric(_, errors='coerce')], cell by cell. *)
Definition to_numeric (c : cell) : float :=
  match c with
  | Num x => x
  | Text s => default F64.nan (NumericText.to_float s)
  end.

Fixpoint remove_dollars (s : string) : string :=
  match s with
  | EmptyString => EmptyString
  | String c r =>
      if Ascii.eqb c "$" then remove_dollars r else String c (remove_dollars r)
  end.

(** [Series.replace({'\$': ''}, regex=True)], cell by cell: every dollar
    sign of a text is removed; numbers are left alone. *)
Definition replace_dollar (c : cell) : cell :=
  match c with
  | Num x => Num x
  | Text s => Text (remove_dollars s)
  end.

(** [Series.astype(float)], cell by cell. *)
Definition astype_float (c : cell) : result float :=
  match c with
  | Num x => inr x
  | Text s =>
      match NumericText.to_float s with
      | Some x => inr x
      | None => inl ValueError
      end
  end.

(** The values that are not NaN ([skipna=True], the default of every
    reduction below). *)
Definition dropna (xs : list float) : list float :=
  filter (fun x => F64.isna x = false) xs.

(** [Series.sum()] and the grouped [sum()].  The values are added from left
    to right; the library's own order of additions (pairwise, compensated)
    can differ from it in the last bit of a result. *)
Definition sum (xs : list float) : float :=
  foldl F64.add F64.zero (dropna xs).

(** [Series.mean()] and the grouped [mean()]: the sum of the numbers over
    their count, NaN when there is none. *)
Definition mean (xs : list float) : float :=
  match dropna xs with
  | [] => F64.nan
  | v => F64.div (sum v) (F64.of_nat (length v))
  end.

(** [Series.unique()]: the distinct values, each at its first occurrence. *)
Fixpoint unique (l : list string) : list string :=
  match l with
  | [] => []
  | x :: r => x :: filter (fun y => y <> x) (unique r)
  end.

Definition string_le (s t : string) : Prop := String.leb s t = true.

#[global] Instance string_le_dec s t : Decision (string_le s t).
Proof. unfold string_le. apply _. Defined.

(** The group keys of a [groupby] (default [sort=True]): distinct, in
    ascending order. *)
Definition sorted_keys (ks : list string) : list string :=
  merge_sort string_le (remove_dups ks).

(** [df.groupby(key)]: each key with its rows, in frame order. *)
Definition groupby {R : Type} (key : R -> string) (df : list R)
  : list (string * list R) :=
  (fun k => (k, filter (fun r => key r = k) df)) <$> sorted_keys (key <$> df).

(** [df.groupby([key1, key2])]: the key pairs come in lexicographic order. *)
Definition groupby2 {R : Type} (key1 key2 : R -> string) (df : list R)
  : list (string * string * list R) :=
  groupby key1 df ≫= (fun g1 =>
    (fun g2 => (g1.1, g2.1, g2.2)) <$> groupby key2 g1.2).

(** [grouped[col].f()] for a reduction [f]: one value per group. *)
Definition agg {K R : Type} (f : list float -> float) (col : R -> float)
    (g : list (K * list R)) : list (K * float) :=
  (fun kg => (kg.1, f (col <$> kg.2))) <$> g.

Definition fill (v x : float) : float := if F64.isna x then v else x.

(** Scans for the first row that is strictly better than all before it. *)
Fixpoint arg_first {R : Type} (better : float -> float -> bool)
    (key : R -> float) (best : R) (l : list R) : R :=
  match l with
  | [] => best
  | x :: r =>
      arg_first better key (if better (key x) (key best) then x else best) r
  end.

(** The row [df.loc[df[col].idxmax()]]: NaN counts as minus infinity and the
    first row holding the maximum is taken.  An empty column raises
    [ValueError]; so does a column of NaN only (pandas 3; earlier versions
    fail in the [loc] that follows). *)
Definition idxmax {R : Type} (col : R -> float) (df : list R) : result R :=
  match df with
  | [] => inl ValueError
  | x :: r =>
      if forallb (fun y => F64.isna (col y)) df then inl ValueError
      else inr (arg_first (fun a b => F64.ltb b a)
                  (fun y => fill (F64.inf true) (col y)) x r)
  end.

(** The row [df.loc[df[col].idxmin()]], likewise with plus infinity. *)
Definition idxmin {R : Type} (col : R -> float) (df : list R) : result R :=
  match df with
  | [] => inl ValueError
  | x :: r =>
      if forallb (fun y => F64.isna (col y)) df then inl ValueError
      else inr (arg_first (fun a b => F64.ltb a b)
                  (fun y => fill (F64.inf false) (col y)) x r)
  end.

(** [sort_values()] is called with its default [kind='quicksort'].  The
    library documents that kind as a sort that need not be stable, and which
    algorithm runs depends on the numpy build and the size of the data.  The
    scripts therefore see it through its contract only: the result is a
    rearrangement of the NaN-free input in which each value is [<=] the
    next. *)
Record quicksort : Type := {
  argsort : forall A : Type, (A -> float) -> list A -> list A;
  argsort_perm : forall (A : Type) (by_ : A -> float) (l : list A),
    argsort A by_ l ≡ₚ l;
  argsort_sorted : forall (A : Type) (by_ : A -> float) (l : list A),
    Forall (fun x => F64.isna (by_ x) = false) l ->
    Sorted (fun x y => F64.leb (by_ x) (by_ y) = true) (argsort A by_ l)
}.

(** [sort_values(by)] (ascending, [na_position='last']): the rows without
    NaN are sorted, the rows with NaN follow in their frame order. *)
Definition sort_values {A : Type} (Q : quicksort) (by_ : A -> float)
    (l : list A) : list A :=
  argsort Q A by_ (filter (fun x => F64.isna (by_ x) = false) l)
  ++ filter (fun x => F64.isna (by_ x) = true) l.

(** Stable insertion sort, for the sorts pandas documents as stable
    ([sort_values] by several columns). *)
Fixpoint insert_by {A : Type} (le : A -> A -> bool) (x : A) (l : list A)
  : list A :=
  match l with
  | [] => [x]
  | y :: r => if le x y then x :: l else y :: insert_by le x r
  end.

Definition stable_sort {A : Type} (le : A -> A -> bool) (l : list A)
  : list A :=
  foldr (insert_by le) [] l.

(** [enumerate(l, 1)] *)
Definition enumerate1 {A : Type} (l : list A) : list (nat * A) :=
  zip (seq 1 (length l)) l.

(** A frame of numbers with labelled rows and columns (the result of a
    pivot). *)
Record frame : Type := {
  index : list string;
  columns : list string;
  data : list (list float)
}.

(** The value recorded for the pair [(r, c)], NaN when there is none. *)
Definition entry (s : list (string * string * float)) (r c : string) : float :=
  match filter (fun e => e.1 = (r, c)) s with
  | e :: _ => e.2
  | [] => F64.nan
  end.

(** Reshapes a long table of [(row key, column key, value)] into a matrix
    over the sorted distinct keys. *)
Definition unstack (s : list (string * string * float)) : frame :=
  let idx := sorted_keys ((fun e => e.1.1) <$> s) in
  let cols := sorted_keys ((fun e => e.1.2) <$> s) in
  {| index := idx;
     columns := cols;
     data := (fun r => (fun c => entry s r c) <$> cols) <$> idx |}.

(** [DataFrame.pivot(index, columns, values)]: a pair of keys that occurs
    twice raises [ValueError] ("Index contains duplicate entries, cannot
    reshape"). *)
Definition pivot (s : list (string * string * float)) : result frame :=
  if decide (NoDup (s.*1)) then inr (unstack s) else inl ValueError.

(** [DataFrame.pivot_table(values, index, columns, aggfunc)] (default
    [dropna=True]): rows are grouped by the two keys and reduced; groups
    whose result is NaN are dropped before reshaping. *)
Definition pivot_table {R : Type} (f : list float -> float) (col : R -> float)
    (key1 key2 : R -> string) (df : list R) : frame :=
  unstack (filter (fun e => F64.isna e.2 = false)
             (agg f col (groupby2 key1 key2 df))).

(** [DataFrame.fillna(v)] *)
Definition fillna (v : float) (f : frame) : frame :=
  {| index := index f;
     columns := columns f;
     data := (fun row : list float => fill v <$> row) <$> data f |}.

Definition position (k : string) (l : list string) : option nat :=
  fst <$> list_find (fun x => x = k) l.

(** [frame.loc[r, c]] ([None]: no such label). *)
Definition loc (f : frame) (r c : string) : option float :=
  i ← position r (index f);
  j ← position c (columns f);
  row ← data f !! i;
  row !! j.

End Pandas.

(** The newline character of Python's ["\n"]. *)
Definition nl : string := String (ascii_of_nat 10) EmptyString.

(** ** hardhat/panda.py *)

Module Panda.
Import Pandas.

(** A row of [output.csv]; [C] is the type of the ['USD Avg'] column:
    [cell] as loaded, [float] once cleaned. *)
Record row (C : Type) : Type := {
  Contract : string;
  Method : string;
  Network : string;
  USD_Avg : C
}.
Arguments Contract {C} _.
Arguments Method {C} _.
Arguments Network {C} _.
Arguments USD_Avg {C} _.

Definition coerce (r : row cell) : row float :=
  {| Contract := Contract r; Method := Method r; Network := Network r;
     USD_Avg := to_numeric (USD_Avg r) |}.

(** Lines 16-18: [df['USD Avg'] = pd.to_numeric(df['USD Avg'],
    errors='coerce')] and [df.dropna(subset=['USD Avg'], inplace=True)]. *)
Definition clean (raw : list (row cell)) : list (row float) :=
  filter (fun r => F64.isna (USD_Avg r) = false) (coerce <$> raw).

(** Line 28: [df[df['Method'] != 'deployment']] *)
Definition execution_df (df : list (row float)) : list (row float) :=
  filter (fun r => Method r <> "deployment") df.

(** Line 31:
    [execution_df.groupby(['Method', 'Network'])['USD Avg'].sum()] *)
Definition total_cost_by_function (df : list (row float))
  : list (string * string * float) :=
  agg sum USD_Avg (groupby2 Method Network (execution_df df)).

(** Line 34: [.pivot(index='Method', columns='Network',
    values='USD Avg').fillna(0)] *)
Definition pivot_execution (df : list (row float)) : result frame :=
  fillna F64.zero <$> pivot (total_cost_by_function df).

(** Line 60: [df[df['Method'] == 'deployment']] *)
Definition deployment_df (df : list (row float)) : list (row float) :=
  filter (fun r => Method r = "deployment") df.

(** Line 63: [deployment_df.pivot(index='Contract', columns='Network',
    values='USD Avg').fillna(0)] *)
Definition pivot_deployment (df : list (row float)) : result frame :=
  fillna F64.zero <$>
    pivot ((fun r => (Contract r, Network r, USD_Avg r)) <$> deployment_df df).

(** The whole script.  [output_csv] is what [pd.read_csv('output.csv')]
    finds: [None] when the file does not exist.  Drawing a chart leaves no
    event; saving it does. *)
Definition generate_cost_visualizations (output_csv : option (list (row cell)))
  : run unit :=
  match output_csv with
  | None =>
      print "Error: output.csv not found. Please ensure the file is in the correct directory."
  | Some raw =>
      print "CSV file loaded successfully.";;
      let df := clean raw in
      _ ← lift (pivot_execution df);
      emit (SaveFig "total_execution_cost_by_function.png");;
      print "Chart 'total_execution_cost_by_function.png' saved successfully.";;
      _ ← lift (pivot_deployment df);
      emit (SaveFig "deployment_cost_by_contract.png");;
      print "Chart 'deployment_cost_by_contract.png' saved successfully."
  end.

End Panda.

(** ** data_analysis/avg_cost.py *)

Module AvgCost.
Import Pandas.

(** A row of [contract.csv]; the ['usd avg'] column is numeric as loaded
    (NaN for an empty field). *)
Record row : Type := {
  Network : string;
  Contract : string;
  Function : string;
  usd_avg : float
}.

Definition output_dir : string := "gas_cost_analysis_charts".

(** [os.path.join] of a directory and a file name. *)
Definition path_join (d f : string) : string := d +:+ "/" +:+ f.

(** Line 75: [df.pivot_table(values='usd avg', index='Function',
    columns='Network', aggfunc='mean')] *)
Definition pivot_data (df : list row) : frame :=
  pivot_table mean usd_avg Function Network df.

(** Line 120: [df.groupby('Network')['usd avg'].mean().sort_values()] *)
Definition network_avg (Q : quicksort) (df : list row) : list (string * float) :=
  sort_values Q snd (agg mean usd_avg (groupby Network df)).

(** Line 121: [enumerate(network_avg.items(), 1)] *)
Definition ranking (Q : quicksort) (df : list row)
  : list (nat * (string * float)) :=
  enumerate1 (network_avg Q df).

(** Line 135: [df.loc[df.groupby('Network')['usd avg'].idxmax()]] *)
Definition most_expensive_per_network (df : list row) : result (list row) :=
  mapM (fun g => idxmax usd_avg g.2) (groupby Network df).

(** Section 4 of the script, lines 113-141: the printed summary. *)
Definition deeper_summary_analysis (Q : quicksort) (df : list row) : run unit :=
  print (nl +:+ str_mul "=" 80);;
  print "GAS COST STATISTICAL SUMMARY";;
  print (str_mul "=" 80);;
  print (nl +:+ "1. NETWORK COST EFFICIENCY RANKING (Lowest Average Cost First):");;
  print (str_mul "-" 60);;
  for_each (ranking Q df) (fun '(rank, (network, cost)) =>
    printf "  {rank}. {network:<15} - Average Cost: ${cost:.6f}"
      [FInt rank; FStr network; FNum cost]);;
  print (nl +:+ "2. OVERALL MOST & LEAST EXPENSIVE OPERATIONS:");;
  print (str_mul "-" 60);;
  most_expensive ← lift (idxmax usd_avg df);
  least_expensive ← lift (idxmin usd_avg df);
  printf "  - Most Expensive: {most_expensive['Network']} - {most_expensive['Contract']}/{most_expensive['Function']} (${most_expensive['usd avg']:.6f})"
    [FStr (Network most_expensive); FStr (Contract most_expensive);
     FStr (Function most_expensive); FNum (usd_avg most_expensive)];;
  printf "  - Least Expensive: {least_expensive['Network']} - {least_expensive['Contract']}/{least_expensive['Function']} (${least_expensive['usd avg']:.6f})"
    [FStr (Network least_expensive); FStr (Contract least_expensive);
     FStr (Function least_expensive); FNum (usd_avg least_expensive)];;
  print (nl +:+ "3. MOST EXPENSIVE OPERATION PER NETWORK:");;
  print (str_mul "-" 60);;
  rows ← lift (most_expensive_per_network df);
  for_each rows (fun row =>
    printf "  - {row['Network']:<15}: {row['Contract']}/{row['Function']} (${row['usd avg']:.6f})"
      [FStr (Network row); FStr (Contract row); FStr (Function row);
       FNum (usd_avg row)]);;
  print (nl +:+ str_mul "=" 80);;
  print "Analysis complete. All charts have been exported.";;
  print (str_mul "=" 80).

(** [analyze_gas_costs(filepath)].  [read_csv] is the file system as
    [pd.read_csv] sees it ([None]: no such file) and [dir_exists] tells
    whether the output directory is already there.  Drawing a chart leaves
    no event; saving it does. *)
Definition analyze_gas_costs (Q : quicksort)
    (read_csv : string -> option (list row)) (dir_exists : bool)
    (filepath : string) : run unit :=
  match read_csv filepath with
  | None => printf "Error: The file '{filepath}' was not found." [FStr filepath]
  | Some df =>
      (if dir_exists then mret tt else emit (MakeDirs output_dir));;
      print "Generating merged 3x2 grid of bar charts...";;
      let contracts := unique (Contract <$> df) in
      (* [for j in range(i + 1, len(axes))]: [i] is bound by the loop over
         [contracts] only. *)
      match contracts with
      | [] => raise UnboundLocalError
      | _ :: _ => mret tt
      end;;
      let merged_chart_path :=
        path_join output_dir "merged_contract_cost_comparison.png" in
      emit (SaveFig merged_chart_path);;
      printf "Saved merged contract chart to '{merged_chart_path}'"
        [FStr merged_chart_path];;
      print (nl +:+ "Generating cost heatmap...");;
      let _ := pivot_data df in
      let heatmap_path := path_join output_dir "cost_heatmap.png" in
      emit (SaveFig heatmap_path);;
      printf "Saved heatmap to '{heatmap_path}'" [FStr heatmap_path];;
      print (nl +:+ "Generating cost distribution box plot...");;
      let boxplot_path := path_join output_dir "cost_distribution_boxplot.png" in
      emit (SaveFig boxplot_path);;
      printf "Saved box plot to '{boxplot_path}'" [FStr boxplot_path];;
      deeper_summary_analysis Q df
  end.

(** Line 144: the call the module makes when it is loaded. *)
Definition main (Q : quicksort) (read_csv : string -> option (list row))
    (dir_exists : bool) : run unit :=
  analyze_gas_costs Q read_csv dir_exists "contract.csv".

End AvgCost.

(** ** data_analysis/deployment.py *)

Module Deployment.
Import Pandas.

(** A row of [deploymentgasestimation.csv]; [C] is the type of the
    ['Est. Deployment Cost (USD)'] column. *)
Record row (C : Type) : Type := {
  Contract : string;
  Network : string;
  Cost : C
}.
Arguments Contract {C} _.
Arguments Network {C} _.
Arguments Cost {C} _.

(** Lines 12-17: the frame built when the file is missing. *)
Definition data_Contract : list string :=
  ["ERC20"; "ERC20"; "ERC20"; "ERC721"; "ERC721"; "ERC721";
   "ERC1155"; "ERC1155"; "ERC1155"; "Proxy"; "Proxy"; "Proxy";
   "Vesting"; "Vesting"; "Vesting"; "DAO"; "DAO"; "DAO"].

Definition data_Network : list string :=
  ["Ethereum"; "Polygon"; "Arbitrum"; "Ethereum"; "Polygon"; "Arbitrum";
   "Ethereum"; "Polygon"; "Arbitrum"; "Ethereum"; "Polygon"; "Arbitrum";
   "Ethereum"; "Polygon"; "Arbitrum"; "Ethereum"; "Polygon"; "Arbitrum"].

Definition data_Cost : list string :=
  ["$55.20"; "$0.08"; "$0.95"; "$120.50"; "$0.15"; "$1.50";
   "$150.75"; "$0.20"; "$2.10"; "$80.00"; "$0.12"; "$1.20";
   "$95.30"; "$0.14"; "$1.35"; "$250.00"; "$0.30"; "$3.00"].

Definition dummy : list (row cell) :=
  zip_with (fun c nk => {| Contract := c; Network := nk.1; Cost := Text nk.2 |})
    data_Contract (zip data_Network data_Cost).

(** Line 21: [.replace({'\$': ''}, regex=True).astype(float)] on the cost
    column. *)
Definition clean (df : list (row cell)) : result (list (row float)) :=
  mapM (fun r =>
          x ← astype_float (replace_dollar (Cost r));
          mret {| Contract := Contract r; Network := Network r; Cost := x |})
       df.

(** Line 26 *)
Definition ethereum_df (df : list (row float)) : list (row float) :=
  filter (fun r => Network r = "Ethereum") df.

(** Lines 29-30 *)
Definition total_ethereum_cost (df : list (row float)) : float :=
  sum (Cost <$> ethereum_df df).

Definition average_ethereum_cost (df : list (row float)) : float :=
  mean (Cost <$> ethereum_df df).

(** Line 39: [ethereum_df.set_index('Contract')[...].to_dict()].  A contract
    listed twice keeps the cost of its last row. *)
Definition ethereum_cost_map (df : list (row float)) : gmap string float :=
  foldl (fun m r => <[Contract r := Cost r]> m) ∅ (ethereum_df df).

(** A row of [comparison_df] once its three columns are added. *)
Record comparison : Type := {
  cmp_Contract : string;
  cmp_Network : string;
  cmp_Cost : float;
  Ethereum_Cost : float;
  Discount_USD : float;
  Discount_pct : float
}.

(** Lines 45-49 on one row: [.map(ethereum_cost_map)] gives NaN for a
    contract that is no key of the map. *)
Definition compare (m : gmap string float) (r : row float) : comparison :=
  let ethereum_cost := default F64.nan (m !! Contract r) in
  let discount_usd := F64.sub ethereum_cost (Cost r) in
  {| cmp_Contract := Contract r;
     cmp_Network := Network r;
     cmp_Cost := Cost r;
     Ethereum_Cost := ethereum_cost;
     Discount_USD := discount_usd;
     Discount_pct := F64.mul (F64.div discount_usd ethereum_cost) (F64.of_Z 100) |}.

(** Lines 42-49 *)
Definition comparison_df (df : list (row float)) : list comparison :=
  compare (ethereum_cost_map df) <$> filter (fun r => Network r <> "Ethereum") df.

(** Ascending order with NaN last, as [sort_values] ranks a float column. *)
Definition cost_le (x y : float) : bool :=
  if F64.isna y then true else if F64.isna x then false else F64.leb x y.

(** Line 61: [sort_values(by=['Contract', 'Est. Deployment Cost (USD)'])];
    sorting by several columns is a stable lexicographic sort. *)
Definition by_contract_then_cost (a b : comparison) : bool :=
  if String.eqb (cmp_Contract a) (cmp_Contract b)
  then cost_le (cmp_Cost a) (cmp_Cost b)
  else String.ltb (cmp_Contract a) (cmp_Contract b).

Definition formatted_table (df : list (row float)) : list (list field) :=
  (fun c => [FStr (cmp_Contract c); FStr (cmp_Network c); FNum (cmp_Cost c);
             FNum (Ethereum_Cost c); FNum (Discount_USD c);
             FNum (Discount_pct c)])
  <$> stable_sort by_contract_then_cost (comparison_df df).

(** Line 75 *)
Definition df_filtered (df : list (row float)) : list (row float) :=
  filter (fun r => Network r <> "Ethereum") df.

(** Line 78 *)
Definition contracts (df : list (row float)) : list string :=
  unique (Contract <$> df_filtered df).

(** Line 180: [df_filtered.groupby('Network')[...].mean().sort_values()] *)
Definition network_avg_costs (Q : quicksort) (df : list (row float))
  : list (string * float) :=
  sort_values Q snd (agg mean Cost (groupby Network (df_filtered df))).

(** A row of [summary_df]: network, average, difference, discount. *)
Definition summary : Type := string * float * float * float.

(** Lines 233-237 *)
Definition summary_df (Q : quicksort) (df : list (row float)) : list summary :=
  (fun na : string * float =>
     let difference := F64.sub (average_ethereum_cost df) na.2 in
     (na.1, na.2, difference,
      F64.mul (F64.div difference (average_ethereum_cost df)) (F64.of_Z 100)))
  <$> network_avg_costs Q df.

(** Lines 240-244 *)
Definition eth_row (df : list (row float)) : summary :=
  ("Ethereum", average_ethereum_cost df, F64.of_Z 0, F64.of_Z 0).

(** Line 247: [pd.concat([summary_df, eth_row]).sort_values('Avg. Cost
    (USD)')] *)
Definition final_summary_df (Q : quicksort) (df : list (row float))
  : list summary :=
  sort_values Q (fun s : summary => s.1.1.2) (summary_df Q df ++ [eth_row df]).

(** Lines 261-264 and 267-270: the cheapest, then the most expensive,
    network of each contract. *)
Definition cheapest (df : list (row float)) (contract : string)
  : result (row float) :=
  idxmin Cost (filter (fun r => Contract r = contract) (df_filtered df)).

Definition most_expensive (df : list (row float)) (contract : string)
  : result (row float) :=
  idxmax Cost (filter (fun r => Contract r = contract) (df_filtered df)).

(** Lines 23-69, "Ethereum Cost Analysis and Comparison Table": the text
    report that precedes every chart. *)
Definition comparison_table (df : list (row float)) : run unit :=
  print "--- Ethereum Deployment Cost Summary ---";;
  printf "Total Estimated Cost for all contracts on Ethereum: ${total_ethereum_cost:,.2f}"
    [FNum (total_ethereum_cost df)];;
  printf "Average Estimated Cost for a contract on Ethereum: ${average_ethereum_cost:,.2f}"
    [FNum (average_ethereum_cost df)];;
  print (str_mul "-" 40);;
  print (nl +:+ "--- Deployment Cost Comparison vs. Ethereum ---");;
  emit (PrintTable
          ["Contract"; "Network"; "Est. Deployment Cost (USD)";
           "Ethereum Cost (USD)"; "Discount (USD)"; "Discount (%)"]
          (formatted_table df));;
  print (nl +:+ str_mul "=" 80 +:+ nl).

(** Lines 72-227, "Visualizations": three figures, each saved and shown.
    The two grids index their six cells by [enumerate(contracts)]. *)
Definition visualizations (df : list (row float)) : run unit :=
  (if decide (6 < length (contracts df))%nat then raise IndexError else mret tt);;
  emit (SaveFig "deployment_costs_bar_charts.png");;
  emit ShowFig;;
  emit (SaveFig "deployment_costs_line_charts.png");;
  emit ShowFig;;
  emit (SaveFig "deployment_costs_summary.png");;
  emit ShowFig.

(** Lines 229-270, "Final Enhanced Summary Statistics". *)
Definition summary_statistics (Q : quicksort) (df : list (row float))
  : run unit :=
  print (nl +:+ "=== DEPLOYMENT COST ANALYSIS SUMMARY ===");;
  print (nl +:+ "--- Average Deployment Cost by Network (Compared to Ethereum) ---");;
  emit (PrintTable
          ["Network"; "Avg. Cost (USD)"; "Cost Difference (USD)"; "Discount (%)"]
          ((fun s : summary =>
              [FStr s.1.1.1; FNum s.1.1.2; FNum s.1.2; FNum s.2])
           <$> final_summary_df Q df));;
  print (nl +:+ "Cheapest deployment options by contract (Non-Ethereum):");;
  for_each (contracts df) (fun contract =>
    r ← lift (cheapest df contract);
    printf "{contract:15}: {cheapest['Network']} (${cheapest['Est. Deployment Cost (USD)']:.6f})"
      [FStr contract; FStr (Network r); FNum (Cost r)]);;
  print (nl +:+ "Most expensive deployment options by contract (Non-Ethereum):");;
  for_each (contracts df) (fun contract =>
    r ← lift (most_expensive df contract);
    printf "{contract:15}: {most_expensive['Network']} (${most_expensive['Est. Deployment Cost (USD)']:.2f})"
      [FStr contract; FStr (Network r); FNum (Cost r)]).

(** Lines 20-270, on the loaded frame. *)
Definition analysis (Q : quicksort) (raw : list (row cell)) : run unit :=
  df ← lift (clean raw);
  comparison_table df;;
  visualizations df;;
  summary_statistics Q df.

(** The script.  [csv] is what [pd.read_csv('deploymentgasestimation.csv')]
    finds: [None] when the file does not exist. *)
Definition main (Q : quicksort) (csv : option (list (row cell))) : run unit :=
  match csv with
  | Some df => analysis Q df
  | None =>
      print "deploymentgasestimation.csv not found. Creating a dummy dataframe for demonstration.";;
      analysis Q dummy
  end.

End Deployment.

(** ** data_analysis/contract.py *)

Module ContractCharts.
Import Pandas.

(** The script reads the file of [avg_cost.py], [contract.csv]. *)
Definition row : Type := AvgCost.row.

Definition output_dir : string := "gas_cost_analysis_charts".

(** [enumerate(l)] *)
Definition enumerate {A : Type} (l : list A) : list (nat * A) :=
  zip (seq 0 (length l)) l.

(** Line 36: [contract_data['Function'].unique()] *)
Definition functions (contract_data : list row) : list string :=
  unique (AvgCost.Function <$> contract_data).

(** Lines 39-40: [.set_index('Function')] and [.reindex(functions)], read
    on the cost column.  The labels asked for are distinct; an index that
    holds a label twice cannot be reindexed ([ValueError]: "cannot reindex
    on an axis with duplicate labels").  Otherwise each label gets the cost
    of its row, NaN when it has none. *)
Definition reindex (network_data : list row) (labels : list string)
  : result (list (string * float)) :=
  if decide (NoDup (AvgCost.Function <$> network_data))
  then inr ((fun f =>
               (f, match filter (fun r => AvgCost.Function r = f) network_data with
                   | r :: _ => AvgCost.usd_avg r
                   | [] => F64.nan
                   end)) <$> labels)
  else inl ValueError.

(** Lines 35-41: the lines drawn in the cell of one contract, one per
    network of the file. *)
Definition line_series (df : list row) (contract : string)
  : result (list (string * list (string * float))) :=
  let contract_data := filter (fun r => AvgCost.Contract r = contract) df in
  mapM (fun network =>
          s ← reindex (filter (fun r => AvgCost.Network r = network) contract_data)
                (functions contract_data);
          mret (network, s))
       (unique (AvgCost.Network <$> df)).

(** Lines 33-48: the cell of the [i]-th contract in the grid of six
    ([axes[i]]). *)
Definition line_chart (df : list row) (i : nat) (contract : string) : run unit :=
  (if decide (6 <= i)%nat then raise IndexError else mret tt);;
  _ ← lift (line_series df contract);
  mret tt.

(** Lines 63-73: the cell of the [i]-th contract in the second grid of six
    ([axes2[i]]); the standard deviations it shows feed the bars only. *)
Definition variability_chart (i : nat) : run unit :=
  if decide (6 <= i)%nat then raise IndexError else mret tt.

(** [create_line_charts(filepath)].  [read_csv] is the file system as
    [pd.read_csv] sees it ([None]: no such file) and [dir_exists] tells
    whether the output directory is already there.  Drawing leaves no
    event; saving a figure does. *)
Definition create_line_charts (read_csv : string -> option (list row))
    (dir_exists : bool) (filepath : string) : run unit :=
  match read_csv filepath with
  | None =>
      printf "Error: The file '{filepath}' was not found. Please ensure it is in the same directory."
        [FStr filepath]
  | Some df =>
      (if dir_exists then mret tt else emit (MakeDirs output_dir));;
      let contracts := unique (AvgCost.Contract <$> df) in
      for_each (enumerate contracts) (fun '(i, contract) =>
        line_chart df i contract);;
      let output_path :=
        AvgCost.path_join output_dir "merged_contract_costs_line_chart.png" in
      emit (SaveFig output_path);;
      printf (nl +:+ "Successfully generated and saved the line chart to: {output_path}")
        [FStr output_path];;
      for_each (enumerate contracts) (fun '(i, _) => variability_chart i);;
      let bar_output_path :=
        AvgCost.path_join output_dir "function_cost_variability_stddev_chart.png" in
      emit (SaveFig bar_output_path);;
      printf "Successfully generated and saved the std deviation chart to: {bar_output_path}"
        [FStr bar_output_path]
  end.

(** Line 84: the call the module makes when it is loaded. *)
Definition main (read_csv : string -> option (list row)) (dir_exists : bool)
  : run unit :=
  create_line_charts read_csv dir_exists "contract.csv".

End ContractCharts.

(** ** Vocabulary of the statements *)

Section Vocabulary.
Import Pandas.

(** The order the sample sorts use on rows: [a] may stand before [b] unless
    [b]'s value is strictly smaller. *)
Definition not_after {A : Type} (by_ : A -> float) (a b : A) : Prop :=
  F64.ltb (by_ b) (by_ a) = false.

#[global] Instance not_after_dec {A : Type} (by_ : A -> float) (a b : A) :
  Decision (not_after by_ a b).
Proof. unfold not_after. apply _. Defined.

(** Two ways to sort by a float key.  Insertion sort, the method numpy's
    quicksort falls back to on short arrays, keeps tied rows in their input
    order; in the bottom-up merge sort tied rows may change places. *)
Definition insertion_argsort (A : Type) (by_ : A -> float) (l : list A)
  : list A :=
  stable_sort (fun a b => negb (F64.ltb (by_ b) (by_ a))) l.

Definition merge_argsort (A : Type) (by_ : A -> float) (l : list A) : list A :=
  merge_sort (not_after by_) l.

(** Each value is [<=] the next, as long as the next one is a number; so the
    numbers ascend and the NaN values come last. *)
Definition ascending_nan_last {A : Type} (by_ : A -> float) (l : list A) : Prop :=
  forall i x y, l !! i = Some x -> l !! S i = Some y ->
    F64.isna (by_ y) = false -> F64.leb (by_ x) (by_ y) = true.

(** The rows of [df] under the key pair [(a, b)], in frame order. *)
Definition rows_at {R : Type} (key1 key2 : R -> string) (df : list R)
    (a b : string) : list R :=
  filter (fun r => key2 r = b) (filter (fun r => key1 r = a) df).

(** The percentage column when the Ethereum cost is a zero of sign [s]. *)
Definition pct_over_zero (s : bool) (cost : float) : float :=
  match cost with
  | S754_zero _ | S754_nan => F64.nan
  | S754_finite sc _ _ | S754_infinity sc => F64.inf (xorb (negb sc) s)
  end.

(** Sample frames. *)
Definition two_functions : list AvgCost.row :=
  [AvgCost.Build_row "netA" "cX" "mint" (F64.of_Z 1);
   AvgCost.Build_row "netB" "cX" "burn" (F64.of_Z 2)].

Definition deployed_twice : list (Panda.row cell) :=
  [Panda.Build_row cell "Token" "mint" "Arbitrum" (Num (F64.of_decimal false 5 (-1)));
   Panda.Build_row cell "Token" "deployment" "Arbitrum" (Num (F64.of_decimal false 15 (-1)));
   Panda.Build_row cell "Token" "deployment" "Arbitrum" (Num (F64.of_decimal false 25 (-1)))].

Definition zero_baseline : list (Deployment.row float) :=
  [Deployment.Build_row float "cX" "Ethereum" F64.zero;
   Deployment.Build_row float "cX" "Polygon" (F64.of_Z 5)].

End Vocabulary.

(** ** Vocabulary of the further statements *)

Section OrderVocabulary.

(** The place of a float on the number line, as a triple compared
    lexicographically: its class (minus infinity, negative, zero, positive,
    plus infinity), then exponent and mantissa, both negated below zero. *)
Definition ordkey (x : float) : Z * Z * Z :=
  match x with
  | S754_infinity true => (-2, 0, 0)
  | S754_finite true m e => (-1, - e, Zneg m)
  | S754_zero _ => (0, 0, 0)
  | S754_finite false m e => (1, e, Zpos m)
  | S754_infinity false => (2, 0, 0)
  | S754_nan => (3, 0, 0)
  end.

Definition lex_le (a b : Z * Z * Z) : Prop :=
  a.1.1 < b.1.1
  \/ (a.1.1 = b.1.1 /\ (a.1.2 < b.1.2 \/ (a.1.2 = b.1.2 /\ a.2 <= b.2))).

Definition lex_lt (a b : Z * Z * Z) : Prop :=
  a.1.1 < b.1.1
  \/ (a.1.1 = b.1.1 /\ (a.1.2 < b.1.2 \/ (a.1.2 = b.1.2 /\ a.2 < b.2))).

(** [r] is the first row of [df] of greatest value in the column [col],
    NaN counting as minus infinity: the rows before it are smaller, the rows
    after it are not greater. *)
Definition first_greatest {R : Type} (col : R -> float) (df : list R) (r : R)
  : Prop :=
  exists l1 l2, df = l1 ++ r :: l2
    /\ (forall y, y ∈ l1 ->
          F64.ltb (Pandas.fill (F64.inf true) (col y))
                  (Pandas.fill (F64.inf true) (col r)) = true)
    /\ (forall y, y ∈ l2 ->
          F64.leb (Pandas.fill (F64.inf true) (col y))
                  (Pandas.fill (F64.inf true) (col r)) = true).

(** [r] is the first row of [df] of least value in the column [col], NaN
    counting as plus infinity. *)
Definition first_least {R : Type} (col : R -> float) (df : list R) (r : R)
  : Prop :=
  exists l1 l2, df = l1 ++ r :: l2
    /\ (forall y, y ∈ l1 ->
          F64.ltb (Pandas.fill (F64.inf false) (col r))
                  (Pandas.fill (F64.inf false) (col y)) = true)
    /\ (forall y, y ∈ l2 ->
          F64.leb (Pandas.fill (F64.inf false) (col r))
                  (Pandas.fill (F64.inf false) (col y)) = true).

(** A sample frame of [contract.csv]: costs 3, 7 and 7. *)
Definition three_operations : list AvgCost.row :=
  [AvgCost.Build_row "netA" "cX" "mint" (F64.of_Z 3);
   AvgCost.Build_row "netB" "cX" "mint" (F64.of_Z 7);
   AvgCost.Build_row "netB" "cY" "burn" (F64.of_Z 7)].

(** A run whose only effect is to print lines. *)
Definition is_print (e : event) : bool :=
  match e with Print _ _ | PrintTable _ _ => true | _ => false end.

Definition only_prints {A : Type} (m : run A) : Prop :=
  forallb is_print (trace m) = true.

End OrderVocabulary.

(** * Properties *)

(** ** Order of binary64 values *)

Section F64Order.

Lemma compare_antisym (x y : float) :
  SFcompare y x = CompOpp <$> SFcompare x y.
Proof.
  destruct x as [sx|sx| |sx mx ex], y as [sy|sy| |sy my ey]; simpl;
    try reflexivity;
    try (destruct sx; reflexivity);
    try (destruct sy; reflexivity);
    try (destruct sx, sy; reflexivity).
  destruct sx, sy; simpl; try reflexivity; f_equal;
    rewrite (Z.compare_antisym ey ex);
    destruct (ey ?= ex) eqn:He; simpl; try reflexivity.
  - f_equal. symmetry. apply (Pos.compare_cont_antisym mx my Eq).
  - symmetry. apply (Pos.compare_cont_antisym mx my Eq).
Qed.

Lemma compare_notna (x y : float) :
  F64.isna x = false -> F64.isna y = false -> is_Some (SFcompare x y).
Proof.
  destruct x as [sx|sx| |sx mx ex], y as [sy|sy| |sy my ey]; simpl;
    intros; try discriminate; eauto.
Qed.

(** [<] is asymmetric. *)
Lemma ltb_asym (x y : float) : F64.ltb x y = true -> F64.ltb y x = false.
Proof.
  unfold F64.ltb, SFltb. rewrite (compare_antisym x y).
  destruct (SFcompare x y) as [[]|]; simpl; congruence.
Qed.

(** Away from NaN, [not (y < x)] is [x <= y]. *)
Lemma leb_of_not_ltb (x y : float) :
  F64.isna x = false -> F64.isna y = false ->
  F64.ltb y x = false -> F64.leb x y = true.
Proof.
  intros Hx Hy. destruct (compare_notna x y Hx Hy) as [c Hc].
  unfold F64.ltb, F64.leb, SFltb, SFleb.
  rewrite (compare_antisym x y), Hc. destruct c; simpl; congruence.
Qed.

(** NaN compares [<=] with nothing, not even itself. *)
Lemma leb_nan_r (x : float) : F64.leb x F64.nan = false.
Proof. destruct x; reflexivity. Qed.

Lemma leb_nan_l (x : float) : F64.leb F64.nan x = false.
Proof. reflexivity. Qed.

Lemma leb_notna (x y : float) :
  F64.leb x y = true -> F64.isna x = false /\ F64.isna y = false.
Proof. destruct x, y; simpl; auto; discriminate. Qed.

End F64Order.

(** ** Two sorts that meet the [quicksort] contract *)

Section Sorts.
Import Pandas.

Context {A : Type}.

#[global] Instance not_after_total (by_ : A -> float) : Total (not_after by_).
Proof.
  intros a b. unfold not_after.
  destruct (F64.ltb (by_ b) (by_ a)) eqn:E; [right | left; reflexivity].
  now apply ltb_asym.
Qed.

Lemma Sorted_weaken (R R' : A -> A -> Prop) (l : list A) :
  (forall a b, R a b -> R' a b) -> Sorted R l -> Sorted R' l.
Proof.
  intros HR. induction 1 as [|a l Hs IH Hhd]; constructor; [assumption|].
  destruct Hhd; constructor. now apply HR.
Qed.

Lemma sorted_not_after_leb (by_ : A -> float) (l : list A) :
  Forall (fun x => F64.isna (by_ x) = false) l ->
  Sorted (not_after by_) l ->
  Sorted (fun x y => F64.leb (by_ x) (by_ y) = true) l.
Proof.
  intros Hna Hs. induction Hs as [|a l Hs IH Hhd]; constructor.
  - apply IH. now inversion Hna.
  - inversion Hna as [|? ? Ha Hl]; subst.
    destruct Hhd as [|b l Hab]; constructor.
    inversion Hl; subst. now apply leb_of_not_ltb.
Qed.

Variable le : A -> A -> bool.

Lemma insert_by_perm (x : A) (l : list A) : insert_by le x l ≡ₚ x :: l.
Proof.
  induction l as [|y l IH]; simpl; [reflexivity|].
  destruct (le x y); [reflexivity|].
  rewrite IH. apply Permutation_swap.
Qed.

Lemma stable_sort_perm (l : list A) : stable_sort le l ≡ₚ l.
Proof.
  induction l as [|x l IH]; simpl; [reflexivity|].
  unfold stable_sort in *. simpl. now rewrite insert_by_perm, IH.
Qed.

Hypothesis le_total : forall a b, le a b = false -> le b a = true.

Lemma insert_by_hd (x z : A) (l : list A) :
  le z x = true -> HdRel (fun a b => le a b = true) z l ->
  HdRel (fun a b => le a b = true) z (insert_by le x l).
Proof.
  intros Hzx Hhd. destruct l as [|y l]; simpl; [now constructor|].
  destruct (le x y); constructor; [assumption|]. now inversion Hhd.
Qed.

Lemma insert_by_sorted (x : A) (l : list A) :
  Sorted (fun a b => le a b = true) l ->
  Sorted (fun a b => le a b = true) (insert_by le x l).
Proof.
  induction 1 as [|y l Hs IH Hhd]; simpl; [repeat constructor|].
  destruct (le x y) eqn:E.
  - constructor; [now constructor | now constructor].
  - constructor; [assumption|]. apply insert_by_hd; auto.
Qed.

Lemma stable_sort_sorted (l : list A) :
  Sorted (fun a b => le a b = true) (stable_sort le l).
Proof.
  induction l as [|x l IH]; [constructor|].
  unfold stable_sort in *. simpl. now apply insert_by_sorted.
Qed.

End Sorts.

Section Instances.
Import Pandas.

Lemma insertion_argsort_sorted (A : Type) (by_ : A -> float) (l : list A) :
  Forall (fun x => F64.isna (by_ x) = false) l ->
  Sorted (fun x y => F64.leb (by_ x) (by_ y) = true) (insertion_argsort A by_ l).
Proof.
  intros Hna. apply sorted_not_after_leb.
  - unfold insertion_argsort. now rewrite stable_sort_perm.
  - eapply Sorted_weaken;
      [|apply (stable_sort_sorted (fun a b => negb (F64.ltb (by_ b) (by_ a))))].
    + intros a b. unfold not_after. now destruct (F64.ltb (by_ b) (by_ a)).
    + intros a b Hab. apply negb_false_iff in Hab.
      apply ltb_asym in Hab. now rewrite Hab.
Qed.

(** Both meet the contract of [sort_values]. *)
Definition insertion_quicksort : quicksort :=
  {| argsort := insertion_argsort;
     argsort_perm := fun A by_ l => stable_sort_perm _ l;
     argsort_sorted := insertion_argsort_sorted |}.

Lemma merge_argsort_sorted (A : Type) (by_ : A -> float) (l : list A) :
  Forall (fun x => F64.isna (by_ x) = false) l ->
  Sorted (fun x y => F64.leb (by_ x) (by_ y) = true) (merge_argsort A by_ l).
Proof.
  intros Hna. apply sorted_not_after_leb.
  - unfold merge_argsort. now rewrite merge_sort_Permutation.
  - apply Sorted_merge_sort, _.
Qed.

Definition merge_quicksort : quicksort :=
  {| argsort := merge_argsort;
     argsort_perm := fun A by_ l => merge_sort_Permutation _ l;
     argsort_sorted := merge_argsort_sorted |}.

End Instances.

(** ** Grouping, sorting and ranking *)

Section Grouping.
Import Pandas.

Lemma sorted_keys_perm (ks : list string) : sorted_keys ks ≡ₚ remove_dups ks.
Proof. apply merge_sort_Permutation. Qed.

Lemma sorted_keys_NoDup (ks : list string) : NoDup (sorted_keys ks).
Proof. rewrite sorted_keys_perm. apply NoDup_remove_dups. Qed.

Lemma elem_of_sorted_keys (ks : list string) (k : string) :
  k ∈ sorted_keys ks <-> k ∈ ks.
Proof. rewrite sorted_keys_perm. apply elem_of_remove_dups. Qed.

Lemma groupby_keys {R : Type} (key : R -> string) (df : list R) :
  (groupby key df).*1 = sorted_keys (key <$> df).
Proof.
  unfold groupby. rewrite <- list_fmap_compose.
  induction (sorted_keys (key <$> df)) as [|k ks IH]; [reflexivity|].
  csimpl. now rewrite IH.
Qed.

Lemma elem_of_groupby {R : Type} (key : R -> string) (df : list R)
    (k : string) (g : list R) :
  (k, g) ∈ groupby key df <->
  k ∈ key <$> df /\ g = filter (fun r => key r = k) df.
Proof.
  unfold groupby. rewrite list_elem_of_fmap. split.
  - intros (k' & [= -> ->] & Hk). rewrite elem_of_sorted_keys in Hk. auto.
  - intros (Hk & ->). exists k. split; [reflexivity|].
    now apply elem_of_sorted_keys.
Qed.

Lemma fmap_bind_list {X Y Z : Type} (f : Y -> Z) (g : X -> list Y) (l : list X) :
  f <$> (l ≫= g) = l ≫= (fun x => f <$> g x).
Proof.
  induction l as [|x l IH]; [reflexivity|].
  csimpl. now rewrite fmap_app, IH.
Qed.

Lemma agg_keys {K R : Type} f (col : R -> float) (g : list (K * list R)) :
  (agg f col g).*1 = g.*1.
Proof. unfold agg. rewrite <- list_fmap_compose. reflexivity. Qed.

(** One aggregate per distinct key of the frame. *)
Lemma agg_groupby_keys {R : Type} f (col : R -> float) (key : R -> string)
    (df : list R) :
  NoDup (agg f col (groupby key df)).*1
  /\ forall k, k ∈ (agg f col (groupby key df)).*1 <-> k ∈ key <$> df.
Proof.
  rewrite agg_keys, groupby_keys. split.
  - apply sorted_keys_NoDup.
  - apply elem_of_sorted_keys.
Qed.

End Grouping.

Section Ranking.
Import Pandas.

Context {A : Type} (Q : quicksort) (by_ : A -> float).

Lemma sort_values_perm (l : list A) : sort_values Q by_ l ≡ₚ l.
Proof.
  unfold sort_values. rewrite argsort_perm.
  rewrite <- (filter_app_complement (fun x => F64.isna (by_ x) = false) l) at 3.
  f_equiv. apply reflexive_eq, list_filter_iff.
  intros x. destruct (F64.isna (by_ x)); split; congruence.
Qed.

Lemma Sorted_adjacent (R : A -> A -> Prop) (l : list A) (i : nat) (x y : A) :
  Sorted R l -> l !! i = Some x -> l !! S i = Some y -> R x y.
Proof.
  intros Hs. revert i. induction Hs as [|a l Hs IH Hhd]; intros i Hx Hy.
  - discriminate.
  - destruct i as [|i]; simpl in *.
    + injection Hx as ->. destruct Hhd; simpl in Hy; [discriminate|].
      now injection Hy as ->.
    + eauto.
Qed.

Lemma sort_values_ascending (l : list A) :
  ascending_nan_last by_ (sort_values Q by_ l).
Proof.
  intros i x y Hx Hy Hna. unfold sort_values in *.
  set (S := argsort Q A by_ (filter (fun x => F64.isna (by_ x) = false) l)) in *.
  assert (HS : Sorted (fun x y => F64.leb (by_ x) (by_ y) = true) S).
  { apply argsort_sorted, Forall_forall. intros z Hz.
    now apply list_elem_of_filter in Hz as [Hz _]. }
  destruct (decide (Datatypes.S i < length S)%nat) as [Hlt|Hge].
  - rewrite lookup_app_l in Hx by lia. rewrite lookup_app_l in Hy by lia.
    eapply (Sorted_adjacent _ S i x y HS); eauto.
  - rewrite lookup_app_r in Hy by lia.
    apply list_elem_of_lookup_2, list_elem_of_filter in Hy as [Hy _].
    congruence.
Qed.

Lemma enumerate1_ranks (l : list A) :
  (enumerate1 l).*1 = seq 1 (length l) /\ (enumerate1 l).*2 = l.
Proof.
  unfold enumerate1. split.
  - apply fst_zip. now rewrite length_seq.
  - apply snd_zip. now rewrite length_seq.
Qed.

End Ranking.

(** ** C3: the network ranking *)

Section NetworkRanking.
Import Pandas.

(** The ranked series of a frame: the per-key means, sorted, numbered from
    one. *)
Lemma ranked_groups {R : Type} (Q : quicksort) (key : R -> string)
    (col : R -> float) (df : list R) :
  let groups := agg mean col (groupby key df) in
  let ranked := enumerate1 (sort_values Q snd groups) in
  ranked.*1 = seq 1 (length groups)
  /\ ranked.*2 ≡ₚ groups
  /\ ascending_nan_last (fun r : nat * (string * float) => r.2.2) ranked.
Proof.
  intros groups ranked.
  destruct (enumerate1_ranks (sort_values Q snd groups)) as [H1 H2].
  split; [|split].
  - unfold ranked. rewrite H1. f_equal. apply Permutation_length, sort_values_perm.
  - unfold ranked. rewrite H2. apply sort_values_perm.
  - intros i x y Hx Hy Hna.
    apply (sort_values_ascending Q snd groups i x.2 y.2); [| |assumption].
    + rewrite <- H2. fold ranked. now rewrite list_lookup_fmap, Hx.
    + rewrite <- H2. fold ranked. now rewrite list_lookup_fmap, Hy.
Qed.

(** C3, as the code has it.  [avg_cost.py] (lines 120-122) ranks the
    networks by mean cost: there is one group per distinct network, the
    ranks are 1..N, each group receives exactly one rank, and each mean is
    [<=] the mean ranked next whenever that next mean is a number (groups
    whose mean is NaN are ranked last).  The sort is pandas' default
    [quicksort], known by its contract only, so nothing is stated about the
    order of tied means.  The sorted series of [deployment.py] (line 180) is
    ordered in the same way. *)
Theorem ranking_total_and_ascending (Q : quicksort) :
  (forall df : list AvgCost.row,
     let groups := agg mean AvgCost.usd_avg (groupby AvgCost.Network df) in
     let ranked := AvgCost.ranking Q df in
     (NoDup groups.*1 /\ forall k, k ∈ groups.*1 <-> k ∈ AvgCost.Network <$> df)
     /\ ranked.*1 = seq 1 (length groups)
     /\ ranked.*2 ≡ₚ groups
     /\ ascending_nan_last (fun r : nat * (string * float) => r.2.2) ranked)
  /\ (forall df : list (Deployment.row float),
        let groups :=
          agg mean Deployment.Cost
            (groupby Deployment.Network (Deployment.df_filtered df)) in
        Deployment.network_avg_costs Q df ≡ₚ groups
        /\ ascending_nan_last snd (Deployment.network_avg_costs Q df)).
Proof.
  split.
  - intros df groups ranked. split.
    + apply agg_groupby_keys.
    + apply (ranked_groups Q AvgCost.Network AvgCost.usd_avg df).
  - intros df groups. split.
    + apply sort_values_perm.
    + apply sort_values_ascending.
Qed.

(** The scenario of the specification: means 15 and 5 rank [netB] first. *)
Example ranking_scenario :
  AvgCost.ranking insertion_quicksort
    [AvgCost.Build_row "netA" "cX" "f" (F64.of_Z 10);
     AvgCost.Build_row "netA" "cY" "f" (F64.of_Z 20);
     AvgCost.Build_row "netB" "cX" "f" (F64.of_Z 5)]
  = [(1%nat, ("netB", F64.of_Z 5)); (2%nat, ("netA", F64.of_Z 15))].
Proof. vm_compute. reflexivity. Qed.

(** C3 fails as stated.  First, a network whose costs are all missing has
    the mean NaN and is ranked after the others, and [5.0 <= NaN] is false:
    rank 1's aggregate is not [<=] rank 2's.  Second, a sort that meets the
    contract of the default [kind] may move tied groups: with three networks
    of mean 1, the insertion sort keeps the order [a], [b], [c] of the
    groups while the merge sort ranks [c] before [a] and [b]. *)
Lemma ranking_nan_and_ties :
  let with_nan :=
    [AvgCost.Build_row "A" "c" "f" (F64.of_Z 5);
     AvgCost.Build_row "B" "c" "f" F64.nan] in
  let tied :=
    [AvgCost.Build_row "a" "c" "f" (F64.of_Z 1);
     AvgCost.Build_row "b" "c" "f" (F64.of_Z 1);
     AvgCost.Build_row "c" "c" "f" (F64.of_Z 1)] in
  (forall Q : quicksort,
     AvgCost.ranking Q with_nan
     = [(1%nat, ("A", F64.of_Z 5)); (2%nat, ("B", F64.nan))])
  /\ F64.leb (F64.of_Z 5) F64.nan = false
  /\ agg mean AvgCost.usd_avg (groupby AvgCost.Network tied)
     = [("a", F64.of_Z 1); ("b", F64.of_Z 1); ("c", F64.of_Z 1)]
  /\ AvgCost.ranking insertion_quicksort tied
     = [(1%nat, ("a", F64.of_Z 1)); (2%nat, ("b", F64.of_Z 1));
        (3%nat, ("c", F64.of_Z 1))]
  /\ AvgCost.ranking merge_quicksort tied
     = [(1%nat, ("c", F64.of_Z 1)); (2%nat, ("a", F64.of_Z 1));
        (3%nat, ("b", F64.of_Z 1))].
Proof.
  split_and!; try (vm_compute; reflexivity).
  intros Q. unfold AvgCost.ranking, AvgCost.network_avg.
  replace (agg mean AvgCost.usd_avg (groupby AvgCost.Network _))
    with [("A", F64.of_Z 5); ("B", F64.nan)] by (vm_compute; reflexivity).
  unfold sort_values.
  replace (filter (fun x : string * float => F64.isna x.2 = false) _)
    with [("A", F64.of_Z 5)] by (vm_compute; reflexivity).
  replace (filter (fun x : string * float => F64.isna x.2 = true) _)
    with [("B", F64.nan)] by (vm_compute; reflexivity).
  pose proof (argsort_perm Q _ snd [("A", F64.of_Z 5)]) as Hp.
  apply Permutation_singleton_r in Hp. rewrite Hp. reflexivity.
Qed.

End NetworkRanking.

(** ** The comparison against Ethereum ([deployment.py], lines 39-49) *)

Section Comparator.
Import Pandas Deployment.

Implicit Types (df : list (row float)) (r e : row float) (c : comparison).

Lemma cost_map_fold (l : list (row float)) (m : gmap string float) (k : string) :
  foldl (fun m r => <[Contract r := Cost r]> m) m l !! k
  = match last (filter (fun r => Contract r = k) l) with
    | Some r => Some (Cost r)
    | None => m !! k
    end.
Proof.
  revert m. induction l as [|r l IH]; intros m; simpl; [reflexivity|].
  rewrite IH, filter_cons. destruct (decide (Contract r = k)) as [<-|Hne].
  - destruct (filter _ l) as [|r' l'] eqn:E; simpl.
    + apply lookup_insert_eq.
    + destruct (last (r' :: l')) eqn:E'; [reflexivity|].
      now apply last_None in E'.
  - destruct (last (filter _ l)); [reflexivity|]. now apply lookup_insert_ne.
Qed.

(** The map holds, for each contract, the cost of its last Ethereum row. *)
Lemma ethereum_cost_map_lookup df (k : string) :
  ethereum_cost_map df !! k
  = Cost <$> last (filter (fun r => Contract r = k) (ethereum_df df)).
Proof.
  unfold ethereum_cost_map. rewrite cost_map_fold, lookup_empty.
  now destruct (last _).
Qed.


Lemma ethereum_cost_map_None df (k : string) :
  (forall e, e ∈ df -> Network e = "Ethereum" -> Contract e <> k) ->
  ethereum_cost_map df !! k = None.
Proof.
  intros Hno. rewrite ethereum_cost_map_lookup.
  destruct (last _) as [e|] eqn:E; [|reflexivity].
  apply last_Some_elem_of, list_elem_of_filter in E as [Hk He].
  apply list_elem_of_filter in He as [Hn He]. now destruct (Hno e He Hn).
Qed.

(** The rows of [comparison_df] are the rows of the other networks, each
    with its three added columns. *)
Lemma elem_of_comparison_df df c :
  c ∈ comparison_df df <->
  exists r, r ∈ df /\ Network r <> "Ethereum"
            /\ c = compare (ethereum_cost_map df) r.
Proof.
  unfold comparison_df. rewrite list_elem_of_fmap. split.
  - intros (r & -> & Hr). apply list_elem_of_filter in Hr as [Hn Hr]. eauto.
  - intros (r & Hr & Hn & ->). exists r. split; [reflexivity|].
    now apply list_elem_of_filter.
Qed.

Lemma comparison_df_columns df c :
  c ∈ comparison_df df ->
  Ethereum_Cost c = default F64.nan (ethereum_cost_map df !! cmp_Contract c)
  /\ Discount_USD c = F64.sub (Ethereum_Cost c) (cmp_Cost c)
  /\ Discount_pct c
     = F64.mul (F64.div (Discount_USD c) (Ethereum_Cost c)) (F64.of_Z 100).
Proof.
  intros (r & _ & _ & ->)%elem_of_comparison_df. now simpl.
Qed.



End Comparator.

Section ComparatorEdgeCases.
Import Pandas Deployment.

Implicit Types (df : list (row float)) (r e : row float) (c : comparison).

(** C5, as the code has it.  The script divides by the Ethereum cost
    without looking at it, and binary64 division by zero raises nothing: for
    every comparison row whose Ethereum cost is exactly zero, the percentage
    is an infinity (of the sign opposite to the row's cost, for the zero
    [+0.0]) or, when the row's own cost is zero or NaN, NaN.  It is never a
    finite number and never a sentinel. *)
Theorem zero_baseline_percentage df c (s : bool) :
  c ∈ comparison_df df ->
  Ethereum_Cost c = S754_zero s ->
  Discount_pct c = pct_over_zero s (cmp_Cost c).
Proof.
  intros Hc Hz. destruct (comparison_df_columns df c Hc) as (_ & Hu & Hp).
  rewrite Hp, Hu, Hz. unfold pct_over_zero.
  destruct (cmp_Cost c) as [sc|sc| |sc mc ec]; destruct s; try destruct sc;
    reflexivity.
Qed.

(** An Ethereum cost of zero against a Polygon cost of five: minus
    infinity. *)
Lemma zero_baseline_scenario :
  exists c, comparison_df zero_baseline = [c] /\ Discount_pct c = F64.inf true.
Proof.
  exists (compare (ethereum_cost_map zero_baseline)
            (Build_row float "cX" "Polygon" (F64.of_Z 5))).
  split; [reflexivity|].
  set (c := compare _ _).
  assert (Hc : c ∈ comparison_df zero_baseline) by (apply list_elem_of_here).
  assert (Hz : Ethereum_Cost c = S754_zero false) by (vm_compute; reflexivity).
  rewrite (zero_baseline_percentage zero_baseline c false Hc Hz).
  vm_compute. reflexivity.
Defined.

(** C5 fails as stated: with an Ethereum cost of ["$0"] and a Polygon cost
    of ["$5"], the comparison is computed without an exception and the
    table the script prints carries the number minus infinity in its
    percentage column. *)
Lemma zero_baseline_reports_infinity :
  clean [Build_row cell "cX" "Ethereum" (Text "$0");
         Build_row cell "cX" "Polygon" (Text "$5")]
  = inr zero_baseline
  /\ comparison_df zero_baseline
     = [Build_comparison "cX" "Polygon" (F64.of_Z 5) F64.zero (F64.of_Z (-5))
          (F64.inf true)]
  /\ PrintTable
       ["Contract"; "Network"; "Est. Deployment Cost (USD)";
        "Ethereum Cost (USD)"; "Discount (USD)"; "Discount (%)"]
       [[FStr "cX"; FStr "Polygon"; FNum (F64.of_Z 5); FNum F64.zero;
         FNum (F64.of_Z (-5)); FNum (F64.inf true)]]
     ∈ trace (comparison_table zero_baseline).
Proof.
  split; [vm_compute; reflexivity|].
  split; [vm_compute; reflexivity|].
  apply list_elem_of_In. vm_compute. tauto.
Qed.

Lemma formatted_table_no_integer df :
  formatted_table df ≫= omap field_integer = [].
Proof.
  unfold formatted_table.
  induction (stable_sort by_contract_then_cost (comparison_df df)) as [|c l IH];
    [reflexivity|].
  csimpl. now rewrite IH.
Qed.

(** C7, as the code has it.  No row leaves the comparison: it has one row
    for every row of another network, and its report prints no count.  A
    row whose contract has no Ethereum row keeps its place, with NaN as
    Ethereum cost and NaN in both discount columns; it is not given a zero
    baseline. *)
Theorem missing_baseline_row_kept df :
  length (comparison_df df) = length (df_filtered df)
  /\ printed_integers (trace (comparison_table df)) = []
  /\ forall r, r ∈ df -> Network r <> "Ethereum" ->
       (forall e, e ∈ df -> Network e = "Ethereum" -> Contract e <> Contract r) ->
       exists c, c ∈ comparison_df df
                 /\ cmp_Contract c = Contract r /\ cmp_Network c = Network r
                 /\ cmp_Cost c = Cost r
                 /\ Ethereum_Cost c = F64.nan
                 /\ Discount_USD c = F64.nan
                 /\ Discount_pct c = F64.nan.
Proof.
  split_and!.
  - unfold comparison_df, df_filtered. apply length_fmap.
  - unfold comparison_table, printed_integers, trace. csimpl.
    now rewrite formatted_table_no_integer.
  - intros r Hr Hn Hno. exists (compare (ethereum_cost_map df) r).
    split; [apply elem_of_comparison_df; eauto|].
    unfold compare. rewrite (ethereum_cost_map_None df _ Hno).
    repeat split; reflexivity.
Qed.

(** A frame with one Polygon row and no Ethereum row. *)
Lemma missing_baseline_scenario :
  let df := [Build_row float "cX" "Polygon" (F64.of_Z 5)] in
  exists c, c ∈ comparison_df df /\ Ethereum_Cost c = F64.nan
            /\ Discount_USD c = F64.nan /\ Discount_pct c = F64.nan.
Proof.
  intros df.
  destruct (missing_baseline_row_kept df) as (_ & _ & H).
  destruct (H (Build_row float "cX" "Polygon" (F64.of_Z 5)))
    as (c & Hc & _ & _ & _ & He & Hu & Hp).
  - apply list_elem_of_here.
  - discriminate.
  - intros e He. apply list_elem_of_singleton in He as ->. discriminate.
  - exists c. auto.
Defined.

(** C7 fails as stated: a Polygon row without any Ethereum row stays in the
    comparison and is printed, with NaN in the three added columns. *)
Lemma missing_baseline_not_excluded :
  let df := [Build_row float "cX" "Polygon" (F64.of_Z 5)] in
  clean [Build_row cell "cX" "Polygon" (Text "$5")] = inr df
  /\ comparison_df df
     = [Build_comparison "cX" "Polygon" (F64.of_Z 5) F64.nan F64.nan F64.nan]
  /\ PrintTable
       ["Contract"; "Network"; "Est. Deployment Cost (USD)";
        "Ethereum Cost (USD)"; "Discount (USD)"; "Discount (%)"]
       [[FStr "cX"; FStr "Polygon"; FNum (F64.of_Z 5); FNum F64.nan;
         FNum F64.nan; FNum F64.nan]]
     ∈ trace (comparison_table df).
Proof.
  split; [vm_compute; reflexivity|].
  split; [vm_compute; reflexivity|].
  apply list_elem_of_In. vm_compute. tauto.
Qed.

End ComparatorEdgeCases.

(** ** Two-key grouping and pivots *)

Section Pivots.
Import Pandas.

Context {R : Type} (key1 key2 : R -> string).

Implicit Types (df : list R) (a b : string) (s : list (string * string * float)).

Lemma elem_of_rows_at df a b (r : R) :
  r ∈ rows_at key1 key2 df a b <-> r ∈ df /\ key1 r = a /\ key2 r = b.
Proof. unfold rows_at. rewrite !list_elem_of_filter. tauto. Qed.

Lemma elem_of_groupby2 df a b (g : list R) :
  (a, b, g) ∈ groupby2 key1 key2 df <->
  a ∈ key1 <$> df /\ b ∈ key2 <$> filter (fun r => key1 r = a) df
  /\ g = rows_at key1 key2 df a b.
Proof.
  unfold groupby2. rewrite list_elem_of_bind. split.
  - intros ([a' g1] & Hg & Hg1). simpl in Hg.
    apply elem_of_groupby in Hg1 as (Ha' & ->).
    apply list_elem_of_fmap in Hg as ([b' g2] & [= -> -> ->] & Hg2).
    now apply elem_of_groupby in Hg2 as (Hb' & ->).
  - intros (Ha & Hb & ->).
    exists (a, filter (fun r => key1 r = a) df). split.
    + apply list_elem_of_fmap. exists (b, rows_at key1 key2 df a b).
      split; [reflexivity|]. now apply elem_of_groupby.
    + now apply elem_of_groupby.
Qed.

(** A key pair has a group exactly when some row carries it. *)
Lemma groupby2_key_iff df a b :
  (a, b) ∈ (groupby2 key1 key2 df).*1 <-> rows_at key1 key2 df a b <> [].
Proof.
  rewrite list_elem_of_fmap. split.
  - intros ([[a' b'] g] & [= <- <-] & Hg).
    apply elem_of_groupby2 in Hg as (_ & Hb & _).
    apply list_elem_of_fmap in Hb as (r & -> & Hr).
    intros E. assert (Hin : r ∈ rows_at key1 key2 df a (key2 r)).
    { unfold rows_at. now apply list_elem_of_filter. }
    rewrite E in Hin. now apply not_elem_of_nil in Hin.
  - intros Hne. destruct (rows_at key1 key2 df a b) as [|r l] eqn:E; [done|].
    assert (Hr : r ∈ rows_at key1 key2 df a b) by (rewrite E; apply list_elem_of_here).
    apply elem_of_rows_at in Hr as (Hr & <- & <-).
    exists (key1 r, key2 r, rows_at key1 key2 df (key1 r) (key2 r)). split; [reflexivity|].
    apply elem_of_groupby2. split; [|split; [|reflexivity]].
    + apply list_elem_of_fmap. eauto.
    + apply list_elem_of_fmap. exists r. split; [reflexivity|].
      now apply list_elem_of_filter.
Qed.

Lemma groupby2_NoDup df : NoDup (groupby2 key1 key2 df).*1.
Proof.
  unfold groupby2. rewrite fmap_bind_list. apply NoDup_bind.
  - intros [a1 g1] [a2 g2] y H1 H2 Hy1 Hy2. simpl in Hy1, Hy2.
    rewrite <- list_fmap_compose in Hy1, Hy2.
    apply list_elem_of_fmap in Hy1 as (e1 & -> & _).
    apply list_elem_of_fmap in Hy2 as (e2 & [= -> _] & _).
    apply elem_of_groupby in H1 as (_ & ->).
    now apply elem_of_groupby in H2 as (_ & ->).
  - intros [a g] _. simpl. rewrite <- list_fmap_compose.
    apply NoDup_fmap_2_strong.
    + intros [b1 g1] [b2 g2] H1 H2 [= ->]. f_equal.
      apply elem_of_groupby in H1 as (_ & ->).
      now apply elem_of_groupby in H2 as (_ & ->).
    + apply (NoDup_fmap_1 fst). rewrite groupby_keys. apply sorted_keys_NoDup.
  - apply (NoDup_fmap_1 fst). rewrite groupby_keys. apply sorted_keys_NoDup.
Qed.

Lemma entry_NoDup s a b (v : float) :
  NoDup s.*1 -> (a, b, v) ∈ s -> entry s a b = v.
Proof.
  unfold entry. induction s as [|[k w] s IH]; intros Hnd Hin.
  - now apply not_elem_of_nil in Hin.
  - apply NoDup_cons in Hnd as [Hk Hnd]. rewrite filter_cons. simpl.
    apply elem_of_cons in Hin as [[= <- <-]|Hin].
    + now rewrite decide_True.
    + rewrite decide_False; [now apply IH|].
      intros ->. apply Hk. apply list_elem_of_fmap. now exists (a, b, v).
Qed.

Lemma entry_missing s a b : (a, b) ∉ s.*1 -> entry s a b = F64.nan.
Proof.
  unfold entry. intros Hno.
  destruct (filter _ s) as [|e l] eqn:E; [reflexivity|].
  assert (He : e ∈ filter (fun e => e.1 = (a, b)) s)
    by (rewrite E; apply list_elem_of_here).
  apply list_elem_of_filter in He as [Hk He]. destruct Hno.
  apply list_elem_of_fmap. eauto.
Qed.

(** The aggregate recorded for a key pair is the reduction of the values of
    all rows under that pair. *)
Lemma entry_agg_groupby2 (f : list float -> float) (col : R -> float) df a b :
  rows_at key1 key2 df a b <> [] ->
  entry (agg f col (groupby2 key1 key2 df)) a b = f (col <$> rows_at key1 key2 df a b).
Proof.
  intros Hne. apply entry_NoDup.
  - rewrite agg_keys. apply groupby2_NoDup.
  - unfold agg. apply list_elem_of_fmap.
    exists (a, b, rows_at key1 key2 df a b). split; [reflexivity|].
    apply groupby2_key_iff, list_elem_of_fmap in Hne
      as ([[a' b'] g] & [= <- <-] & Hg).
    pose proof Hg as Hg'. apply elem_of_groupby2 in Hg' as (_ & _ & ->).
    assumption.
Qed.

Lemma entry_agg_groupby2_missing (f : list float -> float) (col : R -> float)
    (P : string * string * float -> Prop) `{forall e, Decision (P e)} df a b :
  rows_at key1 key2 df a b = [] ->
  entry (filter P (agg f col (groupby2 key1 key2 df))) a b = F64.nan.
Proof.
  intros Hnil. apply entry_missing. intros Hin.
  apply list_elem_of_fmap in Hin as (e & He & Hin).
  apply list_elem_of_filter in Hin as [_ Hin].
  assert (Hk : (a, b) ∈ (agg f col (groupby2 key1 key2 df)).*1)
    by (apply list_elem_of_fmap; eauto).
  rewrite agg_keys in Hk. now apply groupby2_key_iff in Hk.
Qed.

End Pivots.

Section Frames.
Import Pandas.

Implicit Types (s : list (string * string * float)) (f : frame).

Lemma position_elem_of (k : string) (l : list string) :
  k ∈ l -> exists i, position k l = Some i /\ l !! i = Some k.
Proof.
  intros Hk. unfold position.
  destruct (list_find_elem_of (fun x => x = k) l k Hk eq_refl) as [[i x] Hf].
  rewrite Hf. exists i. split; [reflexivity|].
  now apply list_find_Some in Hf as (Hi & -> & _).
Qed.

(** Reading a cell of a reshaped table gives the recorded value of its key
    pair. *)
Lemma loc_unstack s (r c : string) :
  r ∈ index (unstack s) -> c ∈ columns (unstack s) ->
  loc (unstack s) r c = Some (entry s r c).
Proof.
  intros Hr Hc. unfold loc.
  destruct (position_elem_of r _ Hr) as (i & -> & Hi).
  destruct (position_elem_of c _ Hc) as (j & -> & Hj).
  simpl in *. rewrite list_lookup_fmap, Hi. simpl.
  now rewrite list_lookup_fmap, Hj.
Qed.

Lemma loc_fillna (v : float) f (r c : string) :
  loc (fillna v f) r c = fill v <$> loc f r c.
Proof.
  unfold loc, fillna. simpl.
  destruct (position r (index f)) as [i|]; [|reflexivity]. simpl.
  destruct (position c (columns f)) as [j|]; [|reflexivity]. simpl.
  rewrite list_lookup_fmap. destruct (data f !! i) as [row|]; [|reflexivity].
  simpl. now rewrite list_lookup_fmap.
Qed.

End Frames.

(** ** C6: cells of a pivot without rows *)

Section MissingCells.
Import Pandas.

Lemma agg_groupby2_no_key {R : Type} (key1 key2 : R -> string)
    (f : list float -> float) (col : R -> float) (df : list R) (a b : string) :
  rows_at key1 key2 df a b = [] ->
  (a, b) ∉ (agg f col (groupby2 key1 key2 df)).*1.
Proof.
  intros Hnil Hin. rewrite agg_keys in Hin.
  now apply groupby2_key_iff in Hin.
Qed.

Lemma fmap_filter_keys (P : string * string * float -> Prop)
    `{forall e, Decision (P e)} (s : list (string * string * float))
    (k : string * string) :
  k ∈ (filter P s).*1 -> k ∈ s.*1.
Proof.
  intros (e & -> & He)%list_elem_of_fmap.
  apply list_elem_of_filter in He as [_ He].
  apply list_elem_of_fmap. eauto.
Qed.

(** After a grouped reduction every key pair occurs once, so [pivot] does
    not raise on it. *)
Lemma pivot_agg_groupby2 {R : Type} (key1 key2 : R -> string)
    (f : list float -> float) (col : R -> float) (df : list R) :
  pivot (agg f col (groupby2 key1 key2 df))
  = inr (unstack (agg f col (groupby2 key1 key2 df))).
Proof.
  unfold pivot. rewrite decide_True; [reflexivity|].
  rewrite agg_keys. apply groupby2_NoDup.
Qed.

Lemma pivot_execution_ok (df : list (Panda.row float)) :
  Panda.pivot_execution df
  = inr (fillna F64.zero (unstack (Panda.total_cost_by_function df))).
Proof.
  unfold Panda.pivot_execution, Panda.total_cost_by_function.
  now rewrite pivot_agg_groupby2.
Qed.

Lemma pivot_deployment_inv (df : list (Panda.row float)) (f : frame) :
  Panda.pivot_deployment df = inr f ->
  f = fillna F64.zero
        (unstack ((fun r => (Panda.Contract r, Panda.Network r, Panda.USD_Avg r))
                  <$> Panda.deployment_df df)).
Proof.
  unfold Panda.pivot_deployment, pivot. destruct (decide _); simpl; congruence.
Qed.

(** C6, as the code has it.  In [avg_cost.py] the heat-map pivot
    ([pivot_table], line 75) holds NaN in a cell whose (function, network)
    pair has no row.  In [panda.py] both pivots end in [.fillna(0)]: a cell
    whose pair has no row holds the number [0.0], the same value a pair of
    total cost zero would show. *)
Theorem cell_without_rows :
  (forall (df : list AvgCost.row) (r c : string),
     r ∈ index (AvgCost.pivot_data df) -> c ∈ columns (AvgCost.pivot_data df) ->
     rows_at AvgCost.Function AvgCost.Network df r c = [] ->
     loc (AvgCost.pivot_data df) r c = Some F64.nan)
  /\ (forall (df : list (Panda.row float)) (f : frame) (r c : string),
        Panda.pivot_execution df = inr f ->
        r ∈ index f -> c ∈ columns f ->
        rows_at Panda.Method Panda.Network (Panda.execution_df df) r c = [] ->
        loc f r c = Some F64.zero)
  /\ (forall (df : list (Panda.row float)) (f : frame) (r c : string),
        Panda.pivot_deployment df = inr f ->
        r ∈ index f -> c ∈ columns f ->
        rows_at Panda.Contract Panda.Network (Panda.deployment_df df) r c = [] ->
        loc f r c = Some F64.zero).
Proof.
  split; [|split].
  - intros df r c Hr Hc Hnil. unfold AvgCost.pivot_data, pivot_table in *.
    rewrite loc_unstack by assumption. f_equal.
    apply entry_missing. intros Hin. apply fmap_filter_keys in Hin.
    now apply agg_groupby2_no_key in Hin.
  - intros df f r c Hf Hr Hc Hnil. rewrite pivot_execution_ok in Hf.
    injection Hf as <-. rewrite loc_fillna, loc_unstack by assumption.
    simpl. f_equal. unfold Panda.total_cost_by_function.
    rewrite entry_missing; [reflexivity|]. now apply agg_groupby2_no_key.
  - intros df f r c Hf Hr Hc Hnil. apply pivot_deployment_inv in Hf as ->.
    rewrite loc_fillna, loc_unstack by assumption. simpl. f_equal.
    rewrite entry_missing; [reflexivity|].
    rewrite <- list_fmap_compose. intros (x & [= -> ->] & Hx)%list_elem_of_fmap.
    assert (Hin : x ∈ rows_at Panda.Contract Panda.Network
                      (Panda.deployment_df df) (Panda.Contract x) (Panda.Network x))
      by now apply elem_of_rows_at.
    rewrite Hnil in Hin. now apply not_elem_of_nil in Hin.
Qed.

(** One [mint] row on [netA], one [burn] row on [netB]: the heat-map cell
    ([mint], [netB]) is NaN. *)
Lemma cell_without_rows_scenario :
  loc (AvgCost.pivot_data two_functions) "mint" "netB" = Some F64.nan.
Proof.
  destruct cell_without_rows as [H _]. apply H.
  - vm_compute. apply list_elem_of_In. simpl. tauto.
  - vm_compute. apply list_elem_of_In. simpl. tauto.
  - reflexivity.
Defined.

(** C6 fails as stated: with one [mint] row on [netA] and one [burn] row on
    [netB], the execution pivot of [panda.py] shows [0.0] for the pair
    ([mint], [netB]), which has no row, not a marker of absence. *)
Lemma execution_pivot_fills_zero :
  let df := Panda.clean
      [Panda.Build_row cell "cX" "mint" "netA" (Num (F64.of_Z 1));
       Panda.Build_row cell "cX" "burn" "netB" (Num (F64.of_Z 2))] in
  rows_at Panda.Method Panda.Network (Panda.execution_df df) "mint" "netB" = []
  /\ Panda.pivot_execution df
     = inr {| index := ["burn"; "mint"];
              columns := ["netA"; "netB"];
              data := [[F64.zero; F64.of_Z 2]; [F64.of_Z 1; F64.zero]] |}
  /\ (Panda.pivot_execution df ≫= fun f => mret (loc f "mint" "netB"))
     = inr (Some F64.zero).
Proof. vm_compute. auto. Qed.

End MissingCells.

(** ** C9: rows that share their keys *)

Section DuplicateKeys.
Import Pandas Panda.

Implicit Types (df : list (row float)) (r : row float).

(** C9, where the code departs from it.  Rows that share their keys are to
    be combined; but two deployment rows with the same contract and network
    make the deployment pivot raise [ValueError]: line 63 reshapes the rows
    as they are, where line 31 sums the execution rows of a pair first. *)
Theorem duplicate_deployment_rows_raise df (i j : nat) (r1 r2 : row float) :
  deployment_df df !! i = Some r1 -> deployment_df df !! j = Some r2 ->
  i <> j -> Contract r1 = Contract r2 -> Network r1 = Network r2 ->
  pivot_deployment df = inl ValueError.
Proof.
  intros H1 H2 Hij Hc Hn. unfold pivot_deployment, pivot.
  rewrite decide_False; [reflexivity|].
  rewrite <- list_fmap_compose. intros Hnd. apply Hij.
  apply (proj1 (NoDup_alt _) Hnd i j (Contract r1, Network r1)).
  - now rewrite list_lookup_fmap, H1.
  - rewrite list_lookup_fmap, H2. simpl. now rewrite Hc, Hn.
Qed.

(** The failing input: one execution row and two deployment rows of the
    same contract on the same network. *)
Lemma duplicate_deployment_rows_scenario :
  pivot_deployment (clean deployed_twice) = inl ValueError.
Proof.
  apply (duplicate_deployment_rows_raise (clean deployed_twice) 0 1
           (Build_row float "Token" "deployment" "Arbitrum" (F64.of_decimal false 15 (-1)))
           (Build_row float "Token" "deployment" "Arbitrum" (F64.of_decimal false 25 (-1))));
    (reflexivity || discriminate).
Defined.

(** On that input the script saves its first chart and then stops on the
    exception; the second chart is never written. *)
Lemma duplicate_deployment_rows_run :
  generate_cost_visualizations (Some deployed_twice)
  = ([Print "CSV file loaded successfully." [];
      SaveFig "total_execution_cost_by_function.png";
      Print "Chart 'total_execution_cost_by_function.png' saved successfully." []],
     inl ValueError).
Proof. vm_compute. reflexivity. Qed.

(** The execution path on rows that share their keys: they are summed. *)
Lemma duplicate_execution_rows_summed :
  pivot_execution
    (clean [Build_row cell "Token" "mint" "Arbitrum" (Num (F64.of_decimal false 15 (-1)));
            Build_row cell "Token" "mint" "Arbitrum" (Num (F64.of_decimal false 25 (-1)))])
  = inr {| index := ["mint"]; columns := ["Arbitrum"];
           data := [[F64.of_Z 4]] |}.
Proof. vm_compute. reflexivity. Qed.

(** The heat-map pivot of [avg_cost.py] on rows that share their keys: their
    mean. *)
Lemma duplicate_rows_averaged :
  AvgCost.pivot_data
    [AvgCost.Build_row "Arbitrum" "Token" "mint" (F64.of_Z 1);
     AvgCost.Build_row "Arbitrum" "Token" "mint" (F64.of_Z 3)]
  = {| index := ["mint"]; columns := ["Arbitrum"]; data := [[F64.of_Z 2]] |}.
Proof. vm_compute. reflexivity. Qed.

End DuplicateKeys.

(** ** C1: cleaning the cost column *)

Section Cleaning.
Import Pandas.

Lemma dropna_idemp (xs : list float) : dropna (dropna xs) = dropna xs.
Proof. unfold dropna. now apply list_filter_filter_l. Qed.

(** The reductions do not see NaN values. *)
Lemma reductions_skip_nan (xs : list float) :
  sum (dropna xs) = sum xs /\ mean (dropna xs) = mean xs.
Proof. unfold sum, mean. now rewrite dropna_idemp. Qed.

(** [panda.py]: the cleaned rows are the coerced rows whose cost is a
    number, in frame order. *)
Lemma panda_clean_rows (raw : list (Panda.row cell)) :
  Forall (fun r => F64.isna (Panda.USD_Avg r) = false) (Panda.clean raw)
  /\ (forall r' : Panda.row float,
        r' ∈ Panda.clean raw <->
        exists r, r ∈ raw /\ r' = Panda.coerce r
                  /\ F64.isna (to_numeric (Panda.USD_Avg r)) = false)
  /\ sublist (Panda.clean raw) (Panda.coerce <$> raw).
Proof.
  unfold Panda.clean. split_and!.
  - apply Forall_forall. now intros r [? ?]%list_elem_of_filter.
  - intros r'. rewrite list_elem_of_filter, list_elem_of_fmap. split.
    + intros (Hna & r & -> & Hr). eauto.
    + intros (r & Hr & -> & Hna). eauto.
  - apply sublist_filter.
Qed.

(** [deployment.py]: when the conversion succeeds, the cleaned frame has
    the rows of the raw one, each with the number its cost text denotes
    once the dollar signs are removed. *)
Lemma deployment_clean_rows (raw : list (Deployment.row cell))
    (df : list (Deployment.row float)) :
  Deployment.clean raw = inr df ->
  Forall2 (fun r r' =>
             Deployment.Contract r' = Deployment.Contract r
             /\ Deployment.Network r' = Deployment.Network r
             /\ astype_float (replace_dollar (Deployment.Cost r))
                = inr (Deployment.Cost r')) raw df.
Proof.
  revert df. induction raw as [|r raw IH]; intros df Hdf.
  - injection Hdf as <-. constructor.
  - unfold Deployment.clean in Hdf. simpl in Hdf.
    destruct (astype_float (replace_dollar (Deployment.Cost r))) as [e|x] eqn:Ex;
      [discriminate|]. simpl in Hdf.
    change (mapM _ raw) with (Deployment.clean raw) in Hdf.
    destruct (Deployment.clean raw) as [e|df'] eqn:E; [discriminate|].
    injection Hdf as <-. constructor; [auto|]. now apply IH.
Qed.

(** A cost text that is no number stops [deployment.py] with
    [ValueError]. *)
Lemma deployment_clean_rejects_text :
  Deployment.clean [Deployment.Build_row cell "cX" "Polygon" (Text "N/A")]
  = inl ValueError.
Proof. reflexivity. Qed.

(** C1, as the code has it.  Cleaning checks no sign: a negative number is
    kept.  [panda.py] coerces with [to_numeric] and drops NaN rows: the
    cleaned column holds numbers only (no NaN); a row stays, with the number
    its cell denotes, exactly when the cell is a number or numeric text;
    ["N/A"] and also ["$0.08"] (no symbol is stripped there) are dropped,
    never replaced by [0.0].  [deployment.py] removes the dollar signs and
    converts: ["$0.08"] becomes [0.08], every row stays, and the NaN of a
    missing cell is skipped by [sum] and [mean]. *)
Theorem cleaning_as_coded :
  (forall raw : list (Panda.row cell),
     Forall (fun r => F64.isna (Panda.USD_Avg r) = false) (Panda.clean raw)
     /\ (forall r' : Panda.row float,
           r' ∈ Panda.clean raw <->
           exists r, r ∈ raw /\ r' = Panda.coerce r
                     /\ F64.isna (to_numeric (Panda.USD_Avg r)) = false)
     /\ sublist (Panda.clean raw) (Panda.coerce <$> raw))
  /\ to_numeric (Text "0.08") = F64.of_decimal false 8 (-2)
  /\ to_numeric (Text "N/A") = F64.nan
  /\ to_numeric (Text "$0.08") = F64.nan
  /\ (forall (raw : list (Deployment.row cell)) (df : list (Deployment.row float)),
        Deployment.clean raw = inr df ->
        Forall2 (fun r r' =>
                   Deployment.Contract r' = Deployment.Contract r
                   /\ Deployment.Network r' = Deployment.Network r
                   /\ astype_float (replace_dollar (Deployment.Cost r))
                      = inr (Deployment.Cost r')) raw df)
  /\ astype_float (replace_dollar (Text "$0.08")) = inr (F64.of_decimal false 8 (-2))
  /\ astype_float (replace_dollar (Num F64.nan)) = inr F64.nan
  /\ (forall xs, sum (dropna xs) = sum xs /\ mean (dropna xs) = mean xs)
  /\ mean [F64.of_Z 4; F64.nan] = F64.of_Z 4.
Proof.
  split_and!; try reflexivity.
  - apply panda_clean_rows.
  - apply deployment_clean_rows.
  - apply reductions_skip_nan.
Qed.

(** The built-in frame of [deployment.py]: all eighteen rows are kept, and
    the second cost, ["$0.08"], is read as 0.08. *)
Lemma cleaning_scenario :
  exists df, Deployment.clean Deployment.dummy = inr df
             /\ (Deployment.Cost <$> df) !! 1%nat = Some (F64.of_decimal false 8 (-2))
             /\ length df = 18%nat.
Proof.
  destruct (Deployment.clean Deployment.dummy) as [e|df] eqn:E;
    [vm_compute in E; discriminate|].
  exists df. split; [reflexivity|].
  destruct cleaning_as_coded as (_ & _ & _ & _ & H & _).
  pose proof (H _ _ E) as HF.
  split.
  - vm_compute in E. injection E as <-. reflexivity.
  - rewrite <- (Forall2_length _ _ _ HF). reflexivity.
Defined.

(** C1 fails as stated.  In a cost column read as text, with the cells
    [-5.5] and [$0.08], [panda.py] keeps the first row with the negative
    cost -5.5 and drops the second one: the cleaned column is not bounded
    below by zero, and ["$0.08"] is not read as 0.08 there.  [deployment.py]
    keeps a negative cost as well. *)
Lemma cleaning_keeps_negative_costs :
  Panda.clean [Panda.Build_row cell "cX" "mint" "netA" (Text "-5.5");
               Panda.Build_row cell "cX" "burn" "netA" (Text "$0.08")]
  = [Panda.Build_row float "cX" "mint" "netA" (F64.of_decimal true 55 (-1))]
  /\ F64.ltb (F64.of_decimal true 55 (-1)) F64.zero = true
  /\ Deployment.clean [Deployment.Build_row cell "cX" "Polygon" (Text "$-5.5")]
     = inr [Deployment.Build_row float "cX" "Polygon" (F64.of_decimal true 55 (-1))].
Proof. vm_compute. auto. Qed.

End Cleaning.

(** ** C8: a missing input file *)

Section MissingFile.
Import Pandas.

(** C8, as the code has it.  [analyze_gas_costs] and
    [generate_cost_visualizations] print one message and return: no
    directory is made, no chart saved, no summary printed.
    [deployment.py] prints a message too, but then runs its whole analysis
    on a built-in frame of eighteen rows: it saves its three charts, prints
    its summaries and ends normally. *)
Theorem missing_input_file (Q : quicksort) :
  (forall (read_csv : string -> option (list AvgCost.row)) (dir_exists : bool)
          (filepath : string),
     read_csv filepath = None ->
     AvgCost.analyze_gas_costs Q read_csv dir_exists filepath
     = ([Print "Error: The file '{filepath}' was not found." [FStr filepath]],
        inr tt))
  /\ Panda.generate_cost_visualizations None
     = ([Print "Error: output.csv not found. Please ensure the file is in the correct directory." []],
        inr tt)
  /\ Deployment.main Q None
     = (print "deploymentgasestimation.csv not found. Creating a dummy dataframe for demonstration.";;
        Deployment.analysis Q Deployment.dummy)
  /\ artifacts (trace (Deployment.main Q None))
     = ["deployment_costs_bar_charts.png"; "deployment_costs_line_charts.png";
        "deployment_costs_summary.png"]
  /\ outcome (Deployment.main Q None) = inr tt.
Proof.
  split_and!; try reflexivity.
  - intros read_csv dir_exists filepath Hnone.
    unfold AvgCost.analyze_gas_costs. now rewrite Hnone.
Qed.

(** A file system without [contract.csv]. *)
Lemma missing_input_file_scenario :
  AvgCost.analyze_gas_costs insertion_quicksort (fun _ => None) false "contract.csv"
  = ([Print "Error: The file '{filepath}' was not found." [FStr "contract.csv"]],
     inr tt).
Proof.
  destruct (missing_input_file insertion_quicksort) as [H _].
  now apply H.
Defined.

(** C8 fails as stated: without its input file, [deployment.py] does not
    stop; it writes three image files and prints its reports. *)
Lemma missing_file_still_writes_charts :
  artifacts (trace (Deployment.main insertion_quicksort None))
  = ["deployment_costs_bar_charts.png"; "deployment_costs_line_charts.png";
     "deployment_costs_summary.png"]
  /\ outcome (Deployment.main insertion_quicksort None) = inr tt
  /\ length (printed_text (trace (Deployment.main insertion_quicksort None)))
     = 23%nat.
Proof. vm_compute. auto. Qed.

End MissingFile.

(** ** C4: a table without rows *)

Section EmptyTable.
Import Pandas.

Lemma sort_values_nil {A : Type} (Q : quicksort) (by_ : A -> float) :
  sort_values Q by_ [] = [].
Proof.
  unfold sort_values. rewrite !filter_nil.
  pose proof (argsort_perm Q A by_ []) as Hp.
  apply Permutation_nil_r in Hp. now rewrite Hp.
Qed.

Lemma ranking_nil (Q : quicksort) : AvgCost.ranking Q [] = [].
Proof.
  unfold AvgCost.ranking, AvgCost.network_avg.
  change (agg mean AvgCost.usd_avg (groupby AvgCost.Network [])) with (@nil (string * float)).
  now rewrite sort_values_nil.
Qed.

(** [analyze_gas_costs] on a file without rows never reaches its summary:
    the loop over the contracts binds no [i], and line 63 reads it. *)
Lemma analyze_gas_costs_no_rows (Q : quicksort)
    (read_csv : string -> option (list AvgCost.row)) (dir_exists : bool)
    (filepath : string) :
  read_csv filepath = Some [] ->
  outcome (AvgCost.analyze_gas_costs Q read_csv dir_exists filepath)
  = inl UnboundLocalError
  /\ artifacts (trace (AvgCost.analyze_gas_costs Q read_csv dir_exists filepath))
     = [].
Proof.
  intros Hsome. unfold AvgCost.analyze_gas_costs. rewrite Hsome.
  destruct dir_exists; split; reflexivity.
Qed.

(** C4, as the code has it.  Over zero rows the reductions give [0.0]
    ([sum]) and NaN ([mean]); row selection ([idxmax], [idxmin]) raises
    [ValueError]; the ranking and the grouped totals are empty.  No script
    tests for this case and none prints ["no data"]: the summary of
    [avg_cost.py] prints its ranking heading with no line under it and stops
    on the [ValueError] of [idxmax]; the report of [deployment.py] prints
    the total [0.0] and the average NaN. *)
Theorem empty_table_behaviour (Q : quicksort) :
  (sum [] = F64.zero /\ mean [] = F64.nan
   /\ idxmax AvgCost.usd_avg [] = inl ValueError
   /\ idxmin AvgCost.usd_avg [] = inl ValueError
   /\ AvgCost.ranking Q [] = []
   /\ Panda.total_cost_by_function (Panda.clean []) = [])
  /\ (outcome (AvgCost.deeper_summary_analysis Q []) = inl ValueError
      /\ printed_numbers (trace (AvgCost.deeper_summary_analysis Q [])) = []
      /\ "no data" ∉ printed_text (trace (AvgCost.deeper_summary_analysis Q [])))
  /\ (Deployment.clean [] = inr []
      /\ Deployment.comparison_table []
         = ([Print "--- Ethereum Deployment Cost Summary ---" [];
             Print "Total Estimated Cost for all contracts on Ethereum: ${total_ethereum_cost:,.2f}"
               [FNum F64.zero];
             Print "Average Estimated Cost for a contract on Ethereum: ${average_ethereum_cost:,.2f}"
               [FNum F64.nan];
             Print (str_mul "-" 40) [];
             Print (nl +:+ "--- Deployment Cost Comparison vs. Ethereum ---") [];
             PrintTable
               ["Contract"; "Network"; "Est. Deployment Cost (USD)";
                "Ethereum Cost (USD)"; "Discount (USD)"; "Discount (%)"] [];
             Print (nl +:+ str_mul "=" 80 +:+ nl) []],
            inr tt)).
Proof.
  split_and!; try reflexivity.
  - apply ranking_nil.
  - unfold AvgCost.deeper_summary_analysis. rewrite ranking_nil. reflexivity.
  - unfold AvgCost.deeper_summary_analysis. rewrite ranking_nil. reflexivity.
  - unfold AvgCost.deeper_summary_analysis. rewrite ranking_nil.
    vm_compute. intros Hin. apply list_elem_of_In in Hin. simpl in Hin.
    repeat (destruct Hin as [Hin|Hin]; [discriminate|]). exact Hin.
Qed.

(** C4 fails as stated.  On a file with a header and no rows,
    [deployment.py] prints NaN as the average Ethereum cost; the summary of
    [avg_cost.py] ends in an uncaught [ValueError], and [analyze_gas_costs]
    as a whole ends in an uncaught exception before it gets there. *)
Lemma empty_table_raises_and_prints_nan :
  take 3 (trace (Deployment.main insertion_quicksort (Some [])))
  = [Print "--- Ethereum Deployment Cost Summary ---" [];
     Print "Total Estimated Cost for all contracts on Ethereum: ${total_ethereum_cost:,.2f}"
       [FNum F64.zero];
     Print "Average Estimated Cost for a contract on Ethereum: ${average_ethereum_cost:,.2f}"
       [FNum F64.nan]]
  /\ outcome (AvgCost.deeper_summary_analysis insertion_quicksort [])
     = inl ValueError
  /\ AvgCost.analyze_gas_costs insertion_quicksort (fun _ => Some []) false
       "contract.csv"
     = ([MakeDirs "gas_cost_analysis_charts";
         Print "Generating merged 3x2 grid of bar charts..." []],
        inl UnboundLocalError).
Proof. vm_compute. auto. Qed.

End EmptyTable.

(** * Further properties of the scripts *)

(** ** The order of binary64 values is a total preorder away from NaN *)

Section F64Total.

Ltac lex_cases :=
  intuition (try lia; try discriminate; try reflexivity).

Lemma leb_ordkey (x y : float) :
  F64.isna x = false -> F64.isna y = false ->
  F64.leb x y = true <-> lex_le (ordkey x) (ordkey y).
Proof.
  unfold F64.leb, SFleb, lex_le.
  destruct x as [sx|sx| |sx mx ex], y as [sy|sy| |sy my ey]; simpl; intros Hx Hy;
    try discriminate;
    try (destruct sx; simpl; lex_cases; fail);
    try (destruct sy; simpl; lex_cases; fail);
    try (destruct sx, sy; simpl; lex_cases; fail).
  destruct sx, sy; simpl; try (lex_cases; fail);
    rewrite Pos.compare_cont_spec; simpl;
    destruct (Z.compare_spec ex ey); destruct (Pos.compare_spec mx my); simpl;
    lex_cases.
Qed.

Lemma ltb_ordkey (x y : float) :
  F64.isna x = false -> F64.isna y = false ->
  F64.ltb x y = true <-> lex_lt (ordkey x) (ordkey y).
Proof.
  unfold F64.ltb, SFltb, lex_lt.
  destruct x as [sx|sx| |sx mx ex], y as [sy|sy| |sy my ey]; simpl; intros Hx Hy;
    try discriminate;
    try (destruct sx; simpl; lex_cases; fail);
    try (destruct sy; simpl; lex_cases; fail);
    try (destruct sx, sy; simpl; lex_cases; fail).
  destruct sx, sy; simpl; try (lex_cases; fail);
    rewrite Pos.compare_cont_spec; simpl;
    destruct (Z.compare_spec ex ey); destruct (Pos.compare_spec mx my); simpl;
    lex_cases.
Qed.

Lemma ltb_notna (x y : float) :
  F64.ltb x y = true -> F64.isna x = false /\ F64.isna y = false.
Proof. destruct x, y; simpl; auto; discriminate. Qed.

Lemma leb_trans (x y z : float) :
  F64.leb x y = true -> F64.leb y z = true -> F64.leb x z = true.
Proof.
  intros Hxy Hyz.
  destruct (leb_notna _ _ Hxy) as [Hx Hy]. destruct (leb_notna _ _ Hyz) as [_ Hz].
  rewrite leb_ordkey in * by assumption. unfold lex_le in *. lia.
Qed.

Lemma ltb_trans (x y z : float) :
  F64.ltb x y = true -> F64.ltb y z = true -> F64.ltb x z = true.
Proof.
  intros Hxy Hyz.
  destruct (ltb_notna _ _ Hxy) as [Hx Hy]. destruct (ltb_notna _ _ Hyz) as [_ Hz].
  rewrite ltb_ordkey in * by assumption. unfold lex_lt in *. lia.
Qed.

Lemma leb_ltb_trans (x y z : float) :
  F64.leb x y = true -> F64.ltb y z = true -> F64.ltb x z = true.
Proof.
  intros Hxy Hyz.
  destruct (leb_notna _ _ Hxy) as [Hx Hy]. destruct (ltb_notna _ _ Hyz) as [_ Hz].
  rewrite leb_ordkey in Hxy by assumption.
  rewrite ltb_ordkey in * by assumption. unfold lex_le, lex_lt in *. lia.
Qed.

Lemma ltb_leb_trans (x y z : float) :
  F64.ltb x y = true -> F64.leb y z = true -> F64.ltb x z = true.
Proof.
  intros Hxy Hyz.
  destruct (ltb_notna _ _ Hxy) as [Hx Hy]. destruct (leb_notna _ _ Hyz) as [_ Hz].
  rewrite leb_ordkey in Hyz by assumption.
  rewrite ltb_ordkey in * by assumption. unfold lex_le, lex_lt in *. lia.
Qed.

Lemma ltb_leb (x y : float) : F64.ltb x y = true -> F64.leb x y = true.
Proof.
  unfold F64.ltb, F64.leb, SFltb, SFleb.
  destruct (SFcompare x y) as [[]|]; congruence.
Qed.

Lemma leb_refl (x : float) : F64.isna x = false -> F64.leb x x = true.
Proof. intros Hx. apply leb_ordkey; try assumption. unfold lex_le. lia. Qed.

Lemma fill_notna (v x : float) :
  F64.isna v = false -> F64.isna (Pandas.fill v x) = false.
Proof. intros Hv. unfold Pandas.fill. now destruct (F64.isna x) eqn:E. Qed.

Lemma fill_id (v x : float) : F64.isna x = false -> Pandas.fill v x = x.
Proof. intros Hx. unfold Pandas.fill. now rewrite Hx. Qed.

End F64Total.

(** ** Row selection: [idxmax] and [idxmin] *)

Section ArgFirst.
Import Pandas.

Context {R : Type} (key : R -> float).

(** [lt] and [le] stand for [<] and [<=] when the first better row is a
    greater one, and for [>] and [>=] when it is a smaller one. *)
Variables lt le : float -> float -> bool.

Hypothesis key_notna : forall y, F64.isna (key y) = false.
Hypothesis lt_trans : forall a b c, lt a b = true -> lt b c = true -> lt a c = true.
Hypothesis le_lt_trans : forall a b c, le a b = true -> lt b c = true -> lt a c = true.
Hypothesis total : forall a b,
  F64.isna a = false -> F64.isna b = false -> lt b a = false -> le a b = true.

(** The scan returns the first row that beats every row before it and is
    not beaten by any row after it. *)
Lemma arg_first_split (pre mid l : list R) (best : R) :
  (forall y, y ∈ pre -> lt (key y) (key best) = true) ->
  (forall y, y ∈ mid -> le (key y) (key best) = true) ->
  exists l1 l2,
    pre ++ best :: mid ++ l
    = l1 ++ arg_first (fun a b => lt b a) key best l :: l2
    /\ (forall y, y ∈ l1 ->
          lt (key y) (key (arg_first (fun a b => lt b a) key best l)) = true)
    /\ (forall y, y ∈ l2 ->
          le (key y) (key (arg_first (fun a b => lt b a) key best l)) = true).
Proof.
  revert pre mid best. induction l as [|x l IH]; intros pre mid best Hpre Hmid.
  - exists pre, mid. now rewrite app_nil_r.
  - simpl. destruct (lt (key best) (key x)) eqn:E.
    + destruct (IH (pre ++ best :: mid) [] x) as (l1 & l2 & Heq & H1 & H2).
      * intros y [Hy|Hy]%elem_of_app; [eauto|].
        apply elem_of_cons in Hy as [->|Hy]; eauto.
      * intros y Hy. now apply not_elem_of_nil in Hy.
      * exists l1, l2. split; [|auto]. rewrite <- Heq.
        now rewrite <- app_assoc.
    + destruct (IH pre (mid ++ [x]) best) as (l1 & l2 & Heq & H1 & H2); auto.
      * intros y [Hy|Hy]%elem_of_app; [auto|].
        apply list_elem_of_singleton in Hy as ->. now apply total.
      * exists l1, l2. split; [|auto]. rewrite <- Heq.
        now rewrite <- app_assoc.
Qed.

End ArgFirst.

Section RowSelection.
Import Pandas.

Context {R : Type} (col : R -> float).

Lemma forallb_isna_false (df : list R) :
  forallb (fun y => F64.isna (col y)) df = false <->
  exists r, r ∈ df /\ F64.isna (col r) = false.
Proof.
  induction df as [|x df IH]; simpl.
  - split; [discriminate|]. intros (r & Hr & _). now apply not_elem_of_nil in Hr.
  - rewrite andb_false_iff, IH. split.
    + intros [Hx|(r & Hr & Hna)]; [exists x|exists r]; split; auto;
        [apply list_elem_of_here | now apply list_elem_of_further].
    + intros (r & [->|Hr]%elem_of_cons & Hna); eauto.
Qed.

(** Row selection succeeds exactly on a column that holds a number. *)
Lemma idxmax_ok_iff (df : list R) :
  (exists r, idxmax col df = inr r) <->
  exists r, r ∈ df /\ F64.isna (col r) = false.
Proof.
  rewrite <- forallb_isna_false. unfold idxmax. destruct df as [|x df].
  - split; [intros [r [=]] | discriminate].
  - destruct (forallb _ (x :: df)); split; eauto; try discriminate.
    intros [r [=]].
Qed.

Lemma idxmin_ok_iff (df : list R) :
  (exists r, idxmin col df = inr r) <->
  exists r, r ∈ df /\ F64.isna (col r) = false.
Proof.
  rewrite <- forallb_isna_false. unfold idxmin. destruct df as [|x df].
  - split; [intros [r [=]] | discriminate].
  - destruct (forallb _ (x :: df)); split; eauto; try discriminate.
    intros [r [=]].
Qed.

Lemma idxmax_raises (df : list R) :
  (forall r, r ∈ df -> F64.isna (col r) = true) -> idxmax col df = inl ValueError.
Proof.
  intros Hall. destruct (idxmax col df) as [[]|r] eqn:E; try reflexivity;
    try (unfold idxmax in E; destruct df; [discriminate|];
         destruct (forallb _ _); discriminate).
  assert (H : exists r, idxmax col df = inr r) by eauto.
  apply idxmax_ok_iff in H as (r' & Hr' & Hna). rewrite Hall in Hna; [discriminate|auto].
Qed.

(** The row of [idxmax] is the first one of greatest value. *)
Lemma idxmax_first_greatest (df : list R) (r : R) :
  idxmax col df = inr r -> first_greatest col df r.
Proof.
  unfold idxmax. destruct df as [|x df]; [discriminate|].
  destruct (forallb _ (x :: df)); [discriminate|]. intros [= <-].
  destruct (arg_first_split (fun y => fill (F64.inf true) (col y)) F64.ltb F64.leb)
    with (pre := @nil R) (mid := @nil R) (l := df) (best := x)
    as (l1 & l2 & Heq & H1 & H2).
  - intros y. now apply fill_notna.
  - apply ltb_trans.
  - apply leb_ltb_trans.
  - intros a b Ha Hb. now apply leb_of_not_ltb.
  - intros y Hy. now apply not_elem_of_nil in Hy.
  - intros y Hy. now apply not_elem_of_nil in Hy.
  - exists l1, l2. auto.
Qed.

(** The row of [idxmin] is the first one of least value. *)
Lemma idxmin_first_least (df : list R) (r : R) :
  idxmin col df = inr r -> first_least col df r.
Proof.
  unfold idxmin. destruct df as [|x df]; [discriminate|].
  destruct (forallb _ (x :: df)); [discriminate|]. intros [= <-].
  destruct (arg_first_split (fun y => fill (F64.inf false) (col y))
              (fun a b => F64.ltb b a) (fun a b => F64.leb b a))
    with (pre := @nil R) (mid := @nil R) (l := df) (best := x)
    as (l1 & l2 & Heq & H1 & H2).
  - intros y. now apply fill_notna.
  - intros a b c Hab Hbc. now apply (ltb_trans c b a).
  - intros a b c Hab Hbc. now apply (ltb_leb_trans c b a).
  - intros a b Ha Hb. now apply leb_of_not_ltb.
  - intros y Hy. now apply not_elem_of_nil in Hy.
  - intros y Hy. now apply not_elem_of_nil in Hy.
  - exists l1, l2. auto.
Qed.

Lemma first_greatest_elem_of (df : list R) (r : R) :
  first_greatest col df r -> r ∈ df.
Proof.
  intros (l1 & l2 & -> & _). apply elem_of_app. right. apply list_elem_of_here.
Qed.

Lemma first_least_elem_of (df : list R) (r : R) :
  first_least col df r -> r ∈ df.
Proof.
  intros (l1 & l2 & -> & _). apply elem_of_app. right. apply list_elem_of_here.
Qed.

(** When the selected cost is a number, it bounds every number of the
    column. *)
Lemma first_greatest_bound (df : list R) (r y : R) :
  first_greatest col df r -> F64.isna (col r) = false ->
  y ∈ df -> F64.isna (col y) = false -> F64.leb (col y) (col r) = true.
Proof.
  intros (l1 & l2 & -> & H1 & H2) Hr Hy Hna.
  rewrite <- (fill_id (F64.inf true) (col y)), <- (fill_id (F64.inf true) (col r))
    by assumption.
  apply elem_of_app in Hy as [Hy|[->|Hy]%elem_of_cons].
  - apply ltb_leb. auto.
  - apply leb_refl. now apply fill_notna.
  - auto.
Qed.

Lemma first_least_bound (df : list R) (r y : R) :
  first_least col df r -> F64.isna (col r) = false ->
  y ∈ df -> F64.isna (col y) = false -> F64.leb (col r) (col y) = true.
Proof.
  intros (l1 & l2 & -> & H1 & H2) Hr Hy Hna.
  rewrite <- (fill_id (F64.inf false) (col y)), <- (fill_id (F64.inf false) (col r))
    by assumption.
  apply elem_of_app in Hy as [Hy|[->|Hy]%elem_of_cons].
  - apply ltb_leb. auto.
  - apply leb_refl. now apply fill_notna.
  - auto.
Qed.

End RowSelection.

(** ** Runs: how outcomes and traces compose *)

Section Runs.

Lemma outcome_bind {A B : Type} (m : run A) (k : A -> run B) :
  outcome (m ≫= k) = outcome m ≫= (fun a => outcome (k a)).
Proof.
  destruct m as [t [e|a]]; [reflexivity|].
  unfold mbind, run_mbind, run_bind, outcome. simpl. now destruct (k a).
Qed.

Lemma trace_bind {A B : Type} (m : run A) (k : A -> run B) :
  trace (m ≫= k)
  = trace m ++ match outcome m with inr a => trace (k a) | inl _ => [] end.
Proof.
  destruct m as [t [e|a]]; unfold mbind, run_mbind, run_bind, trace, outcome; simpl.
  - now rewrite app_nil_r.
  - now destruct (k a).
Qed.

Lemma artifacts_app (t1 t2 : list event) :
  artifacts (t1 ++ t2) = artifacts t1 ++ artifacts t2.
Proof. unfold artifacts. apply omap_app. Qed.

Lemma for_each_outcome {A : Type} (l : list A) (body : A -> run unit) :
  outcome (for_each l body) = inr tt <->
  forall x, x ∈ l -> outcome (body x) = inr tt.
Proof.
  induction l as [|x l IH]; simpl.
  - split; [|reflexivity]. intros _ y Hy. now apply not_elem_of_nil in Hy.
  - rewrite outcome_bind. split.
    + intros H y [->|Hy]%elem_of_cons.
      * destruct (outcome (body x)) as [e|[]]; [discriminate|reflexivity].
      * destruct (outcome (body x)) as [e|[]]; [discriminate|]. now apply IH.
    + intros H. rewrite (H x) by apply list_elem_of_here. simpl.
      apply IH. intros y Hy. apply H. now apply list_elem_of_further.
Qed.

Lemma for_each_raises {A : Type} (l : list A) (body : A -> run unit) (e : exn) :
  (forall x, x ∈ l -> outcome (body x) = inr tt \/ outcome (body x) = inl e) ->
  outcome (for_each l body) = inr tt \/ outcome (for_each l body) = inl e.
Proof.
  induction l as [|x l IH]; intros H; simpl; [now left|].
  rewrite outcome_bind.
  destruct (H x) as [Hx|Hx]; [apply list_elem_of_here| |]; rewrite Hx; simpl.
  - apply IH. intros y Hy. apply H. now apply list_elem_of_further.
  - now right.
Qed.

Lemma for_each_artifacts {A : Type} (l : list A) (body : A -> run unit) :
  (forall x, artifacts (trace (body x)) = []) ->
  artifacts (trace (for_each l body)) = [].
Proof.
  intros H. induction l as [|x l IH]; simpl; [reflexivity|].
  rewrite trace_bind, artifacts_app, H. simpl.
  now destruct (outcome (body x)).
Qed.

(** [mapM] over steps that may raise: it succeeds exactly when every step
    does, and then holds the results in order. *)
Lemma mapM_result_inr {A B : Type} (f : A -> result B) (l : list A) (k : list B) :
  mapM f l = inr k <-> Forall2 (fun x y => f x = inr y) l k.
Proof.
  revert k. induction l as [|x l IH]; intros k; simpl.
  - split; [intros [= <-]; constructor | now inversion 1].
  - split.
    + destruct (f x) as [e|y] eqn:Ex; [discriminate|]. simpl.
      destruct (mapM f l) as [e|k'] eqn:E; [discriminate|]. intros [= <-].
      constructor; [assumption|]. now apply IH.
    + inversion 1 as [|? y ? k' Hy Hk]; subst. rewrite Hy. simpl.
      apply IH in Hk. now rewrite Hk.
Qed.

Lemma mapM_result_raises {A B : Type} (f : A -> result B) (l : list A) (e : exn) :
  (forall x, x ∈ l -> (exists y, f x = inr y) \/ f x = inl e) ->
  (exists k, mapM f l = inr k) \/ mapM f l = inl e.
Proof.
  induction l as [|x l IH]; intros H; simpl; [left; eauto|].
  destruct (H x) as [[y Hy]|Hx]; [apply list_elem_of_here| |].
  - rewrite Hy. simpl. destruct IH as [[k Hk]|Hk].
    + intros z Hz. apply H. now apply list_elem_of_further.
    + left. rewrite Hk. simpl. eauto.
    + right. now rewrite Hk.
  - right. now rewrite Hx.
Qed.

Lemma mapM_result_inl {A B : Type} (f : A -> result B) (l : list A) (e : exn) :
  mapM f l = inl e -> exists x, x ∈ l /\ f x = inl e.
Proof.
  induction l as [|x l IH]; simpl; [discriminate|].
  destruct (f x) as [e'|y] eqn:Ex; simpl.
  - intros [= ->]. exists x. split; [apply list_elem_of_here|assumption].
  - destruct (mapM f l) as [e'|k]; [|discriminate]. intros [= ->].
    destruct IH as (z & Hz & Hfz); [reflexivity|].
    exists z. split; [now apply list_elem_of_further|assumption].
Qed.

Lemma result_bind_inr {A B : Type} (a : A) (k : A -> result B) :
  inr a ≫= k = k a.
Proof. reflexivity. Qed.

Lemma outcome_emit_then {A : Type} (e : event) (m : run A) :
  outcome (emit e;; m) = outcome m.
Proof. rewrite outcome_bind. reflexivity. Qed.

Lemma outcome_lift_bind {A B : Type} (r : result A) (k : A -> run B) :
  outcome (lift r ≫= k) = r ≫= (fun a => outcome (k a)).
Proof. rewrite outcome_bind. reflexivity. Qed.

Lemma outcome_for_each_then {A B : Type} (l : list A) (body : A -> run unit)
    (m : run B) :
  (forall x, outcome (body x) = inr tt) ->
  outcome (for_each l body;; m) = outcome m.
Proof.
  intros H. rewrite outcome_bind.
  now rewrite (proj2 (for_each_outcome l body)) by (intros x _; apply H).
Qed.

Lemma only_prints_bind {A B : Type} (m : run A) (k : A -> run B) :
  only_prints m -> (forall a, only_prints (k a)) -> only_prints (m ≫= k).
Proof.
  unfold only_prints. intros Hm Hk. rewrite trace_bind, forallb_app, Hm.
  destruct (outcome m); [reflexivity|apply Hk].
Qed.

Lemma only_prints_for_each {A : Type} (l : list A) (body : A -> run unit) :
  (forall x, only_prints (body x)) -> only_prints (for_each l body).
Proof.
  intros H. induction l as [|x l IH]; simpl; [reflexivity|].
  apply only_prints_bind; [apply H|intros _; apply IH].
Qed.

Lemma only_prints_lift {A : Type} (r : result A) : only_prints (lift r).
Proof. reflexivity. Qed.

Lemma only_prints_printf (text : string) (args : list field) :
  only_prints (printf text args).
Proof. reflexivity. Qed.

Lemma only_prints_artifacts (t : list event) :
  forallb is_print t = true -> artifacts t = [].
Proof.
  induction t as [|e t IH]; simpl; [reflexivity|].
  intros [He Ht]%andb_prop. destruct e; try discriminate; now apply IH.
Qed.

Lemma only_prints_elem_of (t : list event) (e : event) :
  forallb is_print t = true -> e ∈ t -> is_print e = true.
Proof.
  intros H He. rewrite forallb_forall in H. apply H. now apply list_elem_of_In.
Qed.

End Runs.

(** ** The printed summary of [avg_cost.py] *)

Section AvgCostSummary.
Import Pandas AvgCost.

Implicit Types (df : list row) (r : row).

(** Lines 127-130.  The operation reported as most expensive is the first
    row of greatest cost and the one reported as least expensive the first
    row of least cost; when both costs are numbers, every numeric cost of
    the frame lies between them. *)
Theorem overall_extremes df (hi lo : row) :
  idxmax usd_avg df = inr hi -> idxmin usd_avg df = inr lo ->
  first_greatest usd_avg df hi /\ first_least usd_avg df lo
  /\ (F64.isna (usd_avg hi) = false -> F64.isna (usd_avg lo) = false ->
      forall r, r ∈ df -> F64.isna (usd_avg r) = false ->
        F64.leb (usd_avg lo) (usd_avg r) = true
        /\ F64.leb (usd_avg r) (usd_avg hi) = true).
Proof.
  intros Hhi%idxmax_first_greatest Hlo%idxmin_first_least. split_and!; try assumption.
  intros Hh Hl r Hr Hna. split.
  - now apply (first_least_bound usd_avg df lo r).
  - now apply (first_greatest_bound usd_avg df hi r).
Qed.

(** Costs 3, 7, 7: the first row of cost 7 is the most expensive one. *)
Lemma overall_extremes_scenario :
  first_greatest usd_avg three_operations (Build_row "netB" "cX" "mint" (F64.of_Z 7))
  /\ first_least usd_avg three_operations (Build_row "netA" "cX" "mint" (F64.of_Z 3)).
Proof.
  destruct (overall_extremes three_operations
              (Build_row "netB" "cX" "mint" (F64.of_Z 7))
              (Build_row "netA" "cX" "mint" (F64.of_Z 3)))
    as (H1 & H2 & _); [reflexivity|reflexivity|]. auto.
Defined.

Lemma Forall2_same_keys {G X : Type} (P : G -> X -> Prop) (kg : G -> string)
    (kx : X -> string) (l : list G) (k : list X) :
  Forall2 P l k ->
  (forall g x, g ∈ l -> P g x -> kx x = kg g) ->
  kx <$> k = kg <$> l.
Proof.
  induction 1 as [|g x l k Hgx _ IH]; intros Hk; [reflexivity|]. csimpl.
  rewrite IH, (Hk g x); auto using list_elem_of_here.
  intros g' x' Hg'. apply Hk. now apply list_elem_of_further.
Qed.

Lemma leb_minus_infinity (x : float) :
  F64.leb x (F64.inf true) = true -> x = F64.inf true.
Proof. destruct x as [[]|[]| |[] m e]; simpl; try discriminate; reflexivity. Qed.

(** The row selected is a number as soon as the column holds a number other
    than minus infinity. *)
Lemma first_greatest_numeric {R : Type} (col : R -> float) (l : list R) (r y : R) :
  first_greatest col l r -> y ∈ l ->
  F64.isna (col y) = false -> col y <> F64.inf true ->
  F64.isna (col r) = false.
Proof.
  intros (l1 & l2 & -> & H1 & H2) Hy Hna Hinf.
  destruct (F64.isna (col r)) eqn:Er; [|reflexivity]. exfalso.
  assert (Hle : F64.leb (fill (F64.inf true) (col y))
                        (fill (F64.inf true) (col r)) = true).
  { apply elem_of_app in Hy as [Hy|[->|Hy]%elem_of_cons].
    - apply ltb_leb. auto.
    - congruence.
    - auto. }
  unfold fill in Hle. rewrite Hna, Er in Hle.
  now apply leb_minus_infinity in Hle.
Qed.

(** Line 135.  The per-network report lists the networks once each, in
    ascending order of their names, and shows for each network the first of
    its rows of greatest cost; that cost is a number.  (No cost is taken to
    be minus infinity: a group that holds only missing costs and minus
    infinity is the one case where the grouped [idxmax] and the one of a
    column may pick different rows.) *)
Theorem per_network_extremes df (rows : list row) :
  (forall r, r ∈ df -> usd_avg r <> F64.inf true) ->
  most_expensive_per_network df = inr rows ->
  Network <$> rows = sorted_keys (Network <$> df)
  /\ Forall (fun row =>
               first_greatest usd_avg
                 (filter (fun r => Network r = Network row) df) row
               /\ F64.isna (usd_avg row) = false) rows.
Proof.
  unfold most_expensive_per_network. intros Hfin H%mapM_result_inr.
  assert (Hg : forall (g : string * list row) row,
             g ∈ groupby Network df -> idxmax usd_avg g.2 = inr row ->
             Network row = g.1 /\ g.2 = filter (fun r => Network r = g.1) df).
  { intros [k g] row (Hk & ->)%elem_of_groupby Hrow. simpl in *.
    apply idxmax_first_greatest, first_greatest_elem_of in Hrow.
    now apply list_elem_of_filter in Hrow as [-> _]. }
  split.
  - rewrite <- groupby_keys.
    apply (Forall2_same_keys _ fst Network _ _ H).
    intros g row Hin Hrow. now apply Hg.
  - apply Forall_forall. intros row Hrow.
    apply list_elem_of_lookup in Hrow as [i Hi].
    destruct (Forall2_lookup_r _ _ _ _ _ H Hi) as (g & Hgi & Hidx).
    destruct (Hg g row) as [Hn Hf]; [now apply list_elem_of_lookup_2 in Hgi|assumption|].
    rewrite Hn, <- Hf.
    pose proof (idxmax_first_greatest usd_avg _ _ Hidx) as Hfirst.
    split; [exact Hfirst|].
    assert (Hex : exists x, idxmax usd_avg g.2 = inr x) by eauto.
    apply idxmax_ok_iff in Hex as (y & Hy & Hna).
    apply (first_greatest_numeric usd_avg g.2 row y Hfirst Hy Hna).
    apply Hfin. rewrite Hf in Hy. now apply list_elem_of_filter in Hy as [_ Hy].
Qed.

(** Two networks: [netA] with one row, [netB] with two rows of equal
    cost. *)
Lemma per_network_extremes_scenario :
  Network <$> [Build_row "netA" "cX" "mint" (F64.of_Z 3);
               Build_row "netB" "cX" "mint" (F64.of_Z 7)]
  = sorted_keys (Network <$> three_operations).
Proof.
  destruct (per_network_extremes three_operations
              [Build_row "netA" "cX" "mint" (F64.of_Z 3);
               Build_row "netB" "cX" "mint" (F64.of_Z 7)]) as [H _];
    [|reflexivity|exact H].
  intros r Hr. apply list_elem_of_In in Hr. simpl in Hr.
  destruct Hr as [<-|[<-|[<-|[]]]]; discriminate.
Defined.

Lemma summary_outcome (Q : quicksort) df :
  outcome (deeper_summary_analysis Q df)
  = (idxmax usd_avg df ≫= fun _ =>
     idxmin usd_avg df ≫= fun _ =>
     most_expensive_per_network df ≫= fun _ => inr tt).
Proof.
  unfold deeper_summary_analysis, print, printf.
  rewrite !outcome_emit_then.
  rewrite outcome_for_each_then by (now intros [rank [network cost]]).
  rewrite !outcome_emit_then, outcome_lift_bind.
  destruct (idxmax usd_avg df) as [e|hi]; [reflexivity|].
  rewrite !result_bind_inr, outcome_lift_bind.
  destruct (idxmin usd_avg df) as [e|lo]; [reflexivity|].
  rewrite !result_bind_inr, !outcome_emit_then, outcome_lift_bind.
  destruct (most_expensive_per_network df) as [e|rows]; [reflexivity|].
  rewrite !result_bind_inr, outcome_for_each_then by reflexivity.
  now rewrite !outcome_emit_then.
Qed.

(** Lines 113-141.  The summary runs to its last line exactly when the frame
    has a row and every network of the frame has a numeric cost; otherwise
    the search for a most or least expensive row ends it with an
    exception. *)
Theorem summary_completes_iff (Q : quicksort) df :
  outcome (deeper_summary_analysis Q df) = inr tt <->
  df <> [] /\ forall r, r ∈ df ->
    exists r', r' ∈ df /\ Network r' = Network r /\ F64.isna (usd_avg r') = false.
Proof.
  rewrite summary_outcome. split.
  - intros H.
    destruct (idxmax usd_avg df) as [e|hi] eqn:Ehi; [discriminate|]. simpl in H.
    destruct (idxmin usd_avg df) as [e|lo] eqn:Elo; [discriminate|]. simpl in H.
    destruct (most_expensive_per_network df) as [e|rows] eqn:Erows; [discriminate|].
    split; [intros ->; discriminate|].
    intros r Hr. apply mapM_result_inr in Erows.
    assert (Hg : (Network r, filter (fun y => Network y = Network r) df)
                 ∈ groupby Network df).
    { apply elem_of_groupby. split; [|reflexivity].
      apply list_elem_of_fmap. eauto. }
    apply list_elem_of_lookup in Hg as [i Hi].
    destruct (Forall2_lookup_l _ _ _ _ _ Erows Hi) as (row & _ & Hrow).
    simpl in Hrow.
    assert (Hex : exists x, idxmax usd_avg
                    (filter (fun y => Network y = Network r) df) = inr x) by eauto.
    apply idxmax_ok_iff in Hex as (r' & Hr' & Hna).
    apply list_elem_of_filter in Hr' as [Hn Hr']. eauto.
  - intros [Hne Hall].
    assert (Hnum : exists r, r ∈ df /\ F64.isna (usd_avg r) = false).
    { destruct df as [|x df]; [done|].
      destruct (Hall x) as (r' & Hr' & _ & Hna); [apply list_elem_of_here|eauto]. }
    destruct (proj2 (idxmax_ok_iff usd_avg df) Hnum) as [hi ->].
    destruct (proj2 (idxmin_ok_iff usd_avg df) Hnum) as [lo ->]. simpl.
    destruct (most_expensive_per_network df) as [e|rows] eqn:Erows; [|reflexivity].
    apply mapM_result_inl in Erows as ([k g] & (Hk & ->)%elem_of_groupby & Hf).
    simpl in Hf.
    apply list_elem_of_fmap in Hk as (r & -> & Hr).
    destruct (Hall r Hr) as (r' & Hr' & Hn & Hna).
    assert (Hex : exists x, idxmax usd_avg
                    (filter (fun y => Network y = Network r) df) = inr x).
    { apply idxmax_ok_iff. exists r'. split; [|assumption].
      now apply list_elem_of_filter. }
    destruct Hex as [x Hx]. congruence.
Qed.

Lemma summary_only_prints (Q : quicksort) df :
  only_prints (deeper_summary_analysis Q df).
Proof.
  unfold deeper_summary_analysis, print.
  repeat first
    [ apply only_prints_printf
    | apply only_prints_lift
    | apply only_prints_for_each; intros ?
    | apply only_prints_bind; [|intros ?]
    | match goal with
      | |- only_prints (let '(_, _) := ?x in _) => destruct x as [? [? ?]]
      end
    | reflexivity ].
Qed.

(** Lines 24-141.  On a file with at least one numeric cost the three
    charts are saved, in the output directory, before the summary starts:
    they are written whether or not the summary then stops on an exception,
    the directory is made exactly when it was not there, and the run ends as
    the summary does. *)
Theorem charts_before_summary (Q : quicksort)
    (read_csv : string -> option (list row)) (dir_exists : bool)
    (filepath : string) df :
  read_csv filepath = Some df ->
  (exists r, r ∈ df /\ F64.isna (usd_avg r) = false) ->
  artifacts (trace (analyze_gas_costs Q read_csv dir_exists filepath))
  = ["gas_cost_analysis_charts/merged_contract_cost_comparison.png";
     "gas_cost_analysis_charts/cost_heatmap.png";
     "gas_cost_analysis_charts/cost_distribution_boxplot.png"]
  /\ (MakeDirs output_dir
        ∈ trace (analyze_gas_costs Q read_csv dir_exists filepath)
      <-> dir_exists = false)
  /\ outcome (analyze_gas_costs Q read_csv dir_exists filepath)
     = outcome (deeper_summary_analysis Q df).
Proof.
  intros Hread (r & Hr & _). unfold analyze_gas_costs. rewrite Hread.
  destruct df as [|x df]; [now apply not_elem_of_nil in Hr|]. clear r Hr.
  simpl unique.
  pose proof (summary_only_prints Q (x :: df)) as Hs. unfold only_prints in Hs.
  destruct (deeper_summary_analysis Q (x :: df)) as [t o] eqn:E.
  unfold trace, outcome in *. simpl in Hs.
  pose proof (only_prints_artifacts t Hs) as Ha. unfold artifacts in Ha.
  destruct dir_exists; cbn; rewrite ?E; cbn; rewrite ?Ha.
  - split_and!; try reflexivity. split; [|discriminate].
    intros Hin. exfalso.
    repeat (apply elem_of_cons in Hin as [Hin|Hin]; [discriminate|]).
    now apply (only_prints_elem_of t _ Hs) in Hin.
  - split_and!; try reflexivity. split; [reflexivity|].
    intros _. apply list_elem_of_here.
Qed.

Lemma charts_before_summary_scenario :
  artifacts (trace (analyze_gas_costs insertion_quicksort
                      (fun _ => Some three_operations) false "contract.csv"))
  = ["gas_cost_analysis_charts/merged_contract_cost_comparison.png";
     "gas_cost_analysis_charts/cost_heatmap.png";
     "gas_cost_analysis_charts/cost_distribution_boxplot.png"].
Proof.
  apply (charts_before_summary insertion_quicksort
           (fun _ => Some three_operations) false "contract.csv" three_operations);
    [reflexivity|].
  exists (Build_row "netA" "cX" "mint" (F64.of_Z 3)).
  split; [apply list_elem_of_here|reflexivity].
Defined.

End AvgCostSummary.

(** ** The pivots of [panda.py] and the heat map of [avg_cost.py] *)

Section PivotCells.
Import Pandas.

Lemma rows_at_nonempty {R : Type} (key1 key2 : R -> string) (df : list R)
    (a b : string) :
  rows_at key1 key2 df a b <> [] <-> exists r, r ∈ df /\ key1 r = a /\ key2 r = b.
Proof.
  split.
  - destruct (rows_at key1 key2 df a b) as [|r l] eqn:E; [done|]. intros _.
    exists r. apply elem_of_rows_at. rewrite E. apply list_elem_of_here.
  - intros (r & Hr) E. apply elem_of_rows_at in Hr. rewrite E in Hr.
    now apply not_elem_of_nil in Hr.
Qed.

Lemma agg_groupby2_elem_of {R : Type} (key1 key2 : R -> string)
    (f : list float -> float) (col : R -> float) (df : list R) (r : R) :
  r ∈ df ->
  (key1 r, key2 r, f (col <$> rows_at key1 key2 df (key1 r) (key2 r)))
  ∈ agg f col (groupby2 key1 key2 df).
Proof.
  intros Hr. unfold agg. apply list_elem_of_fmap.
  exists (key1 r, key2 r, rows_at key1 key2 df (key1 r) (key2 r)).
  split; [reflexivity|]. apply elem_of_groupby2. split_and!.
  - apply list_elem_of_fmap. eauto.
  - apply list_elem_of_fmap. exists r. split; [reflexivity|].
    now apply list_elem_of_filter.
  - reflexivity.
Qed.

Lemma agg_groupby2_inv {R : Type} (key1 key2 : R -> string)
    (f : list float -> float) (col : R -> float) (df : list R)
    (e : string * string * float) :
  e ∈ agg f col (groupby2 key1 key2 df) ->
  exists r, r ∈ df /\ key1 r = e.1.1 /\ key2 r = e.1.2.
Proof.
  intros He. apply rows_at_nonempty, groupby2_key_iff.
  rewrite <- (agg_keys f col). apply list_elem_of_fmap. exists e.
  split; [now destruct e as [[a b] v]|assumption].
Qed.

Lemma unstack_labels (s : list (string * string * float)) (a b : string)
    (v : float) :
  (a, b, v) ∈ s -> a ∈ index (unstack s) /\ b ∈ columns (unstack s).
Proof.
  intros H. simpl. rewrite !elem_of_sorted_keys, !list_elem_of_fmap.
  split; exists (a, b, v); auto.
Qed.

Lemma filter_keys_NoDup (P : string * string * float -> Prop)
    `{forall e, Decision (P e)} (s : list (string * string * float)) :
  NoDup s.*1 -> NoDup (filter P s).*1.
Proof.
  intros Hnd. apply (sublist_NoDup _ _ Hnd). apply fmap_sublist, sublist_filter.
Qed.

(** Lines 28-34 of [panda.py].  The execution pivot is always built (the
    grouped sum leaves one row per key pair, so [pivot] cannot meet a pair
    twice); its row labels are the functions and its column labels the
    networks of the execution rows; and the cell of an execution row reads
    back the sum of the costs of all execution rows of its function and
    network (zero in place of a sum that is NaN). *)
Theorem execution_pivot_cells (df : list (Panda.row float)) :
  exists f, Panda.pivot_execution df = inr f
    /\ (forall a, a ∈ index f <->
          exists r, r ∈ Panda.execution_df df /\ Panda.Method r = a)
    /\ (forall b, b ∈ columns f <->
          exists r, r ∈ Panda.execution_df df /\ Panda.Network r = b)
    /\ (forall r, r ∈ Panda.execution_df df ->
          loc f (Panda.Method r) (Panda.Network r)
          = Some (fill F64.zero
                    (sum (Panda.USD_Avg <$>
                            rows_at Panda.Method Panda.Network
                              (Panda.execution_df df)
                              (Panda.Method r) (Panda.Network r))))).
Proof.
  exists (fillna F64.zero (unstack (Panda.total_cost_by_function df))).
  split; [apply pivot_execution_ok|].
  unfold Panda.total_cost_by_function. cbn [index columns fillna unstack].
  split_and!.
  - intros a. rewrite elem_of_sorted_keys, list_elem_of_fmap. split.
    + intros (e & -> & He). apply agg_groupby2_inv in He as (r & Hr & H1 & _).
      eauto.
    + intros (r & Hr & <-).
      pose proof (agg_groupby2_elem_of Panda.Method Panda.Network sum
                    Panda.USD_Avg _ r Hr) as He.
      eexists. split; [|exact He]. reflexivity.
  - intros b. rewrite elem_of_sorted_keys, list_elem_of_fmap. split.
    + intros (e & -> & He). apply agg_groupby2_inv in He as (r & Hr & _ & H2).
      eauto.
    + intros (r & Hr & <-).
      pose proof (agg_groupby2_elem_of Panda.Method Panda.Network sum
                    Panda.USD_Avg _ r Hr) as He.
      eexists. split; [|exact He]. reflexivity.
  - intros r Hr.
    pose proof (agg_groupby2_elem_of Panda.Method Panda.Network sum
                  Panda.USD_Avg _ r Hr) as He.
    destruct (unstack_labels _ _ _ _ He) as [Ha Hb].
    rewrite loc_fillna, loc_unstack by assumption. simpl. do 2 f_equal.
    apply entry_NoDup; [|assumption]. rewrite agg_keys. apply groupby2_NoDup.
Qed.

(** Line 75 of [avg_cost.py].  A cell of the heat map whose (function,
    network) pair has rows, the mean of whose costs is a number, holds that
    mean; the labels of the heat map are functions and networks of the
    file. *)
Theorem heatmap_cell_is_mean (df : list AvgCost.row) (r : AvgCost.row) :
  r ∈ df ->
  F64.isna (mean (AvgCost.usd_avg <$>
                    rows_at AvgCost.Function AvgCost.Network df
                      (AvgCost.Function r) (AvgCost.Network r))) = false ->
  loc (AvgCost.pivot_data df) (AvgCost.Function r) (AvgCost.Network r)
  = Some (mean (AvgCost.usd_avg <$>
                  rows_at AvgCost.Function AvgCost.Network df
                    (AvgCost.Function r) (AvgCost.Network r)))
  /\ (forall a, a ∈ index (AvgCost.pivot_data df) ->
        exists r', r' ∈ df /\ AvgCost.Function r' = a)
  /\ (forall b, b ∈ columns (AvgCost.pivot_data df) ->
        exists r', r' ∈ df /\ AvgCost.Network r' = b).
Proof.
  intros Hr Hna. unfold AvgCost.pivot_data, pivot_table.
  pose proof (agg_groupby2_elem_of AvgCost.Function AvgCost.Network mean
                AvgCost.usd_avg df r Hr) as He.
  set (s := agg mean AvgCost.usd_avg
              (groupby2 AvgCost.Function AvgCost.Network df)) in *.
  set (m := mean _) in *.
  assert (Hf : (AvgCost.Function r, AvgCost.Network r, m)
               ∈ filter (fun e : string * string * float => F64.isna e.2 = false) s)
    by now apply list_elem_of_filter.
  destruct (unstack_labels _ _ _ _ Hf) as [Ha Hb]. split_and!.
  - rewrite loc_unstack by assumption. f_equal.
    apply entry_NoDup; [|assumption]. apply filter_keys_NoDup.
    unfold s. rewrite agg_keys. apply groupby2_NoDup.
  - intros a. simpl. rewrite elem_of_sorted_keys, list_elem_of_fmap.
    intros (e & -> & [_ He']%list_elem_of_filter).
    apply agg_groupby2_inv in He' as (r' & Hr' & H1 & _). eauto.
  - intros b. simpl. rewrite elem_of_sorted_keys, list_elem_of_fmap.
    intros (e & -> & [_ He']%list_elem_of_filter).
    apply agg_groupby2_inv in He' as (r' & Hr' & _ & H2). eauto.
Qed.

Lemma heatmap_cell_scenario :
  loc (AvgCost.pivot_data three_operations) "mint" "netB" = Some (F64.of_Z 7).
Proof.
  destruct (heatmap_cell_is_mean three_operations
              (AvgCost.Build_row "netB" "cX" "mint" (F64.of_Z 7))) as [H _].
  - apply list_elem_of_further, list_elem_of_here.
  - reflexivity.
  - exact H.
Defined.

End PivotCells.

(** ** C10: the split of the cleaned rows by [Method] *)

Section MethodSplit.
Import Pandas Panda.

Implicit Types (df : list (row float)) (r : row float).

(** Every execution row counts in the total of its (function, network)
    pair: the recorded total is the sum over all execution rows of that
    pair. *)
Lemma total_cost_by_function_sum df r :
  r ∈ execution_df df ->
  entry (total_cost_by_function df) (Method r) (Network r)
  = sum (USD_Avg <$> rows_at Method Network (execution_df df) (Method r) (Network r)).
Proof.
  intros Hr. unfold total_cost_by_function. apply entry_agg_groupby2.
  intros Hnil.
  assert (Hin : r ∈ rows_at Method Network (execution_df df) (Method r) (Network r))
    by now apply elem_of_rows_at.
  rewrite Hnil in Hin. now apply not_elem_of_nil in Hin.
Qed.

(** The execution rows reach the execution pivot, and only they do. *)
Lemma execution_rows_reach_pivot df :
  exists f, pivot_execution df = inr f
    /\ (forall r, r ∈ execution_df df ->
          loc f (Method r) (Network r)
          = Some (fill F64.zero
                    (sum (USD_Avg <$> rows_at Method Network (execution_df df)
                                        (Method r) (Network r)))))
    /\ (forall a, a ∈ index f ->
          exists r, r ∈ df /\ Method r <> "deployment" /\ Method r = a).
Proof.
  exists (fillna F64.zero (unstack (total_cost_by_function df))).
  split; [apply pivot_execution_ok|]. split.
  - intros r Hr.
    pose proof (agg_groupby2_elem_of Method Network sum USD_Avg _ r Hr) as He.
    fold (total_cost_by_function df) in He.
    destruct (unstack_labels _ _ _ _ He) as [Ha Hb].
    rewrite loc_fillna, loc_unstack by assumption. simpl. do 2 f_equal.
    now apply total_cost_by_function_sum.
  - intros a. cbn [index fillna unstack].
    rewrite elem_of_sorted_keys, list_elem_of_fmap.
    intros (e & -> & He). unfold total_cost_by_function in He.
    apply agg_groupby2_inv in He as (r & Hr & H1 & _).
    apply list_elem_of_filter in Hr as [Hne Hr]. eauto.
Qed.

(** The deployment rows reach the deployment pivot, and only they do, when
    that pivot is built; it is built exactly when no two deployment rows
    share contract and network. *)
Lemma deployment_rows_reach_pivot df :
  NoDup ((fun r => (Contract r, Network r)) <$> deployment_df df) ->
  exists f, pivot_deployment df = inr f
    /\ (forall r, r ∈ deployment_df df ->
          loc f (Contract r) (Network r) = Some (fill F64.zero (USD_Avg r)))
    /\ (forall a, a ∈ index f ->
          exists r, r ∈ df /\ Method r = "deployment" /\ Contract r = a).
Proof.
  intros Hnd. unfold pivot_deployment, pivot.
  set (s := (fun r : row float => (Contract r, Network r, USD_Avg r))
            <$> deployment_df df).
  assert (Hkeys : NoDup s.*1).
  { unfold s. now rewrite <- list_fmap_compose. }
  rewrite decide_True by assumption.
  exists (fillna F64.zero (unstack s)). split; [reflexivity|]. split.
  - intros r Hr.
    assert (Hin : (Contract r, Network r, USD_Avg r) ∈ s).
    { apply list_elem_of_fmap. eauto. }
    destruct (unstack_labels _ _ _ _ Hin) as [Ha Hb].
    rewrite loc_fillna, loc_unstack by assumption. simpl.
    now rewrite (entry_NoDup s _ _ _ Hkeys Hin).
  - intros a. cbn [index fillna unstack]. unfold s.
    rewrite elem_of_sorted_keys, <- list_fmap_compose, list_elem_of_fmap.
    intros (r & -> & [Hm Hr]%list_elem_of_filter). eauto.
Qed.

Lemma deployment_pivot_raises df :
  ~ NoDup ((fun r => (Contract r, Network r)) <$> deployment_df df) ->
  pivot_deployment df = inl ValueError /\ deployment_df df <> [].
Proof.
  intros Hnd. split.
  - unfold pivot_deployment, pivot. rewrite decide_False; [reflexivity|].
    now rewrite <- list_fmap_compose.
  - intros E. apply Hnd. rewrite E. constructor.
Qed.

(** C10, where the code departs from it.  A cleaned row goes to the
    execution report exactly when its [Method] differs from the text
    ["deployment"] and to the deployment report exactly when it equals it,
    letter case included; no row is in both parts and the two parts
    together hold every row once.  Both reports are computed from their own
    part alone.  Every execution row is summed into the total of its
    (function, network) pair and that total is the cell of the execution
    pivot, whose row labels come from execution rows only.  Every deployment
    row is the cell of its (contract, network) pair in the deployment pivot,
    whose row labels come from deployment rows only, as long as no two
    deployment rows share contract and network; when two do, line 63 raises
    [ValueError] and the deployment rows reach no report at all. *)
Theorem method_split df :
  (forall r, r ∈ execution_df df <-> r ∈ df /\ Method r <> "deployment")
  /\ (forall r, r ∈ deployment_df df <-> r ∈ df /\ Method r = "deployment")
  /\ (forall r, ~ (r ∈ execution_df df /\ r ∈ deployment_df df))
  /\ deployment_df df ++ execution_df df ≡ₚ df
  /\ total_cost_by_function df = total_cost_by_function (execution_df df)
  /\ pivot_deployment df = pivot_deployment (deployment_df df)
  /\ total_cost_by_function (deployment_df df) = []
  /\ (forall r, r ∈ execution_df df ->
        r ∈ rows_at Method Network (execution_df df) (Method r) (Network r)
        /\ entry (total_cost_by_function df) (Method r) (Network r)
           = sum (USD_Avg <$> rows_at Method Network (execution_df df)
                                (Method r) (Network r)))
  /\ execution_df [Build_row float "c" "Deployment" "n" F64.zero]
     = [Build_row float "c" "Deployment" "n" F64.zero]
  /\ (exists f, pivot_execution df = inr f
        /\ (forall r, r ∈ execution_df df ->
              loc f (Method r) (Network r)
              = Some (fill F64.zero
                        (sum (USD_Avg <$> rows_at Method Network (execution_df df)
                                            (Method r) (Network r)))))
        /\ (forall a, a ∈ index f ->
              exists r, r ∈ df /\ Method r <> "deployment" /\ Method r = a))
  /\ (NoDup ((fun r => (Contract r, Network r)) <$> deployment_df df) ->
      exists f, pivot_deployment df = inr f
        /\ (forall r, r ∈ deployment_df df ->
              loc f (Contract r) (Network r) = Some (fill F64.zero (USD_Avg r)))
        /\ (forall a, a ∈ index f ->
              exists r, r ∈ df /\ Method r = "deployment" /\ Contract r = a))
  /\ (~ NoDup ((fun r => (Contract r, Network r)) <$> deployment_df df) ->
      pivot_deployment df = inl ValueError /\ deployment_df df <> []).
Proof.
  assert (Hsum := total_cost_by_function_sum df).
  assert (Hexe := execution_rows_reach_pivot df).
  assert (Hdep := deployment_rows_reach_pivot df).
  assert (Hraise := deployment_pivot_raises df).
  refine (conj _ (conj _ (conj _ (conj _ (conj _ (conj _ (conj _ (conj _
            (conj _ (conj Hexe (conj Hdep Hraise))))))))))).
  - intros r. unfold execution_df. rewrite list_elem_of_filter. tauto.
  - intros r. unfold deployment_df. rewrite list_elem_of_filter. tauto.
  - intros r [[Hne _]%list_elem_of_filter [He _]%list_elem_of_filter]. auto.
  - apply filter_app_complement.
  - unfold total_cost_by_function, execution_df. now rewrite list_filter_filter_l.
  - unfold pivot_deployment, deployment_df. now rewrite list_filter_filter_l.
  - unfold total_cost_by_function, execution_df, deployment_df.
    destruct (filter (fun r => Method r <> "deployment")
                (filter (fun r => Method r = "deployment") df))
      as [|r l] eqn:E; [reflexivity|].
    assert (Hr : r ∈ r :: l) by apply list_elem_of_here.
    rewrite <- E in Hr.
    apply list_elem_of_filter in Hr as [Hne [He _]%list_elem_of_filter].
    now destruct Hne.
  - intros r Hr. split; [now apply elem_of_rows_at | now apply Hsum].
  - reflexivity.
Qed.

(** The failing input: one execution row and two deployment rows of the
    same contract on the same network.  Both deployment rows are routed to
    the deployment part, and no deployment pivot is built from them. *)
Lemma method_split_scenario :
  deployment_df (clean deployed_twice)
  = [Build_row float "Token" "deployment" "Arbitrum" (F64.of_decimal false 15 (-1));
     Build_row float "Token" "deployment" "Arbitrum" (F64.of_decimal false 25 (-1))]
  /\ pivot_deployment (clean deployed_twice) = inl ValueError.
Proof.
  split; [reflexivity|].
  destruct (method_split (clean deployed_twice))
    as (_ & _ & _ & _ & _ & _ & _ & _ & _ & _ & _ & H).
  apply H. intros Hnd. apply NoDup_cons in Hnd as [Hnot _].
  apply Hnot, list_elem_of_here.
Defined.

End MethodSplit.

(** ** The run of [panda.py] *)

Section PandaRun.
Import Pandas Panda.

(** Lines 5-82.  On a file with execution rows the first chart is always
    saved.  What follows is decided by the deployment rows alone: when no
    two of them share contract and network the second chart is saved as
    well and the run ends normally; when two do, the run stops there on
    [ValueError], with the first chart on disk and the second one
    missing.  (A file without execution rows, or without deployment rows,
    gives the plotting library an empty table to draw: such files are left
    out.) *)
Theorem visualizations_outcome (raw : list (row cell)) :
  execution_df (clean raw) <> [] ->
  deployment_df (clean raw) <> [] ->
  (NoDup ((fun r => (Contract r, Network r)) <$> deployment_df (clean raw)) ->
   generate_cost_visualizations (Some raw)
   = ([Print "CSV file loaded successfully." [];
       SaveFig "total_execution_cost_by_function.png";
       Print "Chart 'total_execution_cost_by_function.png' saved successfully." [];
       SaveFig "deployment_cost_by_contract.png";
       Print "Chart 'deployment_cost_by_contract.png' saved successfully." []],
      inr tt))
  /\ (~ NoDup ((fun r => (Contract r, Network r)) <$> deployment_df (clean raw)) ->
      generate_cost_visualizations (Some raw)
      = ([Print "CSV file loaded successfully." [];
          SaveFig "total_execution_cost_by_function.png";
          Print "Chart 'total_execution_cost_by_function.png' saved successfully." []],
         inl ValueError)).
Proof.
  intros _ _. unfold generate_cost_visualizations.
  rewrite pivot_execution_ok. unfold pivot_deployment, pivot.
  rewrite <- list_fmap_compose.
  change (fst ∘ (fun r : row float => (Contract r, Network r, USD_Avg r)))
    with (fun r : row float => (Contract r, Network r)).
  split; intros Hnd.
  - now rewrite decide_True.
  - now rewrite decide_False.
Qed.

Lemma visualizations_outcome_scenario :
  generate_cost_visualizations
    (Some [Build_row cell "Token" "mint" "Arbitrum" (Num (F64.of_Z 1));
           Build_row cell "Token" "deployment" "Arbitrum" (Num (F64.of_Z 2));
           Build_row cell "Token" "deployment" "Base" (Text "3.5")])
  = ([Print "CSV file loaded successfully." [];
      SaveFig "total_execution_cost_by_function.png";
      Print "Chart 'total_execution_cost_by_function.png' saved successfully." [];
      SaveFig "deployment_cost_by_contract.png";
      Print "Chart 'deployment_cost_by_contract.png' saved successfully." []],
     inr tt).
Proof.
  apply visualizations_outcome.
  - discriminate.
  - discriminate.
  - vm_compute. repeat constructor; intros H; apply list_elem_of_In in H;
      simpl in H; intuition discriminate.
Defined.

End PandaRun.

(** ** [deployment.py]: the conversion of the cost column *)

Section DeploymentConversion.
Import Pandas Deployment.

Lemma astype_float_raises (c : cell) :
  astype_float (replace_dollar c) = inl ValueError <->
  exists s, c = Text s /\ NumericText.to_float (remove_dollars s) = None.
Proof.
  destruct c as [x|s]; simpl.
  - split; [discriminate|]. now intros (s & [=] & _).
  - destruct (NumericText.to_float (remove_dollars s)) eqn:E; split.
    + discriminate.
    + intros (s' & [= <-] & H). congruence.
    + eauto.
    + reflexivity.
Qed.

Lemma astype_float_cases (c : cell) :
  (exists x, astype_float (replace_dollar c) = inr x)
  \/ astype_float (replace_dollar c) = inl ValueError.
Proof.
  destruct c as [x|s]; simpl; [eauto|].
  destruct (NumericText.to_float (remove_dollars s)); eauto.
Qed.

(** Line 21.  The conversion of the cost column either keeps every row or
    raises [ValueError]; it raises exactly when some cost is a text that,
    with its dollar signs removed, is not the text of a number.  The script
    then stops before it has printed a line or written a chart. *)
Theorem conversion_failure (Q : quicksort) (raw : list (row cell)) :
  (clean raw = inl ValueError <->
   exists r s, r ∈ raw /\ Cost r = Text s
               /\ NumericText.to_float (remove_dollars s) = None)
  /\ (clean raw = inl ValueError
      \/ exists df, clean raw = inr df /\ length df = length raw)
  /\ (clean raw = inl ValueError -> analysis Q raw = ([], inl ValueError)).
Proof.
  split_and!.
  - unfold clean. split.
    + intros (r & Hr & Hf)%mapM_result_inl.
      destruct (astype_float (replace_dollar (Cost r))) as [e|x] eqn:E;
        [|discriminate].
      injection Hf as ->. apply astype_float_raises in E as (s & Hs & Hn). eauto.
    + intros (r & s & Hr & Hs & Hn).
      destruct (mapM_result_raises
                  (fun r : row cell =>
                     x ← astype_float (replace_dollar (Cost r));
                     mret {| Contract := Contract r; Network := Network r;
                             Cost := x |}) raw ValueError) as [[df Hdf]|Hdf].
      * intros y _. destruct (astype_float_cases (Cost y)) as [[x ->]| ->];
          [left; eexists; reflexivity | now right].
      * apply mapM_result_inr in Hdf.
        apply list_elem_of_lookup in Hr as [i Hi].
        destruct (Forall2_lookup_l _ _ _ _ _ Hdf Hi) as (y & _ & Hy).
        rewrite Hs in Hy. simpl in Hy. rewrite Hn in Hy. discriminate.
      * assumption.
  - destruct (mapM_result_raises
                (fun r : row cell =>
                   x ← astype_float (replace_dollar (Cost r));
                   mret {| Contract := Contract r; Network := Network r;
                           Cost := x |}) raw ValueError) as [[df Hdf]|Hdf].
    + intros y _. destruct (astype_float_cases (Cost y)) as [[x ->]| ->];
        [left; eexists; reflexivity | now right].
    + right. exists df. split; [exact Hdf|].
      apply mapM_result_inr in Hdf. symmetry. eapply Forall2_length, Hdf.
    + now left.
  - intros H. unfold analysis. now rewrite H.
Qed.

End DeploymentConversion.

(** ** [deployment.py]: the Ethereum baseline *)

Section DeploymentBaseline.
Import Pandas Deployment.

Implicit Types (df : list (row float)) (r e : row float) (c : comparison).

(** Lines 39-49.  When a contract has several Ethereum rows, [to_dict]
    keeps the last of them: every comparison row of that contract is
    measured against the cost of the last Ethereum row of the contract in
    the file. *)
Theorem baseline_is_last_ethereum_row df (l1 l2 : list (row float)) e c :
  df = l1 ++ e :: l2 ->
  Network e = "Ethereum" ->
  (forall e', e' ∈ l2 -> Network e' = "Ethereum" -> Contract e' <> Contract e) ->
  c ∈ comparison_df df -> cmp_Contract c = Contract e ->
  Ethereum_Cost c = Cost e
  /\ Discount_USD c = F64.sub (Cost e) (cmp_Cost c)
  /\ Discount_pct c
     = F64.mul (F64.div (F64.sub (Cost e) (cmp_Cost c)) (Cost e)) (F64.of_Z 100).
Proof.
  intros -> Hn Hlast Hc Hk.
  destruct (comparison_df_columns _ c Hc) as (He & Hu & Hp).
  assert (Hm : ethereum_cost_map (l1 ++ e :: l2) !! cmp_Contract c = Some (Cost e)).
  { rewrite ethereum_cost_map_lookup, Hk. unfold ethereum_df.
    rewrite !filter_app, !filter_cons, decide_True by assumption.
    rewrite filter_cons, decide_True by reflexivity.
    replace (filter (fun r => Contract r = Contract e)
               (filter (fun r => Network r = "Ethereum") l2)) with (@nil (row float)).
    - now rewrite last_snoc.
    - symmetry. destruct (filter _ (filter _ l2)) as [|x l] eqn:E; [reflexivity|].
      assert (Hx : x ∈ x :: l) by apply list_elem_of_here. rewrite <- E in Hx.
      apply list_elem_of_filter in Hx as [Hxc Hx].
      apply list_elem_of_filter in Hx as [Hxn Hx].
      now destruct (Hlast x Hx Hxn). }
  rewrite Hm in He. simpl in He. rewrite Hp, Hu, He. auto.
Qed.

Lemma baseline_is_last_ethereum_row_scenario :
  exists c, c ∈ comparison_df
                  [Build_row float "cX" "Ethereum" (F64.of_Z 10);
                   Build_row float "cX" "Polygon" (F64.of_Z 5);
                   Build_row float "cX" "Ethereum" (F64.of_Z 20)]
            /\ Ethereum_Cost c = F64.of_Z 20.
Proof.
  set (df := [Build_row float "cX" "Ethereum" (F64.of_Z 10);
              Build_row float "cX" "Polygon" (F64.of_Z 5);
              Build_row float "cX" "Ethereum" (F64.of_Z 20)]).
  exists (compare (ethereum_cost_map df) (Build_row float "cX" "Polygon" (F64.of_Z 5))).
  assert (Hc : compare (ethereum_cost_map df)
                 (Build_row float "cX" "Polygon" (F64.of_Z 5)) ∈ comparison_df df)
    by apply list_elem_of_here.
  split; [exact Hc|].
  apply (baseline_is_last_ethereum_row df
           [Build_row float "cX" "Ethereum" (F64.of_Z 10);
            Build_row float "cX" "Polygon" (F64.of_Z 5)]
           [] (Build_row float "cX" "Ethereum" (F64.of_Z 20)) _).
  - reflexivity.
  - reflexivity.
  - intros e' He'. now apply not_elem_of_nil in He'.
  - exact Hc.
  - reflexivity.
Defined.

Lemma sub_diag_finite (s : bool) (m : positive) (ex : Z) :
  F64.sub (S754_finite s m ex) (S754_finite s m ex) = F64.zero.
Proof.
  unfold F64.sub, SFsub. cbv zeta. rewrite Z.sub_diag. reflexivity.
Qed.

(** Lines 48-49.  A row whose cost equals a finite Ethereum cost of its
    contract shows the discount [0.0] in dollars and a zero percentage (of
    the sign of the cost). *)
Theorem equal_cost_zero_discount df c (s : bool) (m : positive) (ex : Z) :
  c ∈ comparison_df df ->
  Ethereum_Cost c = S754_finite s m ex ->
  cmp_Cost c = S754_finite s m ex ->
  Discount_USD c = F64.zero /\ Discount_pct c = S754_zero s.
Proof.
  intros Hc Hb Hcost. destruct (comparison_df_columns df c Hc) as (_ & Hu & Hp).
  rewrite Hb, Hcost, sub_diag_finite in Hu. rewrite Hp, Hu, Hb.
  split; [reflexivity|]. now destruct s.
Qed.

Lemma equal_cost_zero_discount_scenario :
  exists c, comparison_df [Build_row float "cX" "Ethereum" (F64.of_Z 10);
                           Build_row float "cX" "Polygon" (F64.of_Z 10)] = [c]
            /\ Discount_USD c = F64.zero /\ Discount_pct c = F64.zero.
Proof.
  set (df := [Build_row float "cX" "Ethereum" (F64.of_Z 10);
              Build_row float "cX" "Polygon" (F64.of_Z 10)]).
  exists (compare (ethereum_cost_map df) (Build_row float "cX" "Polygon" (F64.of_Z 10))).
  split; [reflexivity|].
  apply (equal_cost_zero_discount df _ false 5629499534213120 (-49)).
  - apply list_elem_of_here.
  - reflexivity.
  - reflexivity.
Defined.

End DeploymentBaseline.

(** ** [deployment.py]: the order of the comparison table *)

Section StringOrder.

Lemma string_compare_refl (s : string) : String.compare s s = Eq.
Proof.
  induction s as [|a s IH]; [reflexivity|]. simpl.
  unfold Ascii.compare. now rewrite N.compare_refl.
Qed.

Lemma string_compare_lt_trans (s t u : string) :
  String.compare s t = Lt -> String.compare t u = Lt -> String.compare s u = Lt.
Proof.
  revert t u. induction s as [|a s IH]; intros [|b t] [|c u]; simpl;
    try reflexivity; try discriminate.
  unfold Ascii.compare.
  destruct (N.compare_spec (N_of_ascii a) (N_of_ascii b)) as [Hab|Hab|Hab];
    destruct (N.compare_spec (N_of_ascii b) (N_of_ascii c)) as [Hbc|Hbc|Hbc];
    try discriminate; intros H1 H2.
  - rewrite Hab, Hbc, N.compare_refl. eauto.
  - rewrite Hab. now rewrite (proj2 (N.compare_lt_iff _ _) Hbc).
  - rewrite <- Hbc. now rewrite (proj2 (N.compare_lt_iff _ _) Hab).
  - now rewrite (proj2 (N.compare_lt_iff _ _) (N.lt_trans _ _ _ Hab Hbc)).
Qed.

Lemma string_ltb_trans (s t u : string) :
  String.ltb s t = true -> String.ltb t u = true -> String.ltb s u = true.
Proof.
  unfold String.ltb. intros H1 H2.
  rewrite (string_compare_lt_trans s t u); [reflexivity| |].
  - now destruct (String.compare s t).
  - now destruct (String.compare t u).
Qed.

Lemma string_ltb_irrefl (s : string) : String.ltb s s = false.
Proof. unfold String.ltb. now rewrite string_compare_refl. Qed.

Lemma string_ltb_total (s t : string) :
  String.ltb s t = false -> s = t \/ String.ltb t s = true.
Proof.
  unfold String.ltb. rewrite (String.compare_antisym t s).
  destruct (String.compare s t) eqn:E; simpl; intros H; try discriminate.
  - left. now apply String.compare_eq_iff.
  - now right.
Qed.

End StringOrder.

Section Stability.
Import Pandas.

Context {A : Type} (le : A -> A -> bool).

(** Rows that the order does not tell apart keep their frame order. *)
Lemma insert_by_filter (P : A -> Prop) `{forall x, Decision (P x)}
    (x : A) (l : list A) :
  (forall a b, P a -> P b -> le a b = true) ->
  filter P (insert_by le x l) = filter P (x :: l).
Proof.
  intros HP. induction l as [|y l IH]; simpl; [reflexivity|].
  destruct (le x y) eqn:E; [reflexivity|].
  rewrite filter_cons, IH, !filter_cons.
  destruct (decide (P y)) as [Hy|Hy]; destruct (decide (P x)) as [Hx|Hx];
    try reflexivity.
  rewrite (HP x y Hx Hy) in E. discriminate.
Qed.

Lemma stable_sort_filter (P : A -> Prop) `{forall x, Decision (P x)}
    (l : list A) :
  (forall a b, P a -> P b -> le a b = true) ->
  filter P (stable_sort le l) = filter P l.
Proof.
  intros HP. induction l as [|x l IH]; [reflexivity|].
  unfold stable_sort in *. simpl. rewrite insert_by_filter by assumption.
  now rewrite !filter_cons, IH.
Qed.

End Stability.

Section ComparisonTableOrder.
Import Pandas Deployment.

Implicit Types (df : list (row float)) (a b c : comparison).

Lemma cost_le_total (x y : float) : cost_le x y = false -> cost_le y x = true.
Proof.
  unfold cost_le. destruct (F64.isna y) eqn:Ey; [discriminate|].
  destruct (F64.isna x) eqn:Ex; [reflexivity|].
  intros H. destruct (F64.leb y x) eqn:E; [reflexivity|].
  destruct (F64.ltb y x) eqn:L.
  - apply ltb_leb in L. congruence.
  - apply leb_of_not_ltb in L; [congruence|assumption|assumption].
Qed.

Lemma cost_le_trans (x y z : float) :
  cost_le x y = true -> cost_le y z = true -> cost_le x z = true.
Proof.
  unfold cost_le. destruct (F64.isna z) eqn:Ez; [reflexivity|].
  destruct (F64.isna y) eqn:Ey; [discriminate|].
  destruct (F64.isna x) eqn:Ex; [discriminate|]. apply leb_trans.
Qed.

Lemma by_contract_then_cost_iff a b :
  by_contract_then_cost a b = true <->
  String.ltb (cmp_Contract a) (cmp_Contract b) = true
  \/ (cmp_Contract a = cmp_Contract b
      /\ cost_le (cmp_Cost a) (cmp_Cost b) = true).
Proof.
  unfold by_contract_then_cost.
  destruct (String.eqb_spec (cmp_Contract a) (cmp_Contract b)) as [E|E].
  - rewrite E, string_ltb_irrefl. intuition discriminate.
  - intuition.
Qed.

Lemma by_contract_then_cost_total a b :
  by_contract_then_cost a b = false -> by_contract_then_cost b a = true.
Proof.
  intros H. apply by_contract_then_cost_iff.
  unfold by_contract_then_cost in H.
  destruct (String.eqb_spec (cmp_Contract a) (cmp_Contract b)) as [E|E].
  - right. split; [congruence|]. now apply cost_le_total.
  - left. apply string_ltb_total in H as [H|H]; [contradiction|assumption].
Qed.

Lemma by_contract_then_cost_trans a b c :
  by_contract_then_cost a b = true -> by_contract_then_cost b c = true ->
  by_contract_then_cost a c = true.
Proof.
  rewrite !by_contract_then_cost_iff.
  intros [H1|[E1 H1]] [H2|[E2 H2]].
  - left. eapply string_ltb_trans; eassumption.
  - left. now rewrite <- E2.
  - left. now rewrite E1.
  - right. split; [congruence|]. eapply cost_le_trans; eassumption.
Qed.

(** Lines 54-68.  The printed comparison table holds the rows of the
    comparison, each once, ordered by contract name and, within a contract,
    by ascending cost with missing costs last: every row stands before
    every row that follows it in that order.  Rows of the same contract and
    cost keep the order they have in the file. *)
Theorem comparison_table_order df :
  exists l : list comparison,
    formatted_table df
    = (fun c => [FStr (cmp_Contract c); FStr (cmp_Network c); FNum (cmp_Cost c);
                 FNum (Ethereum_Cost c); FNum (Discount_USD c);
                 FNum (Discount_pct c)]) <$> l
    /\ l ≡ₚ comparison_df df
    /\ StronglySorted
         (fun a b =>
            String.ltb (cmp_Contract a) (cmp_Contract b) = true
            \/ (cmp_Contract a = cmp_Contract b
                /\ cost_le (cmp_Cost a) (cmp_Cost b) = true)) l
    /\ (forall c,
          filter (fun y => by_contract_then_cost c y && by_contract_then_cost y c
                           = true) l
          = filter (fun y => by_contract_then_cost c y && by_contract_then_cost y c
                             = true) (comparison_df df)).
Proof.
  exists (stable_sort by_contract_then_cost (comparison_df df)). split_and!.
  - reflexivity.
  - apply stable_sort_perm.
  - apply Sorted_StronglySorted.
    + intros a b c Hab Hbc. apply by_contract_then_cost_iff.
      apply by_contract_then_cost_iff in Hab, Hbc.
      eapply by_contract_then_cost_trans; eassumption.
    + eapply Sorted_weaken;
        [|apply (stable_sort_sorted by_contract_then_cost
                   by_contract_then_cost_total)].
      intros a b. apply by_contract_then_cost_iff.
  - intros c. apply stable_sort_filter.
    intros a b [_ Ha]%andb_prop [Hb _]%andb_prop.
    eapply by_contract_then_cost_trans; eassumption.
Qed.

End ComparisonTableOrder.

(** ** [deployment.py]: charts and summary statistics *)

Section DeploymentSummary.
Import Pandas Deployment.

Implicit Types (df : list (row float)) (r : row float).

Lemma elem_of_unique (l : list string) (x : string) : x ∈ unique l <-> x ∈ l.
Proof.
  induction l as [|y l IH]; simpl; [reflexivity|].
  rewrite !elem_of_cons, list_elem_of_filter, IH.
  destruct (decide (x = y)); intuition.
Qed.

Lemma NoDup_unique (l : list string) : NoDup (unique l).
Proof.
  induction l as [|y l IH]; simpl; constructor.
  - rewrite list_elem_of_filter. intuition.
  - now apply NoDup_filter.
Qed.

Lemma elem_of_contracts df (k : string) :
  k ∈ contracts df <->
  exists r, r ∈ df /\ Network r <> "Ethereum" /\ Contract r = k.
Proof.
  unfold contracts, df_filtered. rewrite elem_of_unique, list_elem_of_fmap.
  split.
  - intros (r & -> & [Hn Hr]%list_elem_of_filter). eauto.
  - intros (r & Hr & Hn & <-). exists r. split; [reflexivity|].
    now apply list_elem_of_filter.
Qed.

Lemma elem_of_contract_rows df (k : string) r :
  r ∈ filter (fun r => Contract r = k) (df_filtered df) <->
  r ∈ df /\ Network r <> "Ethereum" /\ Contract r = k.
Proof. unfold df_filtered. rewrite !list_elem_of_filter. tauto. Qed.

(** Lines 261-270.  The cheapest and the most expensive network printed
    for a contract are rows of that contract on a network other than
    Ethereum: the first row of least cost and the first row of greatest
    cost among them.  When the cost printed is a number, it bounds every
    numeric cost of the contract on those networks. *)
Theorem per_contract_extremes df (contract : string) (lo hi : row float) :
  cheapest df contract = inr lo -> most_expensive df contract = inr hi ->
  first_least Cost (filter (fun r => Contract r = contract) (df_filtered df)) lo
  /\ first_greatest Cost
       (filter (fun r => Contract r = contract) (df_filtered df)) hi
  /\ (lo ∈ df /\ Network lo <> "Ethereum" /\ Contract lo = contract)
  /\ (hi ∈ df /\ Network hi <> "Ethereum" /\ Contract hi = contract)
  /\ (forall r, r ∈ df -> Network r <> "Ethereum" -> Contract r = contract ->
        F64.isna (Cost r) = false ->
        (F64.isna (Cost lo) = false -> F64.leb (Cost lo) (Cost r) = true)
        /\ (F64.isna (Cost hi) = false -> F64.leb (Cost r) (Cost hi) = true)).
Proof.
  unfold cheapest, most_expensive.
  intros Hlo%idxmin_first_least Hhi%idxmax_first_greatest.
  refine (conj _ (conj _ (conj _ (conj _ _)))).
  - assumption.
  - assumption.
  - apply (proj1 (elem_of_contract_rows df contract lo)).
    now apply first_least_elem_of with (col := Cost).
  - apply (proj1 (elem_of_contract_rows df contract hi)).
    now apply first_greatest_elem_of with (col := Cost).
  - intros r Hr Hn Hk Hna.
    assert (Hin : r ∈ filter (fun r => Contract r = contract) (df_filtered df))
      by now apply elem_of_contract_rows.
    split; intros Hna'.
    + now apply (first_least_bound Cost _ lo r Hlo).
    + now apply (first_greatest_bound Cost _ hi r Hhi).
Qed.

Lemma per_contract_extremes_scenario :
  exists lo hi,
    cheapest [Build_row float "cX" "Ethereum" (F64.of_Z 1);
              Build_row float "cX" "Polygon" (F64.of_Z 5);
              Build_row float "cX" "Arbitrum" (F64.of_Z 3)] "cX" = inr lo
    /\ most_expensive [Build_row float "cX" "Ethereum" (F64.of_Z 1);
                       Build_row float "cX" "Polygon" (F64.of_Z 5);
                       Build_row float "cX" "Arbitrum" (F64.of_Z 3)] "cX" = inr hi
    /\ Network lo <> "Ethereum" /\ Network hi <> "Ethereum".
Proof.
  exists (Build_row float "cX" "Arbitrum" (F64.of_Z 3)),
         (Build_row float "cX" "Polygon" (F64.of_Z 5)).
  destruct (per_contract_extremes
              [Build_row float "cX" "Ethereum" (F64.of_Z 1);
               Build_row float "cX" "Polygon" (F64.of_Z 5);
               Build_row float "cX" "Arbitrum" (F64.of_Z 3)] "cX"
              (Build_row float "cX" "Arbitrum" (F64.of_Z 3))
              (Build_row float "cX" "Polygon" (F64.of_Z 5)))
    as (_ & _ & (_ & Hlo & _) & (_ & Hhi & _) & _);
    [reflexivity|reflexivity|].
  split_and!; [reflexivity|reflexivity|exact Hlo|exact Hhi].
Defined.

Lemma summary_statistics_outcome (Q : quicksort) df :
  outcome (summary_statistics Q df)
  = (outcome (for_each (contracts df) (fun contract =>
       r ← lift (cheapest df contract);
       printf "{contract:15}: {cheapest['Network']} (${cheapest['Est. Deployment Cost (USD)']:.6f})"
         [FStr contract; FStr (Network r); FNum (Cost r)])) ≫= fun _ =>
     outcome (for_each (contracts df) (fun contract =>
       r ← lift (most_expensive df contract);
       printf "{contract:15}: {most_expensive['Network']} (${most_expensive['Est. Deployment Cost (USD)']:.2f})"
         [FStr contract; FStr (Network r); FNum (Cost r)]))).
Proof.
  unfold summary_statistics, print.
  rewrite !outcome_emit_then, outcome_bind.
  destruct (outcome (for_each (contracts df) _)) as [e|[]]; [reflexivity|].
  rewrite !result_bind_inr. now rewrite outcome_emit_then.
Qed.

Lemma lookup_line_outcome {X : Type} (m : result X) (k : X -> run unit) :
  (forall x, outcome (k x) = inr tt) ->
  outcome (lift m ≫= k) = inr tt <-> exists x, m = inr x.
Proof.
  intros Hk. rewrite outcome_lift_bind. destruct m as [e|x]; simpl.
  - split; [discriminate|]. now intros [x [=]].
  - rewrite Hk. split; eauto.
Qed.

(** The closing statistics complete when both searches succeed for every
    contract. *)
Lemma summary_statistics_ok_iff (Q : quicksort) df :
  outcome (summary_statistics Q df) = inr tt <->
  forall k, k ∈ contracts df ->
    (exists r, cheapest df k = inr r) /\ (exists r, most_expensive df k = inr r).
Proof.
  rewrite summary_statistics_outcome.
  match goal with
  | |- (outcome (for_each ?l ?b1) ≫= fun _ => outcome (for_each ?l ?b2))
       = inr tt <-> _ =>
      pose proof (for_each_outcome l b1) as E1;
      pose proof (for_each_outcome l b2) as E2;
      set (o1 := outcome (for_each l b1)) in *;
      set (o2 := outcome (for_each l b2)) in *
  end.
  split.
  - intros H k Hk.
    destruct o1 as [e|[]]; [simpl in H; discriminate|].
    rewrite result_bind_inr in H. split.
    + pose proof (proj1 E1 eq_refl _ Hk) as Hc.
      now apply lookup_line_outcome in Hc.
    + pose proof (proj1 E2 H _ Hk) as Hc.
      now apply lookup_line_outcome in Hc.
  - intros Hall. rewrite (proj2 E1).
    + rewrite result_bind_inr. apply E2. intros k Hk.
      apply lookup_line_outcome; [reflexivity|]. now apply Hall.
    + intros k Hk. apply lookup_line_outcome; [reflexivity|]. now apply Hall.
Qed.

Lemma contract_rows_numeric df (k : string) :
  (exists r', r' ∈ filter (fun r => Contract r = k) (df_filtered df)
              /\ F64.isna (Cost r') = false)
  <-> exists r', r' ∈ df /\ Network r' <> "Ethereum"
                 /\ Contract r' = k /\ F64.isna (Cost r') = false.
Proof.
  split; intros (r' & Hr' & Hna).
  - apply elem_of_contract_rows in Hr'. exists r'. tauto.
  - exists r'. split; [apply elem_of_contract_rows; tauto|tauto].
Qed.

Lemma summary_statistics_only_prints (Q : quicksort) df :
  only_prints (summary_statistics Q df).
Proof.
  unfold summary_statistics, print.
  repeat first
    [ apply only_prints_printf
    | apply only_prints_lift
    | apply only_prints_for_each; intros ?
    | apply only_prints_bind; [|intros ?]
    | reflexivity ].
Qed.

(** Lines 229-270.  The closing statistics run to their last line exactly
    when every contract listed on a network other than Ethereum has a
    numeric cost on such a network; they save no figure. *)
Theorem summary_statistics_completes_iff (Q : quicksort) df :
  (outcome (summary_statistics Q df) = inr tt <->
   forall r, r ∈ df -> Network r <> "Ethereum" ->
     exists r', r' ∈ df /\ Network r' <> "Ethereum"
                /\ Contract r' = Contract r /\ F64.isna (Cost r') = false)
  /\ artifacts (trace (summary_statistics Q df)) = [].
Proof.
  split; [|apply only_prints_artifacts, summary_statistics_only_prints].
  rewrite summary_statistics_ok_iff. unfold cheapest, most_expensive. split.
  - intros H r Hr Hn.
    assert (Hk : Contract r ∈ contracts df) by (apply elem_of_contracts; eauto).
    destruct (H _ Hk) as [Hlo _].
    now apply idxmin_ok_iff, contract_rows_numeric in Hlo.
  - intros Hall k (r & Hr & Hn & <-)%elem_of_contracts.
    pose proof (proj2 (contract_rows_numeric df (Contract r)) (Hall r Hr Hn))
      as Hnum.
    split; [now apply idxmin_ok_iff | now apply idxmax_ok_iff].
Qed.

End DeploymentSummary.

(** ** [deployment.py]: the whole run *)

Section DeploymentRun.
Import Pandas Deployment.

Implicit Types (df : list (row float)) (r : row float).

Lemma lift_inr_bind {X Y : Type} (x : X) (k : X -> run Y) :
  lift (inr x) ≫= k = k x.
Proof. unfold lift, mbind, run_mbind, run_bind. now destruct (k x). Qed.

Lemma comparison_table_outcome df : outcome (comparison_table df) = inr tt.
Proof. reflexivity. Qed.

Lemma comparison_table_only_prints df : only_prints (comparison_table df).
Proof. reflexivity. Qed.

Lemma analysis_unfold (Q : quicksort) (raw : list (row cell)) df :
  clean raw = inr df ->
  analysis Q raw
  = (comparison_table df;; visualizations df;; summary_statistics Q df).
Proof.
  intros H. unfold analysis. rewrite H.
  apply (lift_inr_bind df
           (fun df => comparison_table df;; visualizations df;;
                      summary_statistics Q df)).
Qed.

(** Lines 85-125.  Each of the two chart grids has six cells, indexed by
    the position of the contract: with more than six distinct contracts
    listed on networks other than Ethereum the script stops on
    [IndexError] while it draws the first grid.  The comparison table has
    been printed by then; no chart is written and the summary statistics
    are never reached. *)
Theorem more_than_six_contracts (Q : quicksort) (raw : list (row cell)) df
    (ks : list string) :
  clean raw = inr df ->
  NoDup ks -> (6 < length ks)%nat ->
  (forall k, k ∈ ks ->
     exists r, r ∈ df /\ Network r <> "Ethereum" /\ Contract r = k) ->
  outcome (analysis Q raw) = inl IndexError
  /\ artifacts (trace (analysis Q raw)) = []
  /\ trace (analysis Q raw) = trace (comparison_table df).
Proof.
  intros Hclean Hnd Hlen Hks.
  assert (Hmany : (6 < length (contracts df))%nat).
  { eapply Nat.lt_le_trans; [exact Hlen|].
    apply submseteq_length, NoDup_submseteq; [assumption|].
    intros k Hk. now apply elem_of_contracts, Hks. }
  rewrite (analysis_unfold Q raw df Hclean).
  assert (Hv : (visualizations df;; summary_statistics Q df)
               = ([], inl IndexError)).
  { unfold visualizations. now rewrite decide_True by assumption. }
  rewrite outcome_bind, trace_bind, comparison_table_outcome, Hv.
  cbn [outcome trace fst snd mbind result_mbind]. rewrite app_nil_r.
  split_and!; [reflexivity| |reflexivity].
  apply only_prints_artifacts, comparison_table_only_prints.
Qed.

Lemma more_than_six_contracts_scenario :
  outcome (analysis insertion_quicksort
             ((fun k => Build_row cell k "Polygon" (Text "$1"))
              <$> ["c1"; "c2"; "c3"; "c4"; "c5"; "c6"; "c7"]))
  = inl IndexError.
Proof.
  apply (more_than_six_contracts insertion_quicksort _
           ((fun k => Build_row float k "Polygon" (F64.of_Z 1))
            <$> ["c1"; "c2"; "c3"; "c4"; "c5"; "c6"; "c7"])
           ["c1"; "c2"; "c3"; "c4"; "c5"; "c6"; "c7"]).
  - vm_compute. reflexivity.
  - compute_done.
  - simpl. lia.
  - intros k Hk. exists (Build_row float k "Polygon" (F64.of_Z 1)).
    split; [|split; [discriminate|reflexivity]].
    apply list_elem_of_fmap. eauto.
Defined.

(** Lines 20-270.  With one to six contracts on networks other than
    Ethereum, all of numeric cost there, the script runs to its end and
    writes its three charts, in this order.  (Without such a contract the
    plotting library is handed empty data: that case is left out.) *)
Theorem charts_then_statistics (Q : quicksort) (raw : list (row cell)) df :
  clean raw = inr df ->
  contracts df <> [] -> (length (contracts df) <= 6)%nat ->
  Forall (fun r => F64.isna (Cost r) = false) (df_filtered df) ->
  outcome (analysis Q raw) = inr tt
  /\ artifacts (trace (analysis Q raw))
     = ["deployment_costs_bar_charts.png"; "deployment_costs_line_charts.png";
        "deployment_costs_summary.png"].
Proof.
  intros Hclean _ Hlen Hnum.
  rewrite (analysis_unfold Q raw df Hclean).
  pose proof (only_prints_artifacts _ (summary_statistics_only_prints Q df))
    as Hart.
  assert (Hok : outcome (summary_statistics Q df) = inr tt).
  { apply summary_statistics_ok_iff.
    intros k (r & Hr & Hn & <-)%elem_of_contracts.
    assert (Hrow : exists r', r' ∈ filter (fun y => Contract y = Contract r)
                                      (df_filtered df)
                              /\ F64.isna (Cost r') = false).
    { apply contract_rows_numeric. exists r. split_and!; try done.
      rewrite Forall_forall in Hnum. apply Hnum.
      unfold df_filtered. now apply list_elem_of_filter. }
    unfold cheapest, most_expensive.
    split; [now apply idxmin_ok_iff | now apply idxmax_ok_iff]. }
  pose proof (only_prints_artifacts _ (comparison_table_only_prints df)) as Hcmp.
  pose proof (comparison_table_outcome df) as Hcmp'.
  unfold visualizations. rewrite decide_False by lia.
  destruct (summary_statistics Q df) as [t o].
  destruct (comparison_table df) as [t' o'].
  unfold outcome, trace in *. simpl in Hok, Hart, Hcmp, Hcmp'. subst o o'.
  cbn. split; [reflexivity|].
  change (omap _ (t' ++ ?l)) with (artifacts (t' ++ l)).
  rewrite artifacts_app, Hcmp. cbn. unfold artifacts in Hart. now rewrite Hart.
Qed.

Lemma charts_then_statistics_scenario :
  artifacts (trace (analysis insertion_quicksort
                      [Build_row cell "cX" "Ethereum" (Text "$10");
                       Build_row cell "cX" "Polygon" (Text "$5")]))
  = ["deployment_costs_bar_charts.png"; "deployment_costs_line_charts.png";
     "deployment_costs_summary.png"].
Proof.
  apply (charts_then_statistics insertion_quicksort _
           [Build_row float "cX" "Ethereum" (F64.of_Z 10);
            Build_row float "cX" "Polygon" (F64.of_Z 5)]).
  - vm_compute. reflexivity.
  - discriminate.
  - simpl. lia.
  - repeat constructor.
Defined.

End DeploymentRun.

(** ** [deployment.py]: the table of network averages *)

Section NetworkAverages.
Import Pandas Deployment.

Implicit Types (df : list (row float)) (r : row float) (s : summary).

Lemma elem_of_network_avg_costs (Q : quicksort) df (k : string) (v : float) :
  (k, v) ∈ network_avg_costs Q df <->
  (exists r, r ∈ df /\ Network r <> "Ethereum" /\ Network r = k)
  /\ v = mean (Cost <$> filter (fun r => Network r = k) (df_filtered df)).
Proof.
  unfold network_avg_costs. rewrite sort_values_perm. unfold agg.
  rewrite list_elem_of_fmap. split.
  - intros ([k' g] & [= -> ->] & (Hk & ->)%elem_of_groupby). split; [|reflexivity].
    apply list_elem_of_fmap in Hk as (r & -> & [Hn Hr]%list_elem_of_filter). eauto.
  - intros ((r & Hr & Hn & <-) & ->).
    exists (Network r, filter (fun y => Network y = Network r) (df_filtered df)).
    split; [reflexivity|]. apply elem_of_groupby. split; [|reflexivity].
    apply list_elem_of_fmap. exists r. split; [reflexivity|].
    unfold df_filtered. now apply list_elem_of_filter.
Qed.

Lemma summary_df_networks (Q : quicksort) df :
  (fun s : summary => s.1.1.1) <$> summary_df Q df
  ≡ₚ sorted_keys (Network <$> df_filtered df).
Proof.
  unfold summary_df. rewrite <- list_fmap_compose.
  change ((fun s : summary => s.1.1.1) ∘ _) with (@fst string float).
  unfold network_avg_costs. rewrite sort_values_perm, agg_keys.
  now rewrite groupby_keys.
Qed.

(** Lines 233-247.  The printed table of averages lists every network other
    than Ethereum once, with the mean of its costs, the difference to the
    Ethereum mean and that difference as a percentage of the Ethereum mean,
    and one more row for Ethereum, whose difference and percentage are [0];
    the rows ascend by mean cost, rows without a mean last. *)
Theorem final_summary_rows (Q : quicksort) df :
  (fun s : summary => s.1.1.1) <$> final_summary_df Q df
  ≡ₚ sorted_keys (Network <$> df_filtered df) ++ ["Ethereum"]
  /\ NoDup ((fun s : summary => s.1.1.1) <$> final_summary_df Q df)
  /\ ascending_nan_last (fun s : summary => s.1.1.2) (final_summary_df Q df)
  /\ (forall s, s ∈ final_summary_df Q df -> s.1.1.1 <> "Ethereum" ->
        s.1.1.2
        = mean (Cost <$> filter (fun r => Network r = s.1.1.1) (df_filtered df))
        /\ s.1.2 = F64.sub (average_ethereum_cost df) s.1.1.2
        /\ s.2 = F64.mul (F64.div s.1.2 (average_ethereum_cost df)) (F64.of_Z 100))
  /\ (forall s, s ∈ final_summary_df Q df -> s.1.1.1 = "Ethereum" ->
        s = ("Ethereum", mean (Cost <$> ethereum_df df), F64.of_Z 0, F64.of_Z 0)).
Proof.
  assert (Hnames : (fun s : summary => s.1.1.1) <$> final_summary_df Q df
                   ≡ₚ sorted_keys (Network <$> df_filtered df) ++ ["Ethereum"]).
  { unfold final_summary_df. rewrite sort_values_perm, fmap_app.
    now rewrite summary_df_networks. }
  assert (Hin : forall s, s ∈ final_summary_df Q df ->
            s = eth_row df
            \/ (s.1.1.1 <> "Ethereum"
                /\ s.1.1.2 = mean (Cost <$> filter (fun r => Network r = s.1.1.1)
                                              (df_filtered df))
                /\ s.1.2 = F64.sub (average_ethereum_cost df) s.1.1.2
                /\ s.2 = F64.mul (F64.div s.1.2 (average_ethereum_cost df))
                           (F64.of_Z 100))).
  { intros s. unfold final_summary_df. rewrite sort_values_perm, elem_of_app.
    intros [Hs|Hs%list_elem_of_singleton]; [right|now left].
    unfold summary_df in Hs.
    apply list_elem_of_fmap in Hs as ([k v] & -> & Hkv).
    apply elem_of_network_avg_costs in Hkv as ((r & Hr & Hn & <-) & ->).
    simpl. auto. }
  split_and!.
  - exact Hnames.
  - rewrite Hnames. apply NoDup_app. split_and!.
    + apply sorted_keys_NoDup.
    + intros k Hk ->%list_elem_of_singleton.
      apply elem_of_sorted_keys, list_elem_of_fmap in Hk
        as (r & Hr & [Hn _]%list_elem_of_filter).
      now destruct Hn.
    + apply NoDup_singleton.
  - apply sort_values_ascending.
  - intros s Hs Hne. destruct (Hin s Hs) as [->|(_ & H)]; [now destruct Hne|].
    exact H.
  - intros s Hs He. destruct (Hin s Hs) as [->|(Hne & _)]; [reflexivity|].
    now destruct Hne.
Qed.

End NetworkAverages.

(** ** The deployment pivot of [panda.py] on cleaned rows *)

Section DeploymentPivotCells.
Import Pandas Panda.

(** Lines 16-18 and 60-63.  When the deployment pivot is built, the cell of
    a deployment row reads back the cost of that very row: the cleaned rows
    hold numbers only, so [fillna(0)] changes no cell that has a row. *)
Theorem deployment_pivot_cells (raw : list (row cell)) (f : frame)
    (r : row float) :
  pivot_deployment (clean raw) = inr f ->
  r ∈ deployment_df (clean raw) ->
  loc f (Contract r) (Network r) = Some (USD_Avg r)
  /\ F64.isna (USD_Avg r) = false.
Proof.
  intros Hf Hr.
  assert (Hna : F64.isna (USD_Avg r) = false).
  { apply list_elem_of_filter in Hr as [_ Hr]. unfold clean in Hr.
    now apply list_elem_of_filter in Hr as [Hna _]. }
  split; [|assumption].
  unfold pivot_deployment, pivot in Hf.
  destruct (decide (NoDup _)) as [Hnd|]; [|discriminate]. injection Hf as <-.
  set (s := (fun r : row float => (Contract r, Network r, USD_Avg r))
            <$> deployment_df (clean raw)) in *.
  assert (Hin : (Contract r, Network r, USD_Avg r) ∈ s).
  { apply list_elem_of_fmap. eauto. }
  destruct (unstack_labels _ _ _ _ Hin) as [Ha Hb].
  rewrite loc_fillna, loc_unstack by assumption. simpl.
  rewrite (entry_NoDup s _ _ _ Hnd Hin). unfold fill. now rewrite Hna.
Qed.

Lemma deployment_pivot_cells_scenario :
  exists f,
    pivot_deployment
      (clean [Build_row cell "Token" "deployment" "Arbitrum" (Text "2.5");
              Build_row cell "Token" "deployment" "Base" (Text "n/a")]) = inr f
    /\ loc f "Token" "Arbitrum" = Some (F64.of_decimal false 25 (-1)).
Proof.
  eexists. split; [vm_compute; reflexivity|].
  apply (deployment_pivot_cells
           [Build_row cell "Token" "deployment" "Arbitrum" (Text "2.5");
            Build_row cell "Token" "deployment" "Base" (Text "n/a")] _
           (Build_row float "Token" "deployment" "Arbitrum"
              (F64.of_decimal false 25 (-1)))).
  - vm_compute. reflexivity.
  - vm_compute. apply list_elem_of_here.
Defined.

End DeploymentPivotCells.

(** ** [contract.py]: the line series and the course of the run *)

Section ContractChartsRun.
Import Pandas ContractCharts.

Implicit Types (df : list row) (c n : string).

Lemma elem_of_enumerate {A : Type} (l : list A) (i : nat) (x : A) :
  (i, x) ∈ enumerate l <-> l !! i = Some x.
Proof.
  unfold enumerate. rewrite list_elem_of_lookup. split.
  - intros [j Hj]. apply lookup_zip_Some in Hj as [Hi Hx].
    apply lookup_seq in Hi as [-> _]. exact Hx.
  - intros Hx. exists i. apply lookup_zip_Some. split; [|exact Hx].
    apply lookup_seq. split; [reflexivity|]. eapply lookup_lt_Some, Hx.
Qed.

Lemma grid_of_six {A : Type} (l : list A) :
  (forall i x, (i, x) ∈ enumerate l -> (i < 6)%nat) <-> (length l <= 6)%nat.
Proof.
  split.
  - intros H. destruct (decide (length l <= 6)%nat); [assumption|].
    destruct (lookup_lt_is_Some_2 l 6) as [x Hx]; [lia|].
    specialize (H 6%nat x (proj2 (elem_of_enumerate l 6 x) Hx)). lia.
  - intros H i x Hix%elem_of_enumerate. apply lookup_lt_Some in Hix. lia.
Qed.

Lemma for_each_silent {A : Type} (l : list A) (body : A -> run unit) :
  (forall x, trace (body x) = []) -> trace (for_each l body) = [].
Proof.
  intros H. induction l as [|x l IH]; [reflexivity|]. simpl.
  rewrite trace_bind, H. now destruct (outcome (body x)).
Qed.

(** No (contract, network, function) triple occurs twice exactly when, for
    every contract and network, the rows of the pair name each function
    once. *)
Lemma triples_NoDup df :
  NoDup ((fun r => (AvgCost.Contract r, AvgCost.Network r, AvgCost.Function r))
         <$> df)
  <-> forall c n,
        NoDup (AvgCost.Function <$>
                 filter (fun r => AvgCost.Network r = n)
                   (filter (fun r => AvgCost.Contract r = c) df)).
Proof.
  induction df as [|x df IH].
  - split; intros; constructor.
  - rewrite fmap_cons, NoDup_cons, IH. split.
    + intros [Hx Hall] c n. rewrite filter_cons.
      destruct (decide (AvgCost.Contract x = c)) as [<-|Hc]; [|apply Hall].
      rewrite filter_cons.
      destruct (decide (AvgCost.Network x = n)) as [<-|Hn]; [|apply Hall].
      rewrite fmap_cons. apply NoDup_cons. split; [|apply Hall].
      intros (y & Hf & Hy)%list_elem_of_fmap.
      apply list_elem_of_filter in Hy as [Hyn Hy].
      apply list_elem_of_filter in Hy as [Hyc Hy].
      apply Hx. apply list_elem_of_fmap. exists y. split; [congruence|assumption].
    + intros H. split.
      * intros (y & Hf & Hy)%list_elem_of_fmap. injection Hf as Hc Hn Hfn.
        specialize (H (AvgCost.Contract x) (AvgCost.Network x)).
        rewrite filter_cons, decide_True in H by reflexivity.
        rewrite filter_cons, decide_True, fmap_cons in H by reflexivity.
        apply NoDup_cons in H as [Hnot _]. apply Hnot.
        apply list_elem_of_fmap. exists y. split; [assumption|].
        apply list_elem_of_filter. split; [congruence|].
        apply list_elem_of_filter. split; [congruence|assumption].
      * intros c n. specialize (H c n). rewrite filter_cons in H.
        destruct (decide (AvgCost.Contract x = c)); [|assumption].
        rewrite filter_cons in H.
        destruct (decide (AvgCost.Network x = n)); [|assumption].
        rewrite fmap_cons in H. now apply NoDup_cons in H as [_ H].
Qed.

Lemma line_series_ok_iff df c :
  (exists s, line_series df c = inr s) <->
  forall n, NoDup (AvgCost.Function <$>
                     filter (fun r => AvgCost.Network r = n)
                       (filter (fun r => AvgCost.Contract r = c) df)).
Proof.
  unfold line_series. split.
  - intros [s Hs] n.
    destruct (decide (n ∈ AvgCost.Network <$> df)) as [Hn|Hn].
    + apply mapM_result_inr in Hs.
      apply elem_of_unique, list_elem_of_lookup in Hn as [i Hi].
      destruct (Forall2_lookup_l _ _ _ _ _ Hs Hi) as (y & _ & Hy).
      unfold reindex in Hy. now destruct (decide (NoDup _)).
    + replace (filter (fun r => AvgCost.Network r = n) _) with (@nil row);
        [constructor|].
      symmetry. destruct (filter _ (filter _ df)) as [|x l] eqn:E; [reflexivity|].
      assert (Hx : x ∈ x :: l) by apply list_elem_of_here. rewrite <- E in Hx.
      apply list_elem_of_filter in Hx as [<- Hx].
      apply list_elem_of_filter in Hx as [_ Hx].
      destruct Hn. apply list_elem_of_fmap. eauto.
  - intros H.
    destruct (mapM _ (unique (AvgCost.Network <$> df))) as [e|s] eqn:E; [|eauto].
    apply mapM_result_inl in E as (n & _ & Hn).
    unfold reindex in Hn. rewrite decide_True in Hn by apply H. discriminate.
Qed.

(** Lines 35-41.  The lines of a contract's cell are drawn when no network
    lists a function of the contract twice.  There is then one line per
    network of the file, over the functions of the contract in their order
    of first appearance; at a function the line holds the cost of the row of
    that contract, network and function, and NaN when there is no such
    row. *)
Theorem line_series_values df c (series : list (string * list (string * float))) :
  line_series df c = inr series ->
  series.*1 = unique (AvgCost.Network <$> df)
  /\ Forall (fun ns =>
       ns.2.*1 = functions (filter (fun r => AvgCost.Contract r = c) df)
       /\ forall f v, (f, v) ∈ ns.2 ->
            (forall r, r ∈ df -> AvgCost.Contract r = c ->
               AvgCost.Network r = ns.1 -> AvgCost.Function r = f ->
               v = AvgCost.usd_avg r)
            /\ ((forall r, r ∈ df -> AvgCost.Contract r = c ->
                   AvgCost.Network r = ns.1 -> AvgCost.Function r <> f) ->
                v = F64.nan)) series.
Proof.
  unfold line_series. intros Hs%mapM_result_inr. split.
  - induction Hs as [|n ns l k Hn Hs IH]; [reflexivity|]. csimpl. f_equal.
    + destruct (reindex _ _); [discriminate|]. now injection Hn as <-.
    + exact IH.
  - apply Forall_forall. intros [n s] Hin.
    apply list_elem_of_lookup in Hin as [i Hi].
    destruct (Forall2_lookup_r _ _ _ _ _ Hs Hi) as (n' & _ & Hn').
    unfold reindex in Hn'.
    destruct (decide (NoDup _)) as [Hnd|]; [|discriminate].
    injection Hn' as -> <-. simpl. split.
    + rewrite <- list_fmap_compose. apply list_fmap_id.
    + intros f v (f' & [= <- ->] & _)%list_elem_of_fmap.
      set (rows := filter (fun r => AvgCost.Network r = n)
                     (filter (fun r => AvgCost.Contract r = c) df)) in *.
      split.
      * intros r Hr Hc Hrn Hf.
        assert (Hin : r ∈ filter (fun r => AvgCost.Function r = f) rows).
        { apply list_elem_of_filter. split; [assumption|].
          apply list_elem_of_filter. split; [assumption|].
          now apply list_elem_of_filter. }
        destruct (filter (fun r => AvgCost.Function r = f) rows) as [|y l] eqn:E;
          [now apply not_elem_of_nil in Hin|].
        apply elem_of_cons in Hin as [->|Hin]; [reflexivity|].
        assert (Hl : NoDup (AvgCost.Function <$> (y :: l))).
        { rewrite <- E. eapply sublist_NoDup; [exact Hnd|].
          apply fmap_sublist, sublist_filter. }
        rewrite fmap_cons in Hl. apply NoDup_cons in Hl as [Hy _].
        destruct Hy. apply list_elem_of_fmap. exists r. split; [|assumption].
        assert (Hy : y ∈ filter (fun r => AvgCost.Function r = f) rows)
          by (rewrite E; apply list_elem_of_here).
        apply list_elem_of_filter in Hy as [-> _]. now symmetry.
      * intros Hno.
        destruct (filter (fun r => AvgCost.Function r = f) rows) as [|y l] eqn:E;
          [reflexivity|].
        assert (Hy : y ∈ filter (fun r => AvgCost.Function r = f) rows)
          by (rewrite E; apply list_elem_of_here).
        apply list_elem_of_filter in Hy as [Hf Hy].
        apply list_elem_of_filter in Hy as [Hyn Hy].
        apply list_elem_of_filter in Hy as [Hyc Hy].
        now destruct (Hno y Hy Hyc Hyn).
Qed.

Lemma line_series_values_scenario :
  line_series three_operations "cX"
  = inr [("netA", [("mint", F64.of_Z 3)]); ("netB", [("mint", F64.of_Z 7)])]
  /\ [("netA", [("mint", F64.of_Z 3)]); ("netB", [("mint", F64.of_Z 7)])].*1
     = unique (AvgCost.Network <$> three_operations).
Proof.
  split; [reflexivity|].
  now apply (line_series_values three_operations "cX").
Defined.

Lemma line_chart_outcome df (i : nat) c :
  outcome (line_chart df i c) = inr tt <->
  (i < 6)%nat /\ exists s, line_series df c = inr s.
Proof.
  unfold line_chart. destruct (decide (6 <= i)%nat) as [Hi|Hi].
  - split; [discriminate|]. intros [? _]. lia.
  - destruct (line_series df c) as [e|s]; simpl.
    + split; [discriminate|]. now intros [_ [s [=]]].
    + split; [|reflexivity]. intros _. split; [lia|eauto].
Qed.

Lemma first_grid_outcome df :
  outcome (for_each (enumerate (unique (AvgCost.Contract <$> df)))
             (fun '(i, contract) => line_chart df i contract)) = inr tt
  <-> (length (unique (AvgCost.Contract <$> df)) <= 6)%nat
      /\ NoDup ((fun r => (AvgCost.Contract r, AvgCost.Network r,
                           AvgCost.Function r)) <$> df).
Proof.
  rewrite for_each_outcome, <- grid_of_six, triples_NoDup. split.
  - intros H. split.
    + intros i x Hix. now apply (H (i, x)), line_chart_outcome in Hix as [? _].
    + intros c n.
      destruct (decide (c ∈ AvgCost.Contract <$> df)) as [Hc|Hc].
      * apply elem_of_unique, list_elem_of_lookup in Hc as [i Hi].
        apply elem_of_enumerate in Hi.
        apply (H (i, c)), line_chart_outcome in Hi as [_ Hs].
        now apply line_series_ok_iff.
      * replace (filter (fun r => AvgCost.Contract r = c) df) with (@nil row);
          [constructor|].
        symmetry. destruct (filter _ df) as [|x l] eqn:E; [reflexivity|].
        assert (Hx : x ∈ x :: l) by apply list_elem_of_here. rewrite <- E in Hx.
        apply list_elem_of_filter in Hx as [<- Hx].
        destruct Hc. apply list_elem_of_fmap. eauto.
  - intros [Hsix Hnd] [i c] Hic. apply line_chart_outcome. split.
    + eapply Hsix, Hic.
    + apply line_series_ok_iff. intros n. apply Hnd.
Qed.

Lemma second_grid_outcome {A : Type} (l : list A) :
  (length l <= 6)%nat ->
  outcome (for_each (enumerate l) (fun '(i, _) => variability_chart i)) = inr tt.
Proof.
  intros H. apply for_each_outcome. intros [i x] Hix.
  apply (proj2 (grid_of_six l) H) in Hix. unfold variability_chart.
  destruct (decide (6 <= i)%nat); [lia|reflexivity].
Qed.

(** Lines 6-81.  On a file that exists, each of whose contracts has a
    numeric cost, the script writes both charts or none.  It runs to its
    end, with both charts saved, exactly when the file names at most six
    contracts and lists no (contract, network, function) triple twice;
    otherwise it stops on an exception while it draws the first grid,
    before any chart is written. *)
Theorem line_charts_all_or_nothing (read_csv : string -> option (list row))
    (dir_exists : bool) (filepath : string) df :
  read_csv filepath = Some df ->
  (forall r, r ∈ df ->
     exists r', r' ∈ df /\ AvgCost.Contract r' = AvgCost.Contract r
                /\ F64.isna (AvgCost.usd_avg r') = false) ->
  (outcome (create_line_charts read_csv dir_exists filepath) = inr tt <->
   (length (unique (AvgCost.Contract <$> df)) <= 6)%nat
   /\ NoDup ((fun r => (AvgCost.Contract r, AvgCost.Network r,
                        AvgCost.Function r)) <$> df))
  /\ (outcome (create_line_charts read_csv dir_exists filepath) = inr tt ->
      artifacts (trace (create_line_charts read_csv dir_exists filepath))
      = ["gas_cost_analysis_charts/merged_contract_costs_line_chart.png";
         "gas_cost_analysis_charts/function_cost_variability_stddev_chart.png"])
  /\ (outcome (create_line_charts read_csv dir_exists filepath) <> inr tt ->
      artifacts (trace (create_line_charts read_csv dir_exists filepath)) = []).
Proof.
  intros Hread _. unfold create_line_charts. rewrite Hread.
  pose proof (first_grid_outcome df) as H1.
  pose proof (second_grid_outcome (unique (AvgCost.Contract <$> df))) as H2.
  assert (T1 : trace (for_each (enumerate (unique (AvgCost.Contract <$> df)))
                        (fun '(i, contract) => line_chart df i contract)) = []).
  { apply for_each_silent. intros [i c]. unfold line_chart.
    destruct (decide (6 <= i)%nat); [reflexivity|].
    now destruct (line_series df c). }
  assert (T2 : trace (for_each (enumerate (unique (AvgCost.Contract <$> df)))
                        (fun '(i, _) => variability_chart i)) = []).
  { apply for_each_silent. intros [i c]. unfold variability_chart.
    now destruct (decide (6 <= i)%nat). }
  destruct (for_each _ (fun '(i, contract) => line_chart df i contract))
    as [t1 o1].
  destruct (for_each _ (fun '(i, _) => variability_chart i)) as [t2 o2].
  unfold outcome, trace in *. simpl in H1, H2, T1, T2. subst t1 t2.
  destruct o1 as [e1|[]].
  - assert (Hno : ~ ((length (unique (AvgCost.Contract <$> df)) <= 6)%nat
                     /\ NoDup ((fun r => (AvgCost.Contract r, AvgCost.Network r,
                                          AvgCost.Function r)) <$> df))).
    { intros H. apply H1 in H. discriminate. }
    destruct dir_exists; cbn; (split_and!; [split; [discriminate|tauto]
                                           |discriminate|reflexivity]).
  - pose proof (proj1 H1 eq_refl) as [Hsix Hnd]. rewrite (H2 Hsix).
    destruct dir_exists; cbn; (split_and!; [tauto|reflexivity|congruence]).
Qed.

Lemma line_charts_all_or_nothing_scenario :
  outcome (create_line_charts (fun _ => Some three_operations) true "contract.csv")
  = inr tt.
Proof.
  apply (line_charts_all_or_nothing (fun _ => Some three_operations) true
           "contract.csv" three_operations eq_refl).
  - intros r Hr. exists r. split; [assumption|]. split; [reflexivity|].
    apply list_elem_of_In in Hr. simpl in Hr.
    destruct Hr as [<-|[<-|[<-|[]]]]; reflexivity.
  - split; [simpl; lia|compute_done].
Defined.

End ContractChartsRun.
